(** * Batched execution of the ONNX Runtime backend

    A shallow embedding of [src/backends/onnx/onnx_backend.cc]:
    [OnnxBackend::Run], [OnnxBackend::Context::Run],
    [OnnxBackend::Context::SetInputTensor],
    [OnnxBackend::Context::ReadOutputTensors] and
    [OnnxBackend::Context::ReleaseOrtRunResources].

    Conventions.
    - A [size_t] is a [Z] in [0, 2^64); every arithmetic result that the
      source stores in a [size_t] is reduced with [to_size_t].
    - Raw memory is a list of cells; a cell is [None] while the byte is
      indeterminate ([new char[n]] does not initialise).
    - The request and response providers, the model configuration
      helpers and the ONNX Runtime C API are not part of the translation
      unit.  The providers are data carried by each payload; the helpers
      and the runtime are the fields of the record [Externals].
    - Calls into the runtime and the completion callback are observable:
      they are recorded, in program order, as a list of [Event]s. *)

From Stdlib Require Import ZArith List String Bool Lia.
From Stdlib Require Import Strings.Byte DecimalString.
Import ListNotations.
Open Scope string_scope.
Close Scope list_scope.
Open Scope list_scope.
Open Scope Z_scope.

Set Implicit Arguments.

(* ------------------------------------------------------------------ *)
(** ** Machine integers *)

Definition size_t_modulus : Z := 2 ^ 64.

(** Conversion to [size_t] (and every [size_t] operation): reduction
    modulo 2^64. *)
Definition to_size_t (z : Z) : Z := z mod size_t_modulus.

(** Conversion of a [size_t] to [int64_t] (two's complement). *)
Definition to_int64 (z : Z) : Z := (z + 2 ^ 63) mod 2 ^ 64 - 2 ^ 63.

(** [std::to_string] on integers. *)
Definition to_string (z : Z) : string := NilZero.string_of_int (Z.to_int z).

(* ------------------------------------------------------------------ *)
(** ** Status *)

Inductive RequestStatusCode : Type :=
| SUCCESS | UNKNOWN | INTERNAL | NOT_FOUND | INVALID_ARG
| UNAVAILABLE | UNSUPPORTED | ALREADY_EXISTS.

Definition code_eqb (a b : RequestStatusCode) : bool :=
  match a, b with
  | SUCCESS, SUCCESS | UNKNOWN, UNKNOWN | INTERNAL, INTERNAL
  | NOT_FOUND, NOT_FOUND | INVALID_ARG, INVALID_ARG
  | UNAVAILABLE, UNAVAILABLE | UNSUPPORTED, UNSUPPORTED
  | ALREADY_EXISTS, ALREADY_EXISTS => true
  | _, _ => false
  end.

Record Status : Type := mkStatus { code : RequestStatusCode; msg : string }.

Definition Success : Status := mkStatus SUCCESS "".

Definition IsOk (s : Status) : bool := code_eqb (code s) SUCCESS.

(* ------------------------------------------------------------------ *)
(** ** Model configuration *)

Inductive DataType : Type :=
| TYPE_INVALID | TYPE_BOOL
| TYPE_UINT8 | TYPE_UINT16 | TYPE_UINT32 | TYPE_UINT64
| TYPE_INT8 | TYPE_INT16 | TYPE_INT32 | TYPE_INT64
| TYPE_FP16 | TYPE_FP32 | TYPE_FP64 | TYPE_STRING.

Definition DimsList : Type := list Z.

Record ModelInput : Type := mkModelInput {
  mi_name : string;
  mi_data_type : DataType;
  mi_dims : DimsList
}.

Record ModelOutput : Type := mkModelOutput {
  mo_name : string;
  mo_data_type : DataType;
  mo_dims : DimsList
}.

Record ModelConfig : Type := mkModelConfig {
  cfg_max_batch_size : Z;
  cfg_input : list ModelInput;
  cfg_output : list ModelOutput
}.

(* ------------------------------------------------------------------ *)
(** ** Memory *)

Definition Cell : Type := option byte.
Definition Buffer : Type := list Cell.

(** [new char[n]]: [n] indeterminate bytes. *)
Definition new_char_array (n : Z) : Buffer := repeat None (Z.to_nat n).

(** [memcpy(buffer + off, content, |content|)].  The source guards every
    call so that the destination range lies inside the buffer. *)
Definition memcpy (buffer : Buffer) (off : Z) (content : list byte) : Buffer :=
  firstn (Z.to_nat off) buffer
  ++ map Some content
  ++ skipn (Z.to_nat off + List.length content) buffer.

(** The [len] bytes of [b] that start at [off]. *)
Definition slice (b : Buffer) (off len : Z) : Buffer :=
  firstn (Z.to_nat len) (skipn (Z.to_nat off) b).

(* ------------------------------------------------------------------ *)
(** ** Payloads and their providers *)

Record HeaderInput : Type := mkHeaderInput {
  hi_name : string;
  hi_dims : DimsList
}.

Record InferRequestHeader : Type := mkHeader {
  batch_size : Z;                      (* uint32 *)
  input : list HeaderInput
}.

Record InputOverride : Type := mkOverride {
  content_ : list byte;
  dims_ : DimsList;
  datatype_ : DataType
}.

(** One answer of [GetNextInputContent]: the returned status and the
    chunk handed back ([None] is [content == nullptr]). *)
Record ContentReply : Type := mkReply {
  reply_status : Status;
  reply_content : option (list byte)
}.

(** Modelled from the spec: the request provider ([provider.h]) is
    missing; it "exposes batch size, named input content (pull-based,
    may require multiple pulls per input) and optional named input
    overrides".  [pending] holds, for each input name, the answers the
    provider will give to the successive calls of [GetNextInputContent]
    for that name; once they are used up it answers success with no
    content.  Distinct payloads have distinct providers. *)
Record InferRequestProvider : Type := mkRequestProvider {
  RequestHeader : InferRequestHeader;
  GetInputOverride : option (list (string * InputOverride));
  pending : list (string * list ContentReply)
}.

Fixpoint replies_for (name : string) (m : list (string * list ContentReply))
  : list ContentReply :=
  match m with
  | [] => []
  | (k, v) :: rest => if String.eqb k name then v else replies_for name rest
  end.

Fixpoint set_replies (name : string) (v : list ContentReply)
    (m : list (string * list ContentReply)) : list (string * list ContentReply) :=
  match m with
  | [] => []
  | (k, w) :: rest =>
      if String.eqb k name then (k, v) :: rest
      else (k, w) :: set_replies name v rest
  end.

(** Modelled from the spec: the response provider ([provider.h]) is
    missing; it "exposes a per-output required predicate and a
    sized-buffer allocator".  The record holds the outputs the request
    asked for, the outcome of [AllocateOutputBuffer] for a name, a byte
    size and a shape, the sizes requested so far and the buffers filled
    so far. *)
Record InferResponseProvider : Type := mkResponseProvider {
  required_outputs : list string;
  alloc_outcome : string -> Z -> list Z -> Status;
  alloc_requests : list (string * Z);
  output_buffers : list (string * Buffer)
}.

Definition RequiresOutput (rp : InferResponseProvider) (name : string) : bool :=
  existsb (String.eqb name) (required_outputs rp).

Record ModelInferStats : Type := mkStats {
  compute_timer_started : bool;
  stats_gpu_device : Z
}.

Record Payload : Type := mkPayload {
  queue_timer_ : bool;                 (* queue_timer_ != nullptr *)
  stats_ : option ModelInferStats;
  request_provider_ : InferRequestProvider;
  response_provider_ : option InferResponseProvider;
  status_ : Status
}.

Definition payload_batch_size (p : Payload) : Z :=
  batch_size (RequestHeader (request_provider_ p)).

Definition set_status (p : Payload) (s : Status) : Payload :=
  mkPayload (queue_timer_ p) (stats_ p) (request_provider_ p)
            (response_provider_ p) s.

Definition set_response (p : Payload) (rp : InferResponseProvider) : Payload :=
  mkPayload (queue_timer_ p) (stats_ p) (request_provider_ p) (Some rp)
            (status_ p).

Definition set_pending (p : Payload) (name : string) (rs : list ContentReply)
  : Payload :=
  let rp := request_provider_ p in
  mkPayload (queue_timer_ p) (stats_ p)
            (mkRequestProvider (RequestHeader rp) (GetInputOverride rp)
                               (set_replies name rs (pending rp)))
            (response_provider_ p) (status_ p).

(* ------------------------------------------------------------------ *)
(** ** The runtime *)

Definition ONNXTensorElementDataType : Type := Z.

Record OrtStatus : Type := mkOrtStatus { ort_code : Z; ort_message : string }.

(** A tensor handle: the memory it wraps, its shape and its element type. *)
Record OrtValue : Type := mkOrtValue {
  ov_data : Buffer;
  ov_shape : list Z;
  ov_type : ONNXTensorElementDataType
}.

Definition OrtSession : Type := Z.
Definition OrtAllocatorInfo : Type := Z.

(** What the translation unit takes from elsewhere.  An [option
    OrtStatus] is the [OrtStatus*] a runtime call returns, [None] being
    the null pointer (success). *)
Record Externals : Type := mkExternals {
  GetDataTypeByteSize : DataType -> Z;
  GetElementCount : list Z -> Z;
  ConvertToOnnxDataType : DataType -> ONNXTensorElementDataType;
  ConvertFromOnnxDataType : ONNXTensorElementDataType -> DataType;
  OrtCreateTensorWithDataAsOrtValue :
    Z -> list Z -> ONNXTensorElementDataType -> option OrtStatus;
  OrtRun :
    OrtSession -> list string -> list (option OrtValue) -> list string ->
    option OrtStatus * list (option OrtValue);
  OrtGetTensorMutableData : OrtValue -> option OrtStatus;
  OrtGetTypeInfo : OrtValue -> option OrtStatus
}.

Inductive Event : Type :=
| EvCreateTensor (name : string) (byte_size : Z) (dims : list Z)
| EvOrtRun (input_names : list string) (inputs : list (option OrtValue))
           (output_names : list string)
| EvReleaseValue (v : OrtValue)
| EvComplete (s : Status).

(** Modelled from the spec: the macro [RETURN_IF_ORT_ERROR] of
    [onnx_utils.h] is missing; a runtime failure "fails the entire run",
    so a non-null [OrtStatus] becomes an internal error status. *)
Definition ort_error (e : OrtStatus) : Status :=
  mkStatus INTERNAL
    ("onnx runtime error " ++ to_string (ort_code e) ++ ": " ++ ort_message e)%string.

(* ------------------------------------------------------------------ *)
(** ** Execution contexts and the backend *)

Record Context : Type := mkContext {
  name_ : string;
  gpu_device_ : Z;
  max_batch_size_ : Z;                 (* int *)
  session_ : OrtSession;
  allocator_info_ : OrtAllocatorInfo;
  input_tensors_ : list (option OrtValue);
  output_tensors_ : list (option OrtValue)
}.

(** Modelled from the spec: the constant [NO_BATCHING] of
    [onnx_backend.h] is missing; it is the "sentinel value meaning no
    batching", and the source says "total_batch_size can be 1 for models
    that don't support batching (i.e. max_batch_size_ == 0)". *)
Definition NO_BATCHING : Z := 0.

Definition set_tensors (c : Context)
    (ins outs : list (option OrtValue)) : Context :=
  mkContext (name_ c) (gpu_device_ c) (max_batch_size_ c)
            (session_ c) (allocator_info_ c) ins outs.

Record OnnxBackend : Type := mkBackend {
  Name : string;
  Config : ModelConfig;
  contexts_ : list Context
}.

(** Modelled from the spec: [GetInput] and [GetOutput] of the backend's
    base class are missing; they look a descriptor up by name in the
    model configuration and fail for a name that is not declared. *)
Definition GetInput (base : OnnxBackend) (name : string)
  : Status + ModelInput :=
  match find (fun io => String.eqb (mi_name io) name) (cfg_input (Config base)) with
  | Some io => inr io
  | None =>
      inl (mkStatus INVALID_ARG
             ("unexpected inference input '" ++ name ++ "' for model '"
              ++ Name base ++ "'")%string)
  end.

Definition GetOutput (base : OnnxBackend) (name : string)
  : Status + ModelOutput :=
  match find (fun io => String.eqb (mo_name io) name) (cfg_output (Config base)) with
  | Some io => inr io
  | None =>
      inl (mkStatus INVALID_ARG
             ("unexpected inference output '" ++ name ++ "' for model '"
              ++ Name base ++ "'")%string)
  end.

(** The state one [Context::Run] works on: the context, the payloads,
    the locals [input_buffers] and [input_names], and the events so far. *)
Record RunState : Type := mkRunState {
  rs_ctx : Context;
  rs_payloads : list Payload;
  rs_input_buffers : list Buffer;
  rs_input_names : list string;
  rs_events : list Event
}.

(** [RETURN_IF_ERROR]. *)
Definition and_then (r : Status * RunState)
    (k : RunState -> Status * RunState) : Status * RunState :=
  if IsOk (fst r) then k (snd r) else r.

Section Backend.

Variable ext : Externals.

(* ------------------------------------------------------------------ *)
(** ** [SetInputTensor] *)

(** [batch1_element_cnt] after the loop over [dims]. *)
Definition batch1_element_cnt (dims : DimsList) : Z :=
  fold_left (fun cnt dim => to_size_t (cnt * dim)) dims 1.

Definition input_byte_size (datatype : DataType) (dims : DimsList) : Z :=
  to_size_t (batch1_element_cnt dims * to_size_t (GetDataTypeByteSize ext datatype)).

(** [input_dims]: the batch dimension only if the model supports
    batching. *)
Definition input_dims_of (max_batch_size total_batch_size : Z)
    (dims : DimsList) : list Z :=
  (if max_batch_size =? NO_BATCHING then [] else [to_int64 total_batch_size])
  ++ dims.

(** The [while (payload.status_.IsOk())] loop of one payload, entered
    with an OK status.  Returns the payload status, the provider's
    remaining answers, [copied_byte_size] and the buffer. *)
Fixpoint copy_content (name : string)
    (total_byte_size buffer_copy_offset : Z)
    (replies : list ContentReply) (copied_byte_size : Z) (buffer : Buffer)
  : Status * list ContentReply * Z * Buffer :=
  match replies with
  | [] =>
      (* the provider has nothing left: success, content == nullptr *)
      (Success, [], copied_byte_size, buffer)
  | r :: rest =>
      if negb (IsOk (reply_status r)) then
        (reply_status r, rest, copied_byte_size, buffer)
      else
        match reply_content r with
        | None => (reply_status r, rest, copied_byte_size, buffer)
        | Some content =>
            let content_byte_size := Z.of_nat (List.length content) in
            let end_ :=
              to_size_t (buffer_copy_offset + copied_byte_size + content_byte_size) in
            if end_ >? total_byte_size then
              (mkStatus INVALID_ARG
                 ("unexpected size " ++ to_string end_
                  ++ " for inference input '" ++ name ++ "', expecting "
                  ++ to_string total_byte_size)%string,
               rest, copied_byte_size, buffer)
            else
              copy_content name total_byte_size buffer_copy_offset rest
                (to_size_t (copied_byte_size + content_byte_size))
                (memcpy buffer (buffer_copy_offset + copied_byte_size) content)
        end
  end.

(** The body of the loop over the payloads, for one payload. *)
Definition copy_payload (name : string) (total_byte_size batch1_byte_size : Z)
    (buffer_copy_offset : Z) (buffer : Buffer) (payload : Payload)
  : Payload * Z * Buffer :=
  let expected_byte_size :=
    to_size_t (payload_batch_size payload * batch1_byte_size) in
  let '(payload1, copied_byte_size, buffer') :=
    if IsOk (status_ payload) then
      let '(status, replies, copied, b) :=
        copy_content name total_byte_size buffer_copy_offset
          (replies_for name (pending (request_provider_ payload))) 0 buffer in
      (set_status (set_pending payload name replies) status, copied, b)
    else (payload, 0, buffer) in
  let payload2 :=
    if IsOk (status_ payload1) && negb (copied_byte_size =? expected_byte_size)
    then
      set_status payload1
        (mkStatus INTERNAL
           ("expected " ++ to_string expected_byte_size
            ++ " bytes of data for inference input '" ++ name ++ "', got "
            ++ to_string copied_byte_size)%string)
    else payload1 in
  (payload2, to_size_t (buffer_copy_offset + expected_byte_size), buffer').

(** "Visit the payloads in order and copy the input tensors to 'buffer'". *)
Fixpoint copy_payloads (name : string) (total_byte_size batch1_byte_size : Z)
    (buffer_copy_offset : Z) (buffer : Buffer) (payloads : list Payload)
  : list Payload * Buffer :=
  match payloads with
  | [] => ([], buffer)
  | payload :: rest =>
      let '(payload', offset', buffer') :=
        copy_payload name total_byte_size batch1_byte_size
          buffer_copy_offset buffer payload in
      let '(rest', buffer'') :=
        copy_payloads name total_byte_size batch1_byte_size offset' buffer' rest in
      (payload' :: rest', buffer'')
  end.

(** Replace the last element ([input_tensors_.back() = v]). *)
Definition set_back {A : Type} (l : list A) (v : A) : list A :=
  removelast l ++ [v].

Definition SetInputTensor (name : string) (datatype : DataType)
    (dims : DimsList) (total_batch_size : Z) (s : RunState)
  : Status * RunState :=
  let ctx := rs_ctx s in
  let input_names := rs_input_names s ++ [name] in
  let input_tensors := input_tensors_ ctx ++ [None] in
  let input_dims := input_dims_of (max_batch_size_ ctx) total_batch_size dims in
  let batch1_byte_size := input_byte_size datatype dims in
  let total_byte_size := to_size_t (total_batch_size * batch1_byte_size) in
  let '(payloads, buffer) :=
    copy_payloads name total_byte_size batch1_byte_size 0
      (new_char_array total_byte_size) (rs_payloads s) in
  let input_buffers := rs_input_buffers s ++ [buffer] in
  let onnx_type := ConvertToOnnxDataType ext datatype in
  let events :=
    rs_events s ++ [EvCreateTensor name total_byte_size input_dims] in
  match OrtCreateTensorWithDataAsOrtValue ext total_byte_size input_dims onnx_type with
  | Some e =>
      (ort_error e,
       mkRunState (set_tensors ctx input_tensors (output_tensors_ ctx))
                  payloads input_buffers input_names events)
  | None =>
      (Success,
       mkRunState
         (set_tensors ctx
            (set_back input_tensors (Some (mkOrtValue buffer input_dims onnx_type)))
            (output_tensors_ ctx))
         payloads input_buffers input_names events)
  end.

(* ------------------------------------------------------------------ *)
(** ** [ReadOutputTensors] *)

Definition note_request (rp : InferResponseProvider) (name : string)
    (byte_size : Z) : InferResponseProvider :=
  mkResponseProvider (required_outputs rp) (alloc_outcome rp)
    (alloc_requests rp ++ [(name, byte_size)]) (output_buffers rp).

Definition fill_buffer (rp : InferResponseProvider) (name : string)
    (b : Buffer) : InferResponseProvider :=
  mkResponseProvider (required_outputs rp) (alloc_outcome rp)
    (alloc_requests rp) (output_buffers rp ++ [(name, b)]).

(** The body of the loop over the payloads for one output. *)
Definition deliver_output (name : string) (content : Buffer)
    (content_shape : list Z) (expected_byte_size content_offset : Z)
    (payload : Payload) : Payload :=
  match response_provider_ payload with
  | None => payload
  | Some rp =>
      if RequiresOutput rp name then
        let status := alloc_outcome rp name expected_byte_size content_shape in
        let rp' := note_request rp name expected_byte_size in
        if IsOk status then
          set_response payload
            (fill_buffer rp' name (slice content content_offset expected_byte_size))
        else
          set_status (set_response payload rp') status
      else payload
  end.

Fixpoint distribute_output (name : string) (content : Buffer)
    (content_shape : list Z) (batch1_byte_size content_offset : Z)
    (payloads : list Payload) : list Payload :=
  match payloads with
  | [] => []
  | payload :: rest =>
      let expected_byte_size :=
        to_size_t (payload_batch_size payload * batch1_byte_size) in
      deliver_output name content content_shape expected_byte_size
        content_offset payload
      :: distribute_output name content content_shape batch1_byte_size
           (to_size_t (content_offset + expected_byte_size)) rest
  end.

(** The loop [for idx < output_names.size()], from [idx] on.  The
    division is the truncating division of [size_t]; [Context::Run] calls
    with a non-zero [total_batch_size]. *)
Fixpoint read_outputs (base : OnnxBackend) (ctx : Context)
    (total_batch_size : Z) (idx : nat) (output_names : list string)
    (payloads : list Payload) : Status * list Payload :=
  match output_names with
  | [] => (Success, payloads)
  | name :: rest =>
      match GetOutput base name with
      | inl st => (st, payloads)
      | inr output_config =>
          match nth idx (output_tensors_ ctx) None with
          | None =>
              (mkStatus INTERNAL
                 ("output tensor '" ++ name ++ "' does not found")%string,
               payloads)
          | Some output_tensor =>
              match OrtGetTensorMutableData ext output_tensor with
              | Some e => (ort_error e, payloads)
              | None =>
              match OrtGetTypeInfo ext output_tensor with
              | Some e => (ort_error e, payloads)
              | None =>
                  let content := ov_data output_tensor in
                  let content_shape := ov_shape output_tensor in
                  let type := ov_type output_tensor in
                  let element_count :=
                    to_size_t (GetElementCount ext content_shape) in
                  let total_byte_size :=
                    to_size_t
                      (element_count
                       * to_size_t
                           (GetDataTypeByteSize ext
                              (ConvertFromOnnxDataType ext type))) in
                  let actual_byte_size :=
                    to_size_t
                      (element_count
                       * to_size_t
                           (GetDataTypeByteSize ext (mo_data_type output_config))) in
                  let batch1_byte_size := total_byte_size / total_batch_size in
                  if negb (actual_byte_size =? total_byte_size) then
                    (mkStatus INTERNAL
                       ("unexpected size for output '" ++ name
                        ++ "', byte-size " ++ to_string actual_byte_size
                        ++ " does not equal " ++ to_string total_batch_size
                        ++ " * " ++ to_string batch1_byte_size)%string,
                     payloads)
                  else
                    read_outputs base ctx total_batch_size (S idx) rest
                      (distribute_output name content content_shape
                         batch1_byte_size 0 payloads)
              end
              end
          end
      end
  end.

Definition ReadOutputTensors (base : OnnxBackend) (ctx : Context)
    (total_batch_size : Z) (output_names : list string)
    (payloads : list Payload) : Status * list Payload :=
  read_outputs base ctx total_batch_size 0 output_names payloads.

(* ------------------------------------------------------------------ *)
(** ** [ReleaseOrtRunResources] *)

(** [OrtReleaseValue] on every handle of the list that is set. *)
Fixpoint release_all (tensors : list (option OrtValue)) : list Event :=
  match tensors with
  | [] => []
  | Some v :: rest => EvReleaseValue v :: release_all rest
  | None :: rest => release_all rest
  end.

Definition ReleaseOrtRunResources (ctx : Context) : Context * list Event :=
  (set_tensors ctx [] [],
   release_all (input_tensors_ ctx) ++ release_all (output_tensors_ ctx)).

(* ------------------------------------------------------------------ *)
(** ** [Context::Run] *)

(** The first loop: the total batch size and the representative request
    provider, or the error for a payload that is not OK. *)
Fixpoint collect_batch (ctx : Context) (payloads : list Payload)
    (total_batch_size : Z) (input_request_provider : option InferRequestProvider)
  : Status + (Z * option InferRequestProvider) :=
  match payloads with
  | [] => inr (total_batch_size, input_request_provider)
  | payload :: rest =>
      if negb (IsOk (status_ payload)) then
        inl (mkStatus INTERNAL
               ("unexpected payload with non-OK status given to runner for '"
                ++ name_ ctx ++ "'")%string)
      else
        collect_batch ctx rest
          (to_size_t (total_batch_size + payload_batch_size payload))
          (Some (request_provider_ payload))
  end.

(** The loop over the inputs of the representative request header. *)
Fixpoint set_header_inputs (base : OnnxBackend) (total_batch_size : Z)
    (inputs : list HeaderInput) (s : RunState) : Status * RunState :=
  match inputs with
  | [] => (Success, s)
  | input :: rest =>
      match GetInput base (hi_name input) with
      | inl st => (st, s)
      | inr input_config =>
          and_then
            (SetInputTensor (hi_name input) (mi_data_type input_config)
               (hi_dims input) total_batch_size s)
            (set_header_inputs base total_batch_size rest)
      end
  end.

(** "Additional inputs added to the provider...". *)
Fixpoint set_override_inputs (total_batch_size : Z)
    (overrides : list (string * InputOverride)) (s : RunState)
  : Status * RunState :=
  match overrides with
  | [] => (Success, s)
  | (name, override) :: rest =>
      and_then
        (SetInputTensor name (datatype_ override) (dims_ override)
           total_batch_size s)
        (set_override_inputs total_batch_size rest)
  end.

(** The runtime writes the handles it produced over the front of
    [output_tensors_.data()]. *)
Fixpoint overwrite {A : Type} (l new : list A) : list A :=
  match l, new with
  | _ :: l', y :: new' => y :: overwrite l' new'
  | _, _ => l
  end.

(** From "Request to retrieve all output specified in model config" to
    the end of [Context::Run]. *)
Definition run_and_read (base : OnnxBackend) (total_batch_size : Z)
    (s : RunState) : Status * RunState :=
  let ctx := rs_ctx s in
  let output_names := map mo_name (cfg_output (Config base)) in
  let placeholders :=
    output_tensors_ ctx ++ repeat None (List.length output_names) in
  let '(ort_status, produced) :=
    OrtRun ext (session_ ctx) (rs_input_names s) (input_tensors_ ctx)
      output_names in
  let ctx' :=
    set_tensors ctx (input_tensors_ ctx) (overwrite placeholders produced) in
  let events :=
    rs_events s ++ [EvOrtRun (rs_input_names s) (input_tensors_ ctx) output_names] in
  match ort_status with
  | Some e =>
      (ort_error e,
       mkRunState ctx' (rs_payloads s) (rs_input_buffers s) (rs_input_names s)
                  events)
  | None =>
      let '(status, payloads) :=
        ReadOutputTensors base ctx' total_batch_size output_names
          (rs_payloads s) in
      (status,
       mkRunState ctx' payloads (rs_input_buffers s) (rs_input_names s) events)
  end.

Definition Context_Run (base : OnnxBackend) (ctx : Context)
    (payloads : list Payload) : Status * RunState :=
  let s0 := mkRunState ctx payloads [] [] [] in
  match collect_batch ctx payloads 0 None with
  | inl st => (st, s0)
  | inr (total_batch_size, input_request_provider) =>
      if total_batch_size =? 0 then (Success, s0)
      else if negb (total_batch_size =? 1)
              && (total_batch_size >? to_size_t (max_batch_size_ ctx)) then
        (mkStatus INTERNAL
           ("dynamic batch size " ++ to_string total_batch_size ++ " for '"
            ++ name_ ctx ++ "', max allowed is "
            ++ to_string (max_batch_size_ ctx))%string,
         s0)
      else
        match input_request_provider with
        | None =>
            (* not reached: a non-zero total needs a payload *)
            (Success, s0)
        | Some provider =>
            and_then
              (set_header_inputs base total_batch_size
                 (input (RequestHeader provider)) s0)
              (fun s1 =>
                 and_then
                   (match GetInputOverride provider with
                    | None => (Success, s1)
                    | Some overrides =>
                        set_override_inputs total_batch_size overrides s1
                    end)
                   (run_and_read base total_batch_size))
        end
  end.

(* ------------------------------------------------------------------ *)
(** ** [OnnxBackend::Run] *)

(** The loop over the payloads before the context runs: the queue timer
    is stopped, the compute timer started and the device recorded. *)
Definition start_timers (gpu_device : Z) (payload : Payload) : Payload :=
  mkPayload false
    (match stats_ payload with
     | Some _ => Some (mkStats true gpu_device)
     | None => None
     end)
    (request_provider_ payload) (response_provider_ payload)
    (status_ payload).

Fixpoint replace_nth {A : Type} (n : nat) (l : list A) (x : A) : list A :=
  match n, l with
  | _, [] => []
  | O, _ :: l' => x :: l'
  | S n', y :: l' => y :: replace_nth n' l' x
  end.

Definition bad_runner (this : OnnxBackend) (runner_idx : Z) : Status :=
  mkStatus INTERNAL
    ("unexpected runner index" ++ to_string runner_idx ++ ", max allowed "
     ++ to_string (Z.of_nat (List.length (contexts_ this))))%string.

(** Returns the backend, the payloads and the events of the dispatch;
    [EvComplete] is the call of [OnCompleteQueuedPayloads]. *)
Definition OnnxBackend_Run (this : OnnxBackend) (runner_idx : Z)
    (payloads : list Payload) : OnnxBackend * list Payload * list Event :=
  if runner_idx >=? Z.of_nat (List.length (contexts_ this)) then
    (this, payloads, [EvComplete (bad_runner this runner_idx)])
  else
    match nth_error (contexts_ this) (Z.to_nat runner_idx) with
    | None =>
        (* not reached: the index is in range *)
        (this, payloads, [EvComplete (bad_runner this runner_idx)])
    | Some ctx =>
        let payloads1 := map (start_timers (gpu_device_ ctx)) payloads in
        let '(status, s) := Context_Run this ctx payloads1 in
        let '(ctx', released) := ReleaseOrtRunResources (rs_ctx s) in
        (mkBackend (Name this) (Config this)
           (replace_nth (Z.to_nat runner_idx) (contexts_ this) ctx'),
         rs_payloads s,
         rs_events s ++ released ++ [EvComplete status])
    end.

End Backend.

(* ------------------------------------------------------------------ *)
(** ** What a provider delivers *)

(** The content a provider hands out for one input: the chunks of its
    answers up to the first answer without content, glued together;
    [None] when an answer with an error status comes first. *)
Fixpoint delivered (replies : list ContentReply) : option (list byte) :=
  match replies with
  | [] => Some []
  | r :: rest =>
      if negb (IsOk (reply_status r)) then None
      else
        match reply_content r with
        | None => Some []
        | Some c =>
            match delivered rest with
            | Some cs => Some (c ++ cs)
            | None => None
            end
        end
  end.

Definition payload_replies (name : string) (p : Payload) : list ContentReply :=
  replies_for name (pending (request_provider_ p)).

(** Every chunk is an object in memory: its size is below 2^63. *)
Definition chunk_ok (r : ContentReply) : Prop :=
  match reply_content r with
  | Some c => Z.of_nat (List.length c) < 2 ^ 63
  | None => True
  end.

Definition addressable (name : string) (p : Payload) : Prop :=
  Forall chunk_ok (payload_replies name p).

(** The sum of the batch sizes, as a mathematical integer. *)
Definition batch_total (ps : list Payload) : Z :=
  fold_right (fun p acc => payload_batch_size p + acc) 0 ps.

(** Where the content of payload [i] belongs: the batch sizes of the
    payloads before it, times the per-item byte size. *)
Definition nominal_offset (item : Z) (ps : list Payload) (i : nat) : Z :=
  batch_total (firstn i ps) * item.

(** What the turn of payload [p] in the assembly of input [name] leaves
    behind, [p'] being the payload afterwards: a payload that came in
    failed keeps its status; one that came in OK stays OK exactly when
    its provider delivers [batch_size * item] bytes, and then [holds]
    tells where they are. *)
Definition payload_outcome (name : string) (item : Z) (p p' : Payload)
    (holds : list byte -> Prop) : Prop :=
  payload_batch_size p' = payload_batch_size p
  /\ response_provider_ p' = response_provider_ p
  /\ (IsOk (status_ p) = false -> status_ p' = status_ p)
  /\ (IsOk (status_ p) = true ->
      match delivered (payload_replies name p) with
      | Some content =>
          if Z.of_nat (List.length content) =? payload_batch_size p * item
          then IsOk (status_ p') = true /\ holds content
          else IsOk (status_ p') = false
      | None => IsOk (status_ p') = false
      end).

(** The size of the slice of a payload in a combined output whose items
    take [batch1] bytes each. *)
Definition slice_size (batch1 : Z) (p : Payload) : Z :=
  to_size_t (payload_batch_size p * batch1).

(** Where the slice of payload [i] starts: the sizes of the slices of
    the payloads before it, added up (in [size_t]). *)
Definition read_offset (batch1 : Z) (ps : list Payload) (i : nat) : Z :=
  to_size_t (fold_right (fun p acc => slice_size batch1 p + acc) 0 (firstn i ps)).

(** The product of the dimensions, as a mathematical integer. *)
Definition dims_product (dims : DimsList) : Z := fold_right Z.mul 1 dims.

(** The per-item byte size: the product of the non-batch dimensions
    times the size of the datatype. *)
Definition per_item_bytes (ext : Externals) (datatype : DataType)
    (dims : DimsList) : Z :=
  dims_product dims * GetDataTypeByteSize ext datatype.

(** The shape of a tensor of total batch size [B]: the batch dimension
    is there only when the context batches. *)
Definition tensor_shape (ctx : Context) (B : Z) (dims : DimsList) : list Z :=
  if max_batch_size_ ctx =? NO_BATCHING then dims else B :: dims.


(* ------------------------------------------------------------------ *)
(** ** A concrete configuration for the examples *)

(** Byte sizes of the fixed-size datatypes; a string has none. *)
Definition sample_byte_size (d : DataType) : Z :=
  match d with
  | TYPE_BOOL | TYPE_UINT8 | TYPE_INT8 => 1
  | TYPE_UINT16 | TYPE_INT16 | TYPE_FP16 => 2
  | TYPE_UINT32 | TYPE_INT32 | TYPE_FP32 => 4
  | TYPE_UINT64 | TYPE_INT64 | TYPE_FP64 => 8
  | TYPE_INVALID | TYPE_STRING => 0
  end.

Definition sample_element_count (dims : list Z) : Z :=
  match dims with
  | [] => 0
  | d :: rest => fold_left Z.mul rest d
  end.

Definition sample_to_onnx (d : DataType) : ONNXTensorElementDataType :=
  match d with
  | TYPE_FP32 => 1 | TYPE_UINT8 => 2 | TYPE_INT8 => 3 | TYPE_UINT16 => 4
  | TYPE_INT16 => 5 | TYPE_INT32 => 6 | TYPE_INT64 => 7 | TYPE_STRING => 8
  | TYPE_BOOL => 9 | TYPE_FP16 => 10 | TYPE_FP64 => 11 | TYPE_UINT32 => 12
  | TYPE_UINT64 => 13 | TYPE_INVALID => 0
  end.

Definition sample_from_onnx (t : ONNXTensorElementDataType) : DataType :=
  if t =? 1 then TYPE_FP32 else if t =? 2 then TYPE_UINT8
  else if t =? 3 then TYPE_INT8 else if t =? 4 then TYPE_UINT16
  else if t =? 5 then TYPE_INT16 else if t =? 6 then TYPE_INT32
  else if t =? 7 then TYPE_INT64 else if t =? 8 then TYPE_STRING
  else if t =? 9 then TYPE_BOOL else if t =? 10 then TYPE_FP16
  else if t =? 11 then TYPE_FP64 else if t =? 12 then TYPE_UINT32
  else if t =? 13 then TYPE_UINT64 else TYPE_INVALID.

(** A model that hands its first input back as every output. *)
Definition echo_model (session : OrtSession) (input_names : list string)
    (inputs : list (option OrtValue)) (output_names : list string)
  : option OrtStatus * list (option OrtValue) :=
  (None, map (fun _ => hd None inputs) output_names).

Definition sample_ext : Externals :=
  mkExternals sample_byte_size sample_element_count sample_to_onnx
    sample_from_onnx (fun _ _ _ => None) echo_model
    (fun _ => None) (fun _ => None).

Definition sample_config : ModelConfig :=
  mkModelConfig 8 [mkModelInput "IN" TYPE_FP32 [3]]
                  [mkModelOutput "OUT" TYPE_FP32 [3]].

Definition sample_ctx : Context := mkContext "model_0_cpu" (-1) 8 1 1 [] [].

Definition sample_backend : OnnxBackend :=
  mkBackend "model" sample_config [sample_ctx].

(** A payload of batch size [b] whose provider hands out [chunks] for the
    input "IN" and whose response provider wants the outputs [required]. *)
Definition sample_payload (b : Z) (chunks : list (list byte))
    (required : list string) : Payload :=
  mkPayload true None
    (mkRequestProvider (mkHeader b [mkHeaderInput "IN" [3]]) None
       [("IN", map (fun c => mkReply Success (Some c)) chunks)])
    (Some (mkResponseProvider required (fun _ _ _ => Success) [] []))
    Success.

(** Three payloads of batch sizes 2, 1 and 4 with three 4-byte elements
    per item; the first delivers its 24 bytes in two chunks. *)
Definition payload_a : Payload :=
  sample_payload 2 [repeat x01 12; repeat x02 12] ["OUT"].
Definition payload_b : Payload := sample_payload 1 [repeat x03 12] ["OUT"].
Definition payload_c : Payload := sample_payload 4 [repeat x04 48] ["OUT"].

(** A payload of batch size 1 that delivers 8 bytes instead of 12. *)
Definition payload_short : Payload := sample_payload 1 [repeat x05 8] ["OUT"].

Definition run_state_of (ctx : Context) (ps : list Payload) : RunState :=
  mkRunState ctx ps [] [] [].

(* ------------------------------------------------------------------ *)
(** ** Vocabulary of the statements about a run *)

(** [total_batch_size] when the first loop of [Context::Run] ends. *)
Definition total_batch_size (ps : list Payload) : Z :=
  fold_left (fun total p => to_size_t (total + payload_batch_size p)) ps 0.

Definition all_ok (ps : list Payload) : bool :=
  forallb (fun p => IsOk (status_ p)) ps.

(** The total batch size in the words of the specification: the sum of
    the batch sizes of the payloads that are OK. *)
Definition ok_batch_total (ps : list Payload) : Z :=
  fold_right
    (fun p acc => if IsOk (status_ p) then payload_batch_size p + acc else acc)
    0 ps.

(** The request provider [Context::Run] takes as the representative:
    that of the last payload. *)
Definition representative (ps : list Payload) : option InferRequestProvider :=
  fold_left (fun _ p => Some (request_provider_ p)) ps None.

(** The inputs of a request provider: those of its header, then its
    overrides. *)
Definition provider_inputs (rp : InferRequestProvider) : list string :=
  map hi_name (input (RequestHeader rp))
  ++ match GetInputOverride rp with
     | Some overrides => map fst overrides
     | None => []
     end.

Definition is_run (e : Event) : bool :=
  match e with EvOrtRun _ _ _ => true | _ => false end.

Definition is_create (e : Event) : bool :=
  match e with EvCreateTensor _ _ _ => true | _ => false end.

Definition is_complete (e : Event) : bool :=
  match e with EvComplete _ => true | _ => false end.

(** How many times the runtime was asked to compute. *)
Definition ort_runs (events : list Event) : nat :=
  List.length (filter is_run events).

(** How many times the completion callback was called. *)
Definition completions (events : list Event) : nat :=
  List.length (filter is_complete events).

(** The handles released, in order. *)
Definition released (events : list Event) : list OrtValue :=
  flat_map (fun e => match e with EvReleaseValue v => [v] | _ => [] end) events.

(** The handles a list holds. *)
Definition handles (tensors : list (option OrtValue)) : list OrtValue :=
  flat_map (fun t => match t with Some v => [v] | None => [] end) tensors.

(** A step of input assembly from [s] to [s']: it adds [names] to the
    input names and only tensor creations to the events, and leaves the
    session, the allocator, the batch limit and the output handles of
    the context alone. *)
Definition assembles (s s' : RunState) (names : list string) : Prop :=
  rs_input_names s' = rs_input_names s ++ names
  /\ (exists evs, rs_events s' = rs_events s ++ evs
                  /\ forallb is_create evs = true)
  /\ session_ (rs_ctx s') = session_ (rs_ctx s)
  /\ allocator_info_ (rs_ctx s') = allocator_info_ (rs_ctx s)
  /\ max_batch_size_ (rs_ctx s') = max_batch_size_ (rs_ctx s)
  /\ output_tensors_ (rs_ctx s') = output_tensors_ (rs_ctx s).

(** Every input of the header is declared in the model configuration. *)
Definition declared (base : OnnxBackend) (rp : InferRequestProvider) : Prop :=
  Forall (fun i => exists c, GetInput base (hi_name i) = inr c)
         (input (RequestHeader rp)).

(** The two byte sizes [ReadOutputTensors] compares for an output
    tensor: the element count of the tensor's own shape times the size
    of the configured datatype, and times the size of the tensor's own
    element type. *)
Definition configured_byte_size (ext : Externals) (output_config : ModelOutput)
    (tensor : OrtValue) : Z :=
  to_size_t
    (to_size_t (GetElementCount ext (ov_shape tensor))
     * to_size_t (GetDataTypeByteSize ext (mo_data_type output_config))).

Definition runtime_byte_size (ext : Externals) (tensor : OrtValue) : Z :=
  to_size_t
    (to_size_t (GetElementCount ext (ov_shape tensor))
     * to_size_t
         (GetDataTypeByteSize ext (ConvertFromOnnxDataType ext (ov_type tensor)))).

(** A payload that reaches the runner with a failed status. *)
Definition payload_failed : Payload :=
  mkPayload true None
    (mkRequestProvider (mkHeader 2 [mkHeaderInput "IN" [3]]) None
       [("IN", [mkReply Success (Some (repeat x06 24))])])
    (Some (mkResponseProvider ["OUT"] (fun _ _ _ => Success) [] []))
    (mkStatus INVALID_ARG "rejected upstream").

(** A payload of batch size 1 that brings an override "EXTRA". *)
Definition payload_override : Payload :=
  mkPayload true None
    (mkRequestProvider (mkHeader 1 [mkHeaderInput "IN" [3]])
       (Some [("EXTRA", mkOverride (repeat x07 4) [1] TYPE_INT32)])
       [("IN", [mkReply Success (Some (repeat x08 12))]);
        ("EXTRA", [mkReply Success (Some (repeat x07 4))])])
    (Some (mkResponseProvider ["OUT"] (fun _ _ _ => Success) [] []))
    Success.

(** A model whose output has five elements per item although the
    configuration declares three. *)
Definition wide_model (session : OrtSession) (input_names : list string)
    (inputs : list (option OrtValue)) (output_names : list string)
  : option OrtStatus * list (option OrtValue) :=
  (None,
   map (fun _ => Some (mkOrtValue (repeat (Some x09) 40) [2; 5] 1)) output_names).

Definition wide_ext : Externals :=
  mkExternals sample_byte_size sample_element_count sample_to_onnx
    sample_from_onnx (fun _ _ _ => None) wide_model
    (fun _ => None) (fun _ => None).

(** A context that holds one output tensor of two items of three 8-byte
    elements. *)
Definition ctx_fp64_output : Context :=
  mkContext "model_0_cpu" (-1) 8 1 1 []
    [Some (mkOrtValue (repeat (Some x09) 48) [2; 3] 11)].

(** A combined output of 84 bytes for the three payloads. *)
Definition sample_output : Buffer :=
  map Some (repeat x0a 24 ++ repeat x0b 12 ++ repeat x0c 48).

(** A payload of batch size 0. *)
Definition payload_empty : Payload := sample_payload 0 [] ["OUT"].

Definition scenario : RunState :=
  run_state_of sample_ctx [payload_a; payload_b; payload_c].

Definition scenario_short : RunState :=
  run_state_of sample_ctx [payload_a; payload_short; payload_c].

(* ------------------------------------------------------------------ *)
(** ** Creating the execution contexts *)

Definition to_uint32 (z : Z) : Z := z mod 2 ^ 32.

(** A null handle ([session_(nullptr)], [allocator_info_(nullptr)]). *)
Definition nullptr : Z := 0.

Inductive Kind : Type := KIND_AUTO | KIND_GPU | KIND_CPU.

Definition is_KIND_CPU (k : Kind) : bool :=
  match k with KIND_CPU => true | _ => false end.

Record ModelInstanceGroup : Type := mkGroup {
  ig_name : string;
  ig_kind : Kind;
  ig_count : Z;                        (* int32 *)
  ig_gpus : list Z
}.

(** The fields of the model configuration that only loading reads. *)
Record LoadConfig : Type := mkLoadConfig {
  lc_instance_group : list ModelInstanceGroup;
  lc_default_model_filename : string;
  lc_cc_model_filenames : list (string * string)
}.

(** [find] on a map with string keys. *)
Fixpoint lookup (key : string) (m : list (string * string)) : option string :=
  match m with
  | [] => None
  | (k, v) :: rest => if String.eqb k key then Some v else lookup key rest
  end.

(** What loading takes from elsewhere: the constants of the headers, the
    CUDA and ONNX Runtime calls, the helpers of [onnx_utils] and
    [model_config_utils], and the scheduler of the base class.
    [cudaGetDeviceProperties] gives the error string or the compute
    capability (major, minor); [OrtCreateSession] gets the model path
    and the device the options were extended for, and gives the status
    and what it left in [session_].  The two calls that create a handle
    are told the instance they are made for, since each call has its own
    answer. *)
Record LoadExternals : Type := mkLoadExternals {
  NO_GPU_DEVICE : Z;
  ONNX_TENSOR_ELEMENT_DATA_TYPE_UNDEFINED : ONNXTensorElementDataType;
  DataType_Name : DataType -> string;
  cudaGetDeviceProperties : Z -> string + (Z * Z);
  OrtSessionOptionsAppendExecutionProvider_CUDA : Z -> option OrtStatus;
  OrtCreateSession : string -> string -> Z -> option OrtStatus * OrtSession;
  InputNames : OrtSession -> Status * list string;
  OutputNames : OrtSession -> Status * list string;
  CheckAllowedModelInput : ModelInput -> list string -> Status;
  CheckAllowedModelOutput : ModelOutput -> list string -> Status;
  OrtCreateCpuAllocatorInfo : string -> option OrtStatus * OrtAllocatorInfo;
  SetConfiguredScheduler : Z -> Status
}.

Definition set_session (c : Context) (session : OrtSession) : Context :=
  mkContext (name_ c) (gpu_device_ c) (max_batch_size_ c) session
            (allocator_info_ c) (input_tensors_ c) (output_tensors_ c).

Definition set_allocator_info (c : Context) (info : OrtAllocatorInfo) : Context :=
  mkContext (name_ c) (gpu_device_ c) (max_batch_size_ c) (session_ c)
            info (input_tensors_ c) (output_tensors_ c).

Definition set_contexts (b : OnnxBackend) (cs : list Context) : OnnxBackend :=
  mkBackend (Name b) (Config b) cs.

Section Loading.

Variable lext : LoadExternals.
Variable ext : Externals.

(** The loop of [ValidateInputs] over the configured inputs. *)
Fixpoint validate_inputs (ctx : Context) (input_node_names : list string)
    (ios : list ModelInput) : Status :=
  match ios with
  | [] => Success
  | io :: rest =>
      let st := CheckAllowedModelInput lext io input_node_names in
      if negb (IsOk st) then st
      else if ConvertToOnnxDataType ext (mi_data_type io)
              =? ONNX_TENSOR_ELEMENT_DATA_TYPE_UNDEFINED lext then
        mkStatus INTERNAL
          ("unsupported datatype " ++ DataType_Name lext (mi_data_type io)
           ++ " for input '" ++ mi_name io ++ "' for model '" ++ name_ ctx
           ++ "'")%string
      else validate_inputs ctx input_node_names rest
  end.

Definition ValidateInputs (ctx : Context) (ios : list ModelInput) : Status :=
  let '(st, input_node_names) := InputNames lext (session_ ctx) in
  if negb (IsOk st) then st else validate_inputs ctx input_node_names ios.

Fixpoint validate_outputs (ctx : Context) (output_node_names : list string)
    (ios : list ModelOutput) : Status :=
  match ios with
  | [] => Success
  | io :: rest =>
      let st := CheckAllowedModelOutput lext io output_node_names in
      if negb (IsOk st) then st
      else if ConvertToOnnxDataType ext (mo_data_type io)
              =? ONNX_TENSOR_ELEMENT_DATA_TYPE_UNDEFINED lext then
        mkStatus INTERNAL
          ("unsupported datatype " ++ DataType_Name lext (mo_data_type io)
           ++ " for output '" ++ mo_name io ++ "' for model '" ++ name_ ctx
           ++ "'")%string
      else validate_outputs ctx output_node_names rest
  end.

Definition ValidateOutputs (ctx : Context) (ios : list ModelOutput) : Status :=
  let '(st, output_node_names) := OutputNames lext (session_ ctx) in
  if negb (IsOk st) then st else validate_outputs ctx output_node_names ios.

Variable cfg : LoadConfig.
Variable paths : list (string * string).

(** "For a GPU context, determine the model file to use for device
    compute capability. CPU always uses the default model file." *)
Definition select_model_filename (this : OnnxBackend) (gpu_device : Z)
  : Status + string :=
  if gpu_device =? NO_GPU_DEVICE lext then
    inr (lc_default_model_filename cfg)
  else
    match cudaGetDeviceProperties lext gpu_device with
    | inl err =>
        inl (mkStatus INTERNAL
               ("unable to get CUDA device properties for " ++ Name this
                ++ ": " ++ err)%string)
    | inr (major, minor) =>
        let cc := (to_string major ++ "." ++ to_string minor)%string in
        inr (match lookup cc (lc_cc_model_filenames cfg) with
             | Some filename => filename
             | None => lc_default_model_filename cfg
             end)
    end.

(** "Max batch size. A value of 0 in the config becomes NO_BATCHING." *)
Definition context_max_batch_size (this : OnnxBackend) : Z :=
  if cfg_max_batch_size (Config this) <=? 0 then NO_BATCHING
  else cfg_max_batch_size (Config this).

Definition CreateExecutionContext (this : OnnxBackend)
    (instance_name : string) (gpu_device : Z) : Status * OnnxBackend :=
  match select_model_filename this gpu_device with
  | inl st => (st, this)
  | inr cc_model_filename =>
      match lookup cc_model_filename paths with
      | None =>
          (mkStatus INTERNAL
             ("unable to find model '" ++ cc_model_filename ++ "' for "
              ++ Name this)%string,
           this)
      | Some path =>
          let mbs := context_max_batch_size this in
          let context :=
            mkContext instance_name gpu_device mbs nullptr nullptr [] [] in
          let appended :=
            if negb (gpu_device =? NO_GPU_DEVICE lext) then
              OrtSessionOptionsAppendExecutionProvider_CUDA lext gpu_device
            else None in
          let '(onnx_status, session) :=
            match appended with
            | None => OrtCreateSession lext instance_name path gpu_device
            | Some e => (Some e, session_ context)
            end in
          let context1 := set_session context session in
          let this1 := set_contexts this (contexts_ this ++ [context1]) in
          match onnx_status with
          | Some e => (ort_error e, this1)
          | None =>
              let st_in := ValidateInputs context1 (cfg_input (Config this)) in
              if negb (IsOk st_in) then (st_in, this1)
              else
                let st_out :=
                  ValidateOutputs context1 (cfg_output (Config this)) in
                if negb (IsOk st_out) then (st_out, this1)
                else
                  let '(alloc_status, info) :=
                    OrtCreateCpuAllocatorInfo lext instance_name in
                  let this2 :=
                    set_contexts this
                      (contexts_ this ++ [set_allocator_info context1 info]) in
                  match alloc_status with
                  | Some e => (ort_error e, this2)
                  | None => (Success, this2)
                  end
          end
      end
  end.

(** The loop [for (int gpu_device : group.gpus())]. *)
Fixpoint create_on_gpus (group : ModelInstanceGroup) (c : Z) (gpus : list Z)
    (this : OnnxBackend) (total_context_cnt : Z)
  : Status * OnnxBackend * Z :=
  match gpus with
  | [] => (Success, this, total_context_cnt)
  | gpu_device :: rest =>
      let instance_name :=
        (ig_name group ++ "_" ++ to_string c ++ "_gpu"
         ++ to_string gpu_device)%string in
      let '(st, this') := CreateExecutionContext this instance_name gpu_device in
      if negb (IsOk st) then (st, this', total_context_cnt)
      else create_on_gpus group c rest this' (to_uint32 (total_context_cnt + 1))
  end.

(** The loop [for (int c = 0; c < group.count(); c++)], over the values
    of [c] still to come. *)
Fixpoint create_instances (group : ModelInstanceGroup) (cs : list Z)
    (this : OnnxBackend) (total_context_cnt : Z)
  : Status * OnnxBackend * Z :=
  match cs with
  | [] => (Success, this, total_context_cnt)
  | c :: rest =>
      if is_KIND_CPU (ig_kind group) then
        let instance_name :=
          (ig_name group ++ "_" ++ to_string c ++ "_cpu")%string in
        let '(st, this') :=
          CreateExecutionContext this instance_name (NO_GPU_DEVICE lext) in
        if negb (IsOk st) then (st, this', total_context_cnt)
        else create_instances group rest this' (to_uint32 (total_context_cnt + 1))
      else
        let '(st, this', cnt') :=
          create_on_gpus group c (ig_gpus group) this total_context_cnt in
        if negb (IsOk st) then (st, this', cnt')
        else create_instances group rest this' cnt'
  end.

(** The values [0, 1, ..., n-1] of a counter below [n]. *)
Definition counter_values (n : Z) : list Z :=
  map Z.of_nat (seq 0 (Z.to_nat n)).

(** The loop over the instance groups. *)
Fixpoint create_groups (groups : list ModelInstanceGroup)
    (this : OnnxBackend) (total_context_cnt : Z)
  : Status * OnnxBackend * Z :=
  match groups with
  | [] => (Success, this, total_context_cnt)
  | group :: rest =>
      let '(st, this', cnt') :=
        create_instances group (counter_values (ig_count group)) this
          total_context_cnt in
      if negb (IsOk st) then (st, this', cnt')
      else create_groups rest this' cnt'
  end.

(** Returns the status, the backend and the number of runners the
    scheduler was configured with ([None] when it was not reached). *)
Definition CreateExecutionContextsHelper (this : OnnxBackend)
  : Status * OnnxBackend * option Z :=
  let '(st, this', total_context_cnt) :=
    create_groups (lc_instance_group cfg) this 0 in
  if negb (IsOk st) then (st, this', None)
  else
    let st_sched := SetConfiguredScheduler lext total_context_cnt in
    if negb (IsOk st_sched) then (st_sched, this', Some total_context_cnt)
    else (Success, this', Some total_context_cnt).

End Loading.

(** The instances a list of groups asks for, in the order of the loops:
    name and device. *)
Definition planned_for_group (no_gpu_device : Z) (group : ModelInstanceGroup)
  : list (string * Z) :=
  flat_map
    (fun c =>
       if is_KIND_CPU (ig_kind group) then
         [((ig_name group ++ "_" ++ to_string c ++ "_cpu")%string, no_gpu_device)]
       else
         map (fun gpu_device =>
                ((ig_name group ++ "_" ++ to_string c ++ "_gpu"
                  ++ to_string gpu_device)%string, gpu_device))
             (ig_gpus group))
    (counter_values (ig_count group)).

Definition planned_instances (no_gpu_device : Z)
    (groups : list ModelInstanceGroup) : list (string * Z) :=
  flat_map (planned_for_group no_gpu_device) groups.

(* ------------------------------------------------------------------ *)
(** ** Destroying a context *)

Inductive Teardown : Type :=
| TdRun (e : Event)
| TdReleaseSession (session : OrtSession)
| TdReleaseAllocatorInfo (info : OrtAllocatorInfo).

(** [~Context]: the per-run resources, then the session and the
    allocator if they are set. *)
Definition Context_destructor (ctx : Context) : list Teardown :=
  map TdRun (snd (ReleaseOrtRunResources ctx))
  ++ (if negb (session_ ctx =? nullptr) then [TdReleaseSession (session_ ctx)]
      else [])
  ++ (if negb (allocator_info_ ctx =? nullptr)
      then [TdReleaseAllocatorInfo (allocator_info_ ctx)] else []).

(* ------------------------------------------------------------------ *)
(** ** Vocabulary of the further statements *)

(** The two steps of input assembly of [Context::Run]: the inputs of the
    header, then the overrides. *)
Definition assemble_inputs (ext : Externals) (base : OnnxBackend) (B : Z)
    (provider : InferRequestProvider) (s : RunState) : Status * RunState :=
  and_then
    (set_header_inputs ext base B (input (RequestHeader provider)) s)
    (fun s1 =>
       match GetInputOverride provider with
       | None => (Success, s1)
       | Some overrides => set_override_inputs ext B overrides s1
       end).

(** What input assembly leaves of a payload: everything but its status
    and the answers its provider still holds. *)
Definition assembly_keeps (p p' : Payload) : Prop :=
  queue_timer_ p' = queue_timer_ p
  /\ stats_ p' = stats_ p
  /\ RequestHeader (request_provider_ p') = RequestHeader (request_provider_ p)
  /\ GetInputOverride (request_provider_ p')
     = GetInputOverride (request_provider_ p)
  /\ response_provider_ p' = response_provider_ p.

(** What a whole run leaves of a payload: its timers and its request
    (header and overrides), whether it has a response provider, and
    what that provider requires. *)
Definition run_keeps (p p' : Payload) : Prop :=
  queue_timer_ p' = queue_timer_ p
  /\ stats_ p' = stats_ p
  /\ RequestHeader (request_provider_ p') = RequestHeader (request_provider_ p)
  /\ GetInputOverride (request_provider_ p')
     = GetInputOverride (request_provider_ p)
  /\ option_map required_outputs (response_provider_ p')
     = option_map required_outputs (response_provider_ p).

(** A context between two runs: it holds no tensor handle. *)
Definition idle (ctx : Context) : Prop :=
  input_tensors_ ctx = [] /\ output_tensors_ ctx = [].

(** The allocator of a payload never fails. *)
Definition allocator_reliable (p : Payload) : Prop :=
  match response_provider_ p with
  | Some rp => forall name size shape, IsOk (alloc_outcome rp name size shape) = true
  | None => True
  end.

Definition is_set (t : option OrtValue) : bool :=
  match t with Some _ => true | None => false end.

Definition is_td_run (t : Teardown) : bool :=
  match t with TdRun _ => true | _ => false end.

(** The name and the device of a context. *)
Definition instance_of (c : Context) : string * Z := (name_ c, gpu_device_ c).

(** A context as loading creates it for a backend: the batch limit of
    the configuration (never negative) and no tensor handle. *)
Definition fresh_context (this : OnnxBackend) (c : Context) : Prop :=
  max_batch_size_ c = context_max_batch_size this
  /\ 0 <= max_batch_size_ c
  /\ idle c.

(** Loading took [this] to [this'] by appending the contexts [new]. *)
Definition extends_backend (this this' : OnnxBackend) (new : list Context)
  : Prop :=
  Name this' = Name this
  /\ Config this' = Config this
  /\ contexts_ this' = contexts_ this ++ new
  /\ Forall (fresh_context this) new.

(** An input of a request header that the model configuration does not
    declare. *)
Definition undeclared (base : OnnxBackend) (i : HeaderInput) : Prop :=
  exists st, GetInput base (hi_name i) = inl st.

(** What the start of a dispatch does to a payload before the context
    runs, and the run keeps: the queue timer is gone, and a payload with
    statistics has its compute timer running and the device recorded. *)
Definition timers_started (gpu_device : Z) (p p' : Payload) : Prop :=
  queue_timer_ p' = false
  /\ stats_ p' = match stats_ p with
                 | Some _ => Some (mkStats true gpu_device)
                 | None => None
                 end
  /\ RequestHeader (request_provider_ p') = RequestHeader (request_provider_ p).

(** A payload whose header names an input the sample configuration does
    not declare. *)
Definition payload_unknown_input : Payload :=
  mkPayload true (Some (mkStats false 0))
    (mkRequestProvider (mkHeader 1 [mkHeaderInput "OTHER" [3]]) None
       [("OTHER", [mkReply Success (Some (repeat x0d 12))])])
    (Some (mkResponseProvider ["OUT"] (fun _ _ _ => Success) [] []))
    Success.

(** The outputs a payload has been handed so far, by name, and the
    outputs among [names] that it requires. *)
Definition received (p : Payload) : list string :=
  match response_provider_ p with
  | Some rp => map fst (output_buffers rp)
  | None => []
  end.

Definition wanted (p : Payload) (names : list string) : list string :=
  match response_provider_ p with
  | Some rp => filter (RequiresOutput rp) names
  | None => []
  end.

(** After the outputs [names], payload [p'] is payload [p] with the
    outputs it requires among them handed out, in their order. *)
Definition served (names : list string) (p p' : Payload) : Prop :=
  received p' = received p ++ wanted p names
  /\ (forall ns, wanted p' ns = wanted p ns)
  /\ allocator_reliable p'.

(** [l] is the beginning of [plan]. *)
Definition begins {A : Type} (l plan : list A) : Prop :=
  exists rest, plan = l ++ rest.

(** A context that holds the combined output of the three payloads:
    seven items of three 4-byte elements. *)
Definition ctx_fp32_output : Context :=
  mkContext "model_0_cpu" (-1) 8 1 1 [] [Some (mkOrtValue sample_output [7; 3] 1)].

(** Externals for the examples of loading: one GPU of capability 7.0,
    a model with input "IN" and output "OUT". *)
Definition sample_lext : LoadExternals :=
  mkLoadExternals (-1) 0 (fun _ => "TYPE")
    (fun gpu => if gpu =? 0 then inr (7, 0) else inl "invalid device ordinal")
    (fun _ => None)
    (fun _ _ gpu => (None, 100 + gpu))
    (fun _ => (Success, ["IN"]))
    (fun _ => (Success, ["OUT"]))
    (fun io names =>
       if existsb (String.eqb (mi_name io)) names then Success
       else mkStatus INVALID_ARG "unexpected input")
    (fun io names =>
       if existsb (String.eqb (mo_name io)) names then Success
       else mkStatus INVALID_ARG "unexpected output")
    (fun _ => (None, 7))
    (fun _ => Success).

Definition sample_load_config : LoadConfig :=
  mkLoadConfig
    [mkGroup "cpu_group" KIND_CPU 2 []; mkGroup "gpu_group" KIND_GPU 1 [0]]
    "model.onnx" [("7.0", "model_sm70.onnx")].

Definition sample_paths : list (string * string) :=
  [("model.onnx", "/models/m/1/model.onnx");
   ("model_sm70.onnx", "/models/m/1/model_sm70.onnx")].

Definition empty_backend : OnnxBackend := mkBackend "model" sample_config [].

(** A configuration with an input of a datatype the runtime has no
    element type for. *)
Definition string_input_backend : OnnxBackend :=
  mkBackend "model"
    (mkModelConfig 8 [mkModelInput "IN" TYPE_INVALID [3]]
                     [mkModelOutput "OUT" TYPE_FP32 [3]]) [].

(** A runtime that produces no output handle. *)
Definition silent_model (session : OrtSession) (input_names : list string)
    (inputs : list (option OrtValue)) (output_names : list string)
  : option OrtStatus * list (option OrtValue) :=
  (None, []).

Definition silent_ext : Externals :=
  mkExternals sample_byte_size sample_element_count sample_to_onnx
    sample_from_onnx (fun _ _ _ => None) silent_model
    (fun _ => None) (fun _ => None).

(* ------------------------------------------------------------------ *)
(** ** Vocabulary of the statements about [ReadOutputTensors] *)

(** An output whose payload loop runs: its name and the tensor the
    runtime produced for it. *)
Definition Output : Type := (string * OrtValue)%type.

(** The per-item byte size of an output tensor in a run of total batch
    size [B]: the combined byte size divided by [B]. *)
Definition item_byte_size (ext : Externals) (B : Z) (tensor : OrtValue) : Z :=
  runtime_byte_size ext tensor / B.

(** The size of the slice of payload [p] in the output [out], and where
    the slice of payload [i] of [ps] starts in it. *)
Definition slice_bytes (ext : Externals) (B : Z) (p : Payload) (out : Output)
  : Z :=
  slice_size (item_byte_size ext B (snd out)) p.

Definition slice_start (ext : Externals) (B : Z) (ps : list Payload) (i : nat)
    (out : Output) : Z :=
  read_offset (item_byte_size ext B (snd out)) ps i.

(** The answer of the allocator [rp] of payload [p] when it is asked for
    the slice of [out]. *)
Definition allocation (ext : Externals) (B : Z) (p : Payload)
    (rp : InferResponseProvider) (out : Output) : Status :=
  alloc_outcome rp (fst out) (slice_bytes ext B p out) (ov_shape (snd out)).

(** The buffers requested from [rp] for the outputs [outs]: one for each
    output that [rp] requires, of the size of the payload's slice. *)
Definition requested (ext : Externals) (B : Z) (p : Payload)
    (rp : InferResponseProvider) (outs : list Output) : list (string * Z) :=
  flat_map
    (fun out =>
       if RequiresOutput rp (fst out) then [(fst out, slice_bytes ext B p out)]
       else [])
    outs.

(** The buffers filled for payload [i] of [ps]: for each required output
    whose allocation succeeds, the payload's slice of that output. *)
Definition copied (ext : Externals) (B : Z) (ps : list Payload) (i : nat)
    (p : Payload) (rp : InferResponseProvider) (outs : list Output)
  : list (string * Buffer) :=
  flat_map
    (fun out =>
       if RequiresOutput rp (fst out) && IsOk (allocation ext B p rp out) then
         [(fst out,
           slice (ov_data (snd out)) (slice_start ext B ps i out)
                 (slice_bytes ext B p out))]
       else [])
    outs.

(** The status of the payload after the outputs [outs]: that of the last
    allocation that failed, or the status it had. *)
Definition status_after (ext : Externals) (B : Z) (p : Payload)
    (rp : InferResponseProvider) (outs : list Output) (st : Status) : Status :=
  fold_left
    (fun st out =>
       if RequiresOutput rp (fst out) && negb (IsOk (allocation ext B p rp out))
       then allocation ext B p rp out
       else st)
    outs st.

(** The payload loop of [ReadOutputTensors] for the output [out], and the
    turn of payload [i] of [ps] in it. *)
Definition output_step (ext : Externals) (B : Z) (payloads : list Payload)
    (out : Output) : list Payload :=
  distribute_output (fst out) (ov_data (snd out)) (ov_shape (snd out))
    (item_byte_size ext B (snd out)) 0 payloads.

Definition payload_step (ext : Externals) (B : Z) (ps : list Payload) (i : nat)
    (p : Payload) (q : Payload) (out : Output) : Payload :=
  deliver_output (fst out) (ov_data (snd out)) (ov_shape (snd out))
    (slice_bytes ext B p out) (slice_start ext B ps i out) q.

(** The backend with the configured shape of every output replaced by
    [dims_of]; names and datatypes stay. *)
Definition set_output_dims (dims_of : ModelOutput -> DimsList)
    (base : OnnxBackend) : OnnxBackend :=
  mkBackend (Name base)
    (mkModelConfig (cfg_max_batch_size (Config base)) (cfg_input (Config base))
       (map (fun o => mkModelOutput (mo_name o) (mo_data_type o) (dims_of o))
            (cfg_output (Config base))))
    (contexts_ base).

(** A runtime whose computation fails for a batch of more than four
    items and hands the first input back otherwise. *)
Definition overloaded_model (session : OrtSession) (input_names : list string)
    (inputs : list (option OrtValue)) (output_names : list string)
  : option OrtStatus * list (option OrtValue) :=
  match hd None inputs with
  | Some t =>
      if 4 <? hd 0 (ov_shape t) then (Some (mkOrtStatus 1 "out of memory"), [])
      else echo_model session input_names inputs output_names
  | None => echo_model session input_names inputs output_names
  end.

Definition overloaded_ext : Externals :=
  mkExternals sample_byte_size sample_element_count sample_to_onnx
    sample_from_onnx (fun _ _ _ => None) overloaded_model
    (fun _ => None) (fun _ => None).

(** The context after a run on the runtime that produces no output
    handle: the placeholder reserved for "OUT" is still null. *)
Definition ctx_null_output : Context :=
  rs_ctx (snd (Context_Run silent_ext sample_backend sample_ctx
                 [payload_b; payload_b])).

(* ------------------------------------------------------------------ *)
(** * Properties *)

(** ** Arithmetic of [size_t] *)

Unset Implicit Arguments.
#[local] Arguments Z.pow : simpl never.

Lemma to_size_t_small (z : Z) : 0 <= z < 2 ^ 64 -> to_size_t z = z.
Proof. intros H. unfold to_size_t, size_t_modulus. now apply Z.mod_small. Qed.

Lemma to_size_t_range (z : Z) : 0 <= to_size_t z < 2 ^ 64.
Proof. unfold to_size_t, size_t_modulus. apply Z.mod_pos_bound. lia. Qed.

Lemma to_size_t_add_r (a b : Z) :
  to_size_t (a + to_size_t b) = to_size_t (a + b).
Proof. unfold to_size_t. apply Zplus_mod_idemp_r. Qed.

Lemma to_size_t_add_l (a b : Z) :
  to_size_t (to_size_t a + b) = to_size_t (a + b).
Proof. unfold to_size_t. apply Zplus_mod_idemp_l. Qed.

Lemma to_size_t_mul_l (a b : Z) :
  to_size_t (to_size_t a * b) = to_size_t (a * b).
Proof. unfold to_size_t. apply Zmult_mod_idemp_l. Qed.

Lemma to_size_t_mul_r (a b : Z) :
  to_size_t (a * to_size_t b) = to_size_t (a * b).
Proof. unfold to_size_t. apply Zmult_mod_idemp_r. Qed.

Lemma to_int64_small (z : Z) : 0 <= z < 2 ^ 63 -> to_int64 z = z.
Proof. intros H. unfold to_int64. rewrite Z.mod_small; lia. Qed.

Lemma fold_cnt (dims : DimsList) (a : Z) :
  fold_left (fun cnt dim => to_size_t (cnt * dim)) dims (to_size_t a)
  = to_size_t (a * dims_product dims).
Proof.
  revert a. induction dims as [|d dims IH]; intros a; simpl.
  - now rewrite Z.mul_1_r.
  - rewrite to_size_t_mul_l, IH. f_equal. ring.
Qed.

Lemma batch1_element_cnt_product (dims : DimsList) :
  batch1_element_cnt dims = to_size_t (dims_product dims).
Proof.
  unfold batch1_element_cnt.
  change 1 with (to_size_t 1) at 1.
  rewrite fold_cnt. f_equal. ring.
Qed.

Lemma input_byte_size_product (ext : Externals) (dt : DataType) (dims : DimsList) :
  input_byte_size ext dt dims
  = to_size_t (dims_product dims * GetDataTypeByteSize ext dt).
Proof.
  unfold input_byte_size.
  now rewrite batch1_element_cnt_product, to_size_t_mul_l, to_size_t_mul_r.
Qed.

(** ** Memory *)

Lemma memcpy_length (b : Buffer) (off : Z) (c : list byte) :
  (Z.to_nat off + List.length c <= List.length b)%nat ->
  List.length (memcpy b off c) = List.length b.
Proof.
  intros H. unfold memcpy.
  rewrite !length_app, length_map, length_firstn, length_skipn. lia.
Qed.

Lemma memcpy_firstn (b : Buffer) (off : Z) (c : list byte) (n : nat) :
  (n <= Z.to_nat off <= List.length b)%nat ->
  firstn n (memcpy b off c) = firstn n b.
Proof.
  intros H. unfold memcpy.
  rewrite firstn_app, length_firstn.
  replace (n - Nat.min (Z.to_nat off) (List.length b))%nat with 0%nat by lia.
  rewrite firstn_firstn, firstn_O, app_nil_r. f_equal. lia.
Qed.

Lemma memcpy_nil (b : Buffer) (off : Z) : memcpy b off [] = b.
Proof.
  unfold memcpy. simpl. rewrite Nat.add_0_r. apply firstn_skipn.
Qed.

Lemma memcpy_app (b : Buffer) (off : Z) (c1 c2 : list byte) :
  0 <= off ->
  (Z.to_nat off + List.length c1 <= List.length b)%nat ->
  memcpy (memcpy b off c1) (off + Z.of_nat (List.length c1)) c2
  = memcpy b off (c1 ++ c2).
Proof.
  intros Hoff Hfit. unfold memcpy.
  replace (Z.to_nat (off + Z.of_nat (List.length c1)))
    with (Z.to_nat off + List.length c1)%nat by lia.
  set (n := Z.to_nat off) in *.
  set (k := List.length c1) in *.
  set (inner := firstn n b ++ map Some c1 ++ skipn (n + k) b).
  assert (Hn : List.length (firstn n b) = n) by (rewrite length_firstn; lia).
  assert (Hm : List.length (map Some c1) = k) by apply length_map.
  assert (F : firstn (n + k) inner = firstn n b ++ map Some c1).
  { unfold inner. rewrite firstn_app, Hn, (firstn_all2 (firstn n b)) by lia.
    replace (n + k - n)%nat with k by lia.
    rewrite firstn_app, Hm, Nat.sub_diag, firstn_O, app_nil_r.
    now rewrite (firstn_all2 (map Some c1)) by lia. }
  assert (S : skipn (n + k + List.length c2) inner
              = skipn (n + List.length (c1 ++ c2)) b).
  { unfold inner. rewrite skipn_app, Hn, (skipn_all2 (firstn n b)) by lia.
    simpl.
    replace (n + k + List.length c2 - n)%nat
      with (k + List.length c2)%nat by lia.
    rewrite skipn_app, Hm, (skipn_all2 (map Some c1)) by lia.
    simpl.
    replace (k + List.length c2 - k)%nat with (List.length c2) by lia.
    rewrite skipn_skipn, length_app. f_equal. fold k. lia. }
  rewrite F, S, map_app, <- !app_assoc. reflexivity.
Qed.

Lemma slice_memcpy (b : Buffer) (off : Z) (c : list byte) :
  (Z.to_nat off + List.length c <= List.length b)%nat ->
  slice (memcpy b off c) off (Z.of_nat (List.length c)) = map Some c.
Proof.
  intros H. unfold slice, memcpy.
  assert (Hn : List.length (firstn (Z.to_nat off) b) = Z.to_nat off)
    by (rewrite length_firstn; lia).
  rewrite skipn_app, Hn, (skipn_all2 (firstn (Z.to_nat off) b)) by lia.
  rewrite Nat.sub_diag. simpl.
  rewrite Nat2Z.id, firstn_app, length_map, Nat.sub_diag, firstn_O.
  rewrite app_nil_r. apply firstn_all2. rewrite length_map. lia.
Qed.

Lemma firstn_le_eq (b b' : Buffer) (n m : nat) :
  (n <= m)%nat -> firstn m b = firstn m b' -> firstn n b = firstn n b'.
Proof.
  intros Hnm H.
  assert (E := f_equal (firstn n) H).
  rewrite !firstn_firstn in E.
  now replace (Nat.min n m) with n in E by lia.
Qed.

Lemma batch_total_cons (p : Payload) (ps : list Payload) :
  batch_total (p :: ps) = payload_batch_size p + batch_total ps.
Proof. reflexivity. Qed.

Lemma batch_total_nonneg (ps : list Payload) :
  Forall (fun p => 0 <= payload_batch_size p) ps -> 0 <= batch_total ps.
Proof. induction 1; rewrite ?batch_total_cons; [reflexivity | lia]. Qed.

Lemma slice_firstn (b b' : Buffer) (off len : Z) (n : nat) :
  (Z.to_nat off + Z.to_nat len <= n)%nat ->
  firstn n b = firstn n b' ->
  slice b off len = slice b' off len.
Proof.
  intros Hn H. unfold slice.
  assert (E : forall x : Buffer,
             firstn (Z.to_nat len) (skipn (Z.to_nat off) x)
             = firstn (Z.to_nat len) (skipn (Z.to_nat off) (firstn n x))).
  { intros x. rewrite skipn_firstn_comm, firstn_firstn. f_equal. lia. }
  now rewrite (E b), (E b'), H.
Qed.

(** ** Input assembly *)

Section Assembly.

Variables (name : string) (total item : Z).
Hypothesis total_addressable : total < 2 ^ 63.
Hypothesis item_nonneg : 0 <= item.

(** The inner loop: it never touches the buffer below its own offset,
    and it ends OK exactly when what the provider delivers fits. *)
Lemma copy_content_spec (off : Z) (replies : list ContentReply) :
  0 <= off ->
  Forall chunk_ok replies ->
  forall copied buffer st rs copied' buffer',
    0 <= copied ->
    off + copied <= total ->
    Z.of_nat (List.length buffer) = total ->
    copy_content name total off replies copied buffer
    = (st, rs, copied', buffer') ->
    List.length buffer' = List.length buffer
    /\ firstn (Z.to_nat (off + copied)) buffer'
       = firstn (Z.to_nat (off + copied)) buffer
    /\ match delivered replies with
       | Some content =>
           if off + copied + Z.of_nat (List.length content) <=? total then
             IsOk st = true
             /\ copied' = copied + Z.of_nat (List.length content)
             /\ buffer' = memcpy buffer (off + copied) content
           else IsOk st = false
       | None => IsOk st = false
       end.
Proof.
  intros Hoff Hchunks.
  induction Hchunks as [|r rest Hr Hrest IH];
    intros copied buffer st rs copied' buffer' Hc Hfit Hlen E; simpl in E.
  - injection E as <- <- <- <-. simpl.
    repeat split; trivial.
    + rewrite Z.add_0_r.
      destruct (off + copied <=? total) eqn:L; [|lia].
      repeat split; [lia | now rewrite memcpy_nil].
  - simpl. destruct (IsOk (reply_status r)) eqn:Ok; simpl in *.
    2:{ injection E as <- <- <- <-. now repeat split. }
    unfold chunk_ok in Hr.
    destruct (reply_content r) as [c|] eqn:Rc.
    2:{ injection E as <- <- <- <-. repeat split; trivial.
        simpl. rewrite Z.add_0_r.
        destruct (off + copied <=? total) eqn:L; [|lia].
        repeat split; [exact Ok | lia | now rewrite memcpy_nil]. }
    set (sz := Z.of_nat (List.length c)) in *.
    assert (Hsz : 0 <= sz) by (unfold sz; lia).
    rewrite (to_size_t_small (off + copied + sz)) in E by lia.
    destruct (off + copied + sz >? total) eqn:Over.
    + injection E as <- <- <- <-. repeat split; trivial.
      destruct (delivered rest) as [cs|]; trivial.
      rewrite length_app, Nat2Z.inj_add. fold sz.
      destruct (off + copied + (sz + Z.of_nat (List.length cs)) <=? total)
        eqn:L; [lia | reflexivity].
    + rewrite (to_size_t_small (copied + sz)) in E by lia.
      assert (Hin : (Z.to_nat (off + copied) + List.length c
                     <= List.length buffer)%nat) by (unfold sz in *; lia).
      specialize (IH (copied + sz)
                     (memcpy buffer (off + copied) c) st rs copied' buffer').
      destruct IH as (L1 & F1 & D1); try lia; trivial.
      { rewrite memcpy_length by exact Hin. lia. }
      rewrite memcpy_length in L1 by exact Hin.
      split; [exact L1|]. split.
      * assert (F2 := f_equal (firstn (Z.to_nat (off + copied))) F1).
        rewrite !firstn_firstn in F2.
        replace (Nat.min (Z.to_nat (off + copied))
                         (Z.to_nat (off + (copied + sz))))
          with (Z.to_nat (off + copied)) in F2 by lia.
        rewrite F2. apply memcpy_firstn. lia.
      * destruct (delivered rest) as [cs|]; trivial.
        rewrite length_app, Nat2Z.inj_add. fold sz.
        replace (off + (copied + sz) + Z.of_nat (List.length cs))
          with (off + copied + (sz + Z.of_nat (List.length cs))) in D1 by ring.
        destruct (off + copied + (sz + Z.of_nat (List.length cs)) <=? total);
          trivial.
        destruct D1 as (O1 & C1 & B1). repeat split; trivial; [lia|].
        rewrite B1.
        replace (off + (copied + sz)) with (off + copied + sz) by ring.
        unfold sz. apply memcpy_app; lia.
Qed.

Lemma copy_payload_spec (off : Z) (buffer : Buffer) (p : Payload) :
  0 <= off ->
  0 <= payload_batch_size p ->
  off + payload_batch_size p * item <= total ->
  Z.of_nat (List.length buffer) = total ->
  addressable name p ->
  forall p' off' buffer',
    copy_payload name total item off buffer p = (p', off', buffer') ->
    off' = off + payload_batch_size p * item
    /\ List.length buffer' = List.length buffer
    /\ firstn (Z.to_nat off) buffer' = firstn (Z.to_nat off) buffer
    /\ payload_outcome name item p p'
         (fun content => buffer' = memcpy buffer off content).
Proof.
  intros Hoff Hb Hfit Hlen Haddr p' off' buffer' E.
  assert (Hexp : 0 <= payload_batch_size p * item) by nia.
  unfold copy_payload in E.
  rewrite (to_size_t_small (payload_batch_size p * item)) in E by lia.
  rewrite (to_size_t_small (off + payload_batch_size p * item)) in E by lia.
  unfold payload_outcome.
  destruct (IsOk (status_ p)) eqn:Ok.
  - fold (payload_replies name p) in E.
    destruct (copy_content name total off (payload_replies name p) 0 buffer)
      as [[[st rs] copied] b1] eqn:C.
    destruct (copy_content_spec off (payload_replies name p) Hoff Haddr
                0 buffer st rs copied b1 ltac:(lia) ltac:(lia) Hlen C)
      as (L1 & F1 & D1).
    rewrite Z.add_0_r in F1, D1.
    cbn [status_ set_status] in E.
    assert (Hres : buffer' = b1 /\ off' = off + payload_batch_size p * item
                   /\ payload_batch_size p' = payload_batch_size p
                   /\ response_provider_ p' = response_provider_ p
                   /\ status_ p' =
                      (if IsOk st && negb (copied =? payload_batch_size p * item)
                       then status_ p' else st)
                   /\ (IsOk st && negb (copied =? payload_batch_size p * item)
                       = true -> IsOk (status_ p') = false)).
    { destruct (IsOk st && negb (copied =? payload_batch_size p * item));
        injection E as <- <- <-; repeat split; trivial; discriminate. }
    destruct Hres as (-> & -> & Hbs & Hrp & Hst & Hbad).
    repeat split; trivial; try discriminate.
    intros _.
    destruct (delivered (payload_replies name p)) as [content|].
    + destruct (off + Z.of_nat (List.length content) <=? total) eqn:Fit.
      * destruct D1 as (O1 & C1 & B1). rewrite Z.add_0_l in C1. subst copied.
        rewrite O1 in Hst, Hbad. simpl in Hst, Hbad.
        destruct (Z.of_nat (List.length content) =? payload_batch_size p * item).
        -- simpl in Hst. rewrite Hst. now split.
        -- now apply Hbad.
      * destruct (Z.of_nat (List.length content) =? payload_batch_size p * item)
          eqn:EqLen; [lia|].
        rewrite D1 in Hst. simpl in Hst. now rewrite Hst.
    + rewrite D1 in Hst. simpl in Hst. now rewrite Hst.
  - rewrite Ok in E. cbn [andb] in E.
    injection E as <- <- <-. repeat split; trivial; intros; discriminate.
Qed.

(** The loop over the payloads: each payload that is OK and delivers
    exactly its expected bytes stays OK and finds them at its nominal
    offset, whatever the other payloads deliver; any other payload ends
    with a failed status. *)
Lemma copy_payloads_spec (ps : list Payload) :
  forall off buffer ps' buffer',
    0 <= off ->
    Forall (fun p => 0 <= payload_batch_size p) ps ->
    Forall (addressable name) ps ->
    off + batch_total ps * item <= total ->
    Z.of_nat (List.length buffer) = total ->
    copy_payloads name total item off buffer ps = (ps', buffer') ->
    List.length buffer' = List.length buffer
    /\ firstn (Z.to_nat off) buffer' = firstn (Z.to_nat off) buffer
    /\ List.length ps' = List.length ps
    /\ forall i p,
         nth_error ps i = Some p ->
         exists p',
           nth_error ps' i = Some p'
           /\ payload_outcome name item p p'
                (fun content =>
                   slice buffer' (off + nominal_offset item ps i)
                         (payload_batch_size p * item)
                   = map Some content).
Proof.
  induction ps as [|p rest IH];
    intros off buffer ps' buffer' Hoff Hbs Haddr Hfit Hlen E; simpl in E.
  - injection E as <- <-. repeat split; trivial.
    intros [|i] q Hq; discriminate.
  - apply Forall_cons_iff in Hbs as [Hb Hbs'].
    apply Forall_cons_iff in Haddr as [Ha Haddr'].
    assert (Hrest := batch_total_nonneg _ Hbs').
    rewrite batch_total_cons, Z.mul_add_distr_r in Hfit.
    assert (Hri : 0 <= batch_total rest * item)
      by (apply Z.mul_nonneg_nonneg; lia).
    assert (Hpi : 0 <= payload_batch_size p * item)
      by (apply Z.mul_nonneg_nonneg; lia).
    destruct (copy_payload name total item off buffer p)
      as [[p1 off1] b1] eqn:C1.
    destruct (copy_payloads name total item off1 b1 rest)
      as [rest' b2] eqn:C2.
    injection E as <- <-.
    assert (Hfit1 : off + payload_batch_size p * item <= total) by lia.
    destruct (copy_payload_spec off buffer p
                Hoff Hb Hfit1 Hlen Ha p1 off1 b1 C1) as (-> & L1 & F1 & O1).
    assert (Hoff2 : 0 <= off + payload_batch_size p * item) by lia.
    assert (Hfit2 : off + payload_batch_size p * item
                    + batch_total rest * item <= total) by lia.
    assert (Hlen2 : Z.of_nat (List.length b1) = total) by lia.
    destruct (IH _ _ _ _ Hoff2 Hbs' Haddr' Hfit2 Hlen2 C2)
      as (L2 & F2 & N2 & P2).
    assert (Hle : (Z.to_nat off
                   <= Z.to_nat (off + payload_batch_size p * item))%nat) by lia.
    split; [lia|]. split.
    { rewrite <- F1. now apply (firstn_le_eq _ _ _ _ Hle). }
    split; [simpl; lia|].
    intros [|i] q Hq; simpl in Hq.
    + injection Hq as <-. exists p1. split; [reflexivity|].
      unfold nominal_offset. cbn [firstn]. change (batch_total []) with 0.
      rewrite Z.mul_0_l, Z.add_0_r.
      destruct O1 as (A1 & A2 & A3 & A4). repeat split; trivial.
      intros Ok. specialize (A4 Ok).
      destruct (delivered (payload_replies name p)) as [content|]; trivial.
      destruct (Z.of_nat (List.length content) =? payload_batch_size p * item)
        eqn:EqLen; trivial.
      destruct A4 as (A4 & A5). split; trivial.
      rewrite (slice_firstn b2 b1 off (payload_batch_size p * item)
                 (Z.to_nat (off + payload_batch_size p * item)))
        by (trivial; lia).
      rewrite A5.
      replace (payload_batch_size p * item)
        with (Z.of_nat (List.length content)) by lia.
      apply slice_memcpy. lia.
    + destruct (P2 i q Hq) as (q' & Hq' & O2).
      exists q'. split; [exact Hq'|].
      unfold nominal_offset in *. cbn [firstn]. rewrite batch_total_cons.
      replace (off + (payload_batch_size p + batch_total (firstn i rest)) * item)
        with (off + payload_batch_size p * item
              + batch_total (firstn i rest) * item) by ring.
      exact O2.
Qed.

End Assembly.

(** ** [SetInputTensor] *)

Section SetInput.

Variable ext : Externals.
Variables (name : string) (datatype : DataType) (dims : DimsList).
Variables (s : RunState) (B item : Z) (shape : list Z).

Hypothesis item_def : item = per_item_bytes ext datatype dims.
Hypothesis shape_def : shape = tensor_shape (rs_ctx s) B dims.
Hypothesis B_range : 1 <= B < 2 ^ 63.
Hypothesis item_nonneg : 0 <= item.
Hypothesis fits : B * item < 2 ^ 63.

(** Without overflow the sizes [SetInputTensor] computes are the
    products the names promise. *)
Lemma SetInputTensor_sizes :
  input_byte_size ext datatype dims = item
  /\ to_size_t (B * input_byte_size ext datatype dims) = B * item
  /\ input_dims_of (max_batch_size_ (rs_ctx s)) B dims = shape.
Proof.
  assert (Hi : item <= B * item) by nia.
  assert (E : input_byte_size ext datatype dims = item).
  { rewrite input_byte_size_product. fold (per_item_bytes ext datatype dims).
    rewrite <- item_def. apply to_size_t_small. lia. }
  rewrite E. repeat split.
  - apply to_size_t_small. nia.
  - rewrite shape_def. unfold input_dims_of, tensor_shape.
    destruct (max_batch_size_ (rs_ctx s) =? NO_BATCHING); trivial.
    rewrite to_int64_small by lia. reflexivity.
Qed.

Lemma set_back_snoc {A : Type} (l : list A) (x v : A) :
  set_back (l ++ [x]) v = l ++ [v].
Proof. unfold set_back. now rewrite removelast_last. Qed.

(** [SetInputTensor] in terms of the loop over the payloads. *)
Lemma SetInputTensor_unfold :
  forall ps' buffer,
    copy_payloads name (B * item) item 0 (new_char_array (B * item))
      (rs_payloads s) = (ps', buffer) ->
    SetInputTensor ext name datatype dims B s
    = let ctx := rs_ctx s in
      let onnx_type := ConvertToOnnxDataType ext datatype in
      let events := rs_events s ++ [EvCreateTensor name (B * item) shape] in
      match OrtCreateTensorWithDataAsOrtValue ext (B * item) shape onnx_type with
      | Some e =>
          (ort_error e,
           mkRunState
             (set_tensors ctx (input_tensors_ ctx ++ [None]) (output_tensors_ ctx))
             ps' (rs_input_buffers s ++ [buffer]) (rs_input_names s ++ [name])
             events)
      | None =>
          (Success,
           mkRunState
             (set_tensors ctx
                (input_tensors_ ctx ++ [Some (mkOrtValue buffer shape onnx_type)])
                (output_tensors_ ctx))
             ps' (rs_input_buffers s ++ [buffer]) (rs_input_names s ++ [name])
             events)
      end.
Proof.
  intros ps' buffer C.
  destruct SetInputTensor_sizes as (E1 & E2 & E3).
  unfold SetInputTensor. rewrite E2, E1, E3, C. cbv zeta.
  now rewrite set_back_snoc.
Qed.

End SetInput.

(** ** Claims on input assembly *)

(** C1.  For payloads whose batch sizes add up to [B] (at least 1),
    [SetInputTensor] appends the name to the input names and one buffer
    of exactly [B * item] bytes to the input buffers, [item] being the
    product of the non-batch dimensions times the datatype size; every
    payload that is OK and delivers its [batch_size * item] bytes finds
    them in that buffer at the byte offset (sum of the batch sizes of
    the payloads before it) * [item] and stays OK; the shape given to
    the runtime is [dims] alone when the context does not batch and
    [B :: dims] otherwise, and the tensor created wraps that buffer. *)
Theorem C1_SetInputTensor_concatenates
    (ext : Externals) (name : string) (datatype : DataType) (dims : DimsList)
    (s : RunState) (B : Z) :
  let item := per_item_bytes ext datatype dims in
  let shape := tensor_shape (rs_ctx s) B dims in
  let r := SetInputTensor ext name datatype dims B s in
  B = batch_total (rs_payloads s) ->
  1 <= B < 2 ^ 63 ->
  0 <= item ->
  B * item < 2 ^ 63 ->
  Forall (fun p => 0 <= payload_batch_size p) (rs_payloads s) ->
  Forall (addressable name) (rs_payloads s) ->
  exists buffer,
    rs_input_buffers (snd r) = rs_input_buffers s ++ [buffer]
    /\ rs_input_names (snd r) = rs_input_names s ++ [name]
    /\ Z.of_nat (List.length buffer) = B * item
    /\ (forall i p content,
          nth_error (rs_payloads s) i = Some p ->
          IsOk (status_ p) = true ->
          delivered (payload_replies name p) = Some content ->
          Z.of_nat (List.length content) = payload_batch_size p * item ->
          slice buffer (nominal_offset item (rs_payloads s) i)
                (payload_batch_size p * item) = map Some content
          /\ exists p', nth_error (rs_payloads (snd r)) i = Some p'
                        /\ IsOk (status_ p') = true)
    /\ rs_events (snd r)
       = rs_events s ++ [EvCreateTensor name (B * item) shape]
    /\ (OrtCreateTensorWithDataAsOrtValue ext (B * item) shape
          (ConvertToOnnxDataType ext datatype) = None ->
        input_tensors_ (rs_ctx (snd r))
        = input_tensors_ (rs_ctx s)
          ++ [Some (mkOrtValue buffer shape (ConvertToOnnxDataType ext datatype))]).
Proof.
  intros item shape r HB Hrange Hitem Hfits Hbs Haddr.
  destruct (copy_payloads name (B * item) item 0 (new_char_array (B * item))
              (rs_payloads s)) as [ps' buffer] eqn:C.
  assert (Hnew : Z.of_nat (List.length (new_char_array (B * item))) = B * item).
  { unfold new_char_array. rewrite repeat_length. nia. }
  destruct (copy_payloads_spec name (B * item) item Hfits Hitem (rs_payloads s)
              0 (new_char_array (B * item)) ps' buffer
              ltac:(lia) Hbs Haddr ltac:(rewrite <- HB; lia) Hnew C)
    as (L & _ & N & P).
  assert (U := SetInputTensor_unfold ext name datatype dims s B item shape
                 eq_refl eq_refl Hrange Hitem Hfits ps' buffer C).
  fold r in U. cbv zeta in U.
  exists buffer.
  assert (R : rs_input_buffers (snd r) = rs_input_buffers s ++ [buffer]
              /\ rs_input_names (snd r) = rs_input_names s ++ [name]
              /\ rs_payloads (snd r) = ps'
              /\ rs_events (snd r)
                 = rs_events s ++ [EvCreateTensor name (B * item) shape]).
  { rewrite U.
    destruct (OrtCreateTensorWithDataAsOrtValue ext _ _ _); now repeat split. }
  destruct R as (R1 & R2 & R3 & R4).
  split; [exact R1|]. split; [exact R2|]. split; [lia|]. split.
  - intros i p content Hi Ok D Len.
    destruct (P i p Hi) as (p' & Hp' & _ & _ & _ & O).
    specialize (O Ok). rewrite D in O.
    rewrite (proj2 (Z.eqb_eq _ _) Len) in O. destruct O as (O1 & O2).
    rewrite Z.add_0_l in O2. split; [exact O2|].
    exists p'. now rewrite R3.
  - split; [exact R4|]. intros Hc. rewrite Hc in U. rewrite U. reflexivity.
Qed.

(** C6.  A payload that comes in OK and does not deliver exactly its
    [batch_size * item] bytes for the input (too much for the buffer,
    too little, too much, or an error of its provider) ends with a
    failed status, and that is all its failure does: when the runtime
    wraps the buffer, [SetInputTensor] returns success; no payload is
    dropped; a payload that came in failed keeps its status; and every
    other payload that delivers its bytes stays OK and finds them at its
    nominal offset, the failed payload counting with its expected size. *)
Theorem C6_SetInputTensor_isolates_failure
    (ext : Externals) (name : string) (datatype : DataType) (dims : DimsList)
    (s : RunState) (B : Z) (i : nat) (p : Payload) :
  let item := per_item_bytes ext datatype dims in
  let shape := tensor_shape (rs_ctx s) B dims in
  let r := SetInputTensor ext name datatype dims B s in
  B = batch_total (rs_payloads s) ->
  1 <= B < 2 ^ 63 ->
  0 <= item ->
  B * item < 2 ^ 63 ->
  Forall (fun p => 0 <= payload_batch_size p) (rs_payloads s) ->
  Forall (addressable name) (rs_payloads s) ->
  OrtCreateTensorWithDataAsOrtValue ext (B * item) shape
    (ConvertToOnnxDataType ext datatype) = None ->
  nth_error (rs_payloads s) i = Some p ->
  IsOk (status_ p) = true ->
  (forall content,
      delivered (payload_replies name p) = Some content ->
      Z.of_nat (List.length content) <> payload_batch_size p * item) ->
  fst r = Success
  /\ List.length (rs_payloads (snd r)) = List.length (rs_payloads s)
  /\ (exists p', nth_error (rs_payloads (snd r)) i = Some p'
                 /\ IsOk (status_ p') = false)
  /\ exists buffer,
       rs_input_buffers (snd r) = rs_input_buffers s ++ [buffer]
       /\ forall j q,
            nth_error (rs_payloads s) j = Some q ->
            exists q',
              nth_error (rs_payloads (snd r)) j = Some q'
              /\ (IsOk (status_ q) = false -> status_ q' = status_ q)
              /\ forall content,
                   IsOk (status_ q) = true ->
                   delivered (payload_replies name q) = Some content ->
                   Z.of_nat (List.length content) = payload_batch_size q * item ->
                   IsOk (status_ q') = true
                   /\ slice buffer (nominal_offset item (rs_payloads s) j)
                            (payload_batch_size q * item) = map Some content.
Proof.
  intros item shape r HB Hrange Hitem Hfits Hbs Haddr Hc Hi Ok Bad.
 
  destruct (copy_payloads name (B * item) item 0 (new_char_array (B * item))
              (rs_payloads s)) as [ps' buffer] eqn:C.
  assert (Hnew : Z.of_nat (List.length (new_char_array (B * item))) = B * item).
  { unfold new_char_array. rewrite repeat_length. nia. }
  destruct (copy_payloads_spec name (B * item) item Hfits Hitem (rs_payloads s)
              0 (new_char_array (B * item)) ps' buffer
              ltac:(lia) Hbs Haddr ltac:(rewrite <- HB; lia) Hnew C)
    as (L & _ & N & P).
  assert (U := SetInputTensor_unfold ext name datatype dims s B item shape
                 eq_refl eq_refl Hrange Hitem Hfits ps' buffer C).
  fold r in U. cbv zeta in U.
  rewrite Hc in U.
  rewrite U. cbn [fst snd rs_payloads rs_input_buffers].
  split; [reflexivity|]. split; [exact N|]. split.
  - destruct (P i p Hi) as (p' & Hp' & _ & _ & _ & O).
    exists p'. split; [exact Hp'|].
    specialize (O Ok).
    destruct (delivered (payload_replies name p)) as [content|]; trivial.
    specialize (Bad content eq_refl).
    destruct (Z.of_nat (List.length content) =? payload_batch_size p * item)
      eqn:EqLen; [lia | exact O].
  - exists buffer. split; [reflexivity|].
    intros j q Hj.
    destruct (P j q Hj) as (q' & Hq' & _ & _ & Keep & O).
    exists q'. split; [exact Hq'|]. split; [exact Keep|].
    intros content Okq D Len.
    specialize (O Okq). rewrite D in O.
    rewrite (proj2 (Z.eqb_eq _ _) Len) in O.
    now rewrite Z.add_0_l in O.
Qed.

(** ** Lists in step *)

Lemma Forall2_refl_on {A : Type} (R : A -> A -> Prop) (l : list A) :
  (forall x, R x x) -> Forall2 R l l.
Proof. intros H. induction l; constructor; trivial. Qed.

Lemma Forall2_compose {A : Type} (R : A -> A -> Prop) :
  (forall x y z, R x y -> R y z -> R x z) ->
  forall l1 l2 l3, Forall2 R l1 l2 -> Forall2 R l2 l3 -> Forall2 R l1 l3.
Proof.
  intros Tr l1 l2 l3 H. revert l3.
  induction H as [|x y l1 l2 Hxy H IH]; intros l3 H3.
  - inversion H3. constructor.
  - inversion H3 as [|y' z l2' l3' Hyz H3']; subst.
    constructor; [eapply Tr; eassumption | now apply IH].
Qed.

Lemma Forall2_weaken {A : Type} (R S : A -> A -> Prop) (l1 l2 : list A) :
  (forall x y, R x y -> S x y) -> Forall2 R l1 l2 -> Forall2 S l1 l2.
Proof. intros H F. induction F; constructor; auto. Qed.

Lemma ort_error_not_ok (e : OrtStatus) : IsOk (ort_error e) = false.
Proof. reflexivity. Qed.

(** ** Claims on output distribution *)

Section Distribution.

Variables (name : string) (content : Buffer) (content_shape : list Z).
Variable batch1 : Z.

Lemma distribute_output_length (ps : list Payload) :
  forall off,
    List.length (distribute_output name content content_shape batch1 off ps)
    = List.length ps.
Proof.
  induction ps as [|p rest IH]; intros off; simpl; [reflexivity|].
  now rewrite IH.
Qed.

(** Payload [i] is served at the offset the loop has reached after the
    payloads before it. *)
Lemma distribute_output_nth (ps : list Payload) :
  forall off i p,
    to_size_t off = off ->
    nth_error ps i = Some p ->
    nth_error (distribute_output name content content_shape batch1 off ps) i
    = Some (deliver_output name content content_shape (slice_size batch1 p)
              (to_size_t
                 (off + fold_right (fun q acc => slice_size batch1 q + acc) 0
                          (firstn i ps)))
              p).
Proof.
  induction ps as [|q rest IH]; intros off i p Hoff Hi.
  - destruct i; discriminate.
  - destruct i as [|i]; simpl in Hi.
    + injection Hi as ->. cbn [distribute_output nth_error firstn fold_right].
      rewrite Z.add_0_r, Hoff. reflexivity.
    + cbn [distribute_output nth_error firstn fold_right].
      rewrite (IH _ i p); trivial.
      * fold (slice_size batch1 q).
        rewrite to_size_t_add_l. do 3 f_equal. ring.
      * unfold to_size_t, size_t_modulus. now rewrite Z.mod_mod.
Qed.

End Distribution.

(** The payload loop leaves the request provider of every payload, so
    its batch size, alone. *)
Lemma deliver_output_request (name : string) (content : Buffer)
    (shape : list Z) (expected off : Z) (p : Payload) :
  request_provider_ (deliver_output name content shape expected off p)
  = request_provider_ p.
Proof.
  unfold deliver_output.
  destruct (response_provider_ p) as [rp|]; [|reflexivity].
  destruct (RequiresOutput rp name); [|reflexivity].
  destruct (IsOk _); reflexivity.
Qed.

Lemma distribute_output_requests (name : string) (content : Buffer)
    (shape : list Z) (batch1 : Z) (ps : list Payload) :
  forall off,
    Forall2 (fun a b => request_provider_ b = request_provider_ a) ps
      (distribute_output name content shape batch1 off ps).
Proof.
  induction ps as [|p rest IH]; intros off; cbn [distribute_output];
    constructor; [apply deliver_output_request | apply IH].
Qed.

Lemma same_requests_nth (ps qs : list Payload) :
  Forall2 (fun a b => request_provider_ b = request_provider_ a) ps qs ->
  forall i p q,
    nth_error ps i = Some p -> nth_error qs i = Some q ->
    request_provider_ q = request_provider_ p.
Proof.
  induction 1 as [|a b ps qs R _ IH]; intros i p q Hp Hq.
  - destruct i; discriminate.
  - destruct i as [|i]; cbn [nth_error] in Hp, Hq.
    + injection Hp as <-. injection Hq as <-. exact R.
    + exact (IH i p q Hp Hq).
Qed.

Lemma same_requests_slices (batch1 : Z) (ps qs : list Payload) :
  Forall2 (fun a b => request_provider_ b = request_provider_ a) ps qs ->
  forall i,
    fold_right (fun q acc => slice_size batch1 q + acc) 0 (firstn i qs)
    = fold_right (fun q acc => slice_size batch1 q + acc) 0 (firstn i ps).
Proof.
  induction 1 as [|a b ps qs R _ IH]; intros i.
  - reflexivity.
  - destruct i as [|i]; cbn [firstn fold_right]; [reflexivity|].
    rewrite (IH i). unfold slice_size, payload_batch_size. now rewrite R.
Qed.

(** The payload loops of a sequence of outputs, seen from payload [i]. *)
Lemma output_steps_nth (ext : Externals) (B : Z) (ps : list Payload) (i : nat)
    (p : Payload) (outs : list Output) :
  forall qs q,
    Forall2 (fun a b => request_provider_ b = request_provider_ a) ps qs ->
    nth_error ps i = Some p ->
    nth_error qs i = Some q ->
    nth_error (fold_left (output_step ext B) outs qs) i
    = Some (fold_left (payload_step ext B ps i p) outs q).
Proof.
  induction outs as [|out rest IH]; intros qs q R Hp Hq; cbn [fold_left].
  - exact Hq.
  - apply IH; trivial.
    + eapply Forall2_compose; [|exact R|apply distribute_output_requests].
      intros x y z E1 E2. congruence.
    + unfold output_step, payload_step.
      rewrite (distribute_output_nth (fst out) (ov_data (snd out))
                 (ov_shape (snd out)) (item_byte_size ext B (snd out)) qs 0 i q
                 eq_refl Hq).
      rewrite Z.add_0_l, (same_requests_slices _ ps qs R i).
      unfold slice_bytes, slice_start, read_offset, slice_size,
        payload_batch_size.
      now rewrite (same_requests_nth ps qs R i p q Hp Hq).
Qed.

(** What the turns of a payload in the loops of [outs] add up to. *)
Lemma payload_steps_spec (ext : Externals) (B : Z) (ps : list Payload) (i : nat)
    (p : Payload) (rp : InferResponseProvider) (outs : list Output)
    (timer : bool) (stats : option ModelInferStats)
    (request : InferRequestProvider) :
  forall reqs bufs st,
    fold_left (payload_step ext B ps i p) outs
      (mkPayload timer stats request
         (Some (mkResponseProvider (required_outputs rp) (alloc_outcome rp)
                  reqs bufs))
         st)
    = mkPayload timer stats request
        (Some (mkResponseProvider (required_outputs rp) (alloc_outcome rp)
                 (reqs ++ requested ext B p rp outs)
                 (bufs ++ copied ext B ps i p rp outs)))
        (status_after ext B p rp outs st).
Proof.
  induction outs as [|out rest IH]; intros reqs bufs st.
  - cbn. now rewrite !app_nil_r.
  - cbn [fold_left]. unfold payload_step at 2, deliver_output.
    cbn [response_provider_].
    change (RequiresOutput
              (mkResponseProvider (required_outputs rp) (alloc_outcome rp)
                 reqs bufs) (fst out))
      with (RequiresOutput rp (fst out)).
    cbn [alloc_outcome].
    fold (allocation ext B p rp out).
    unfold requested, copied, status_after.
    cbn [flat_map fold_left].
    fold (requested ext B p rp rest). fold (copied ext B ps i p rp rest).
    destruct (RequiresOutput rp (fst out)).
    + destruct (IsOk (allocation ext B p rp out)) eqn:Ok; cbn [andb negb].
      * unfold set_response, fill_buffer, note_request. cbn.
        rewrite IH. now rewrite <- !app_assoc.
      * unfold set_response, set_status, note_request. cbn.
        rewrite IH. now rewrite <- !app_assoc.
    + cbn [andb app]. apply IH.
Qed.

(** [ReadOutputTensors] runs the payload loop for the outputs that come
    before the first one it rejects, for all of them when it succeeds. *)
Lemma read_outputs_steps (ext : Externals) (base : OnnxBackend) (ctx : Context)
    (B : Z) (names : list string) :
  forall idx ps,
    exists outs : list Output,
      map fst outs = firstn (List.length outs) names
      /\ (forall k out,
             nth_error outs k = Some out ->
             nth (idx + k) (output_tensors_ ctx) None = Some (snd out))
      /\ (IsOk (fst (read_outputs ext base ctx B idx names ps)) = true ->
          map fst outs = names)
      /\ snd (read_outputs ext base ctx B idx names ps)
         = fold_left (output_step ext B) outs ps.
Proof.
  assert (Stop : forall (st : Status) (ps : list Payload) (n : string)
                        (rest : list string) (idx : nat),
             IsOk st = false ->
             exists outs : list Output,
               map fst outs = firstn (List.length outs) (n :: rest)
               /\ (forall k out,
                      nth_error outs k = Some out ->
                      nth (idx + k) (output_tensors_ ctx) None = Some (snd out))
               /\ (IsOk (fst (st, ps)) = true -> map fst outs = n :: rest)
               /\ snd (st, ps) = fold_left (output_step ext B) outs ps).
  { intros st ps n rest idx No. exists []. split; [reflexivity|]. split.
    - intros k out Hk. destruct k; discriminate.
    - split; [|reflexivity]. cbn [fst]. rewrite No. discriminate. }
  induction names as [|n rest IH]; intros idx ps.
  - exists []. split; [reflexivity|]. split.
    + intros k out Hk. destruct k; discriminate.
    + now split.
  - cbn [read_outputs].
    destruct (GetOutput base n) as [st|cfg] eqn:G.
    { apply Stop. unfold GetOutput in G. destruct (find _ _); [discriminate|].
      now injection G as <-. }
    destruct (nth idx (output_tensors_ ctx) None) as [tensor|] eqn:T;
      [|now apply Stop].
    destruct (OrtGetTensorMutableData ext tensor);
      [apply Stop, ort_error_not_ok|].
    destruct (OrtGetTypeInfo ext tensor); [apply Stop, ort_error_not_ok|].
    cbv zeta.
    fold (configured_byte_size ext cfg tensor).
    fold (runtime_byte_size ext tensor).
    destruct (negb (configured_byte_size ext cfg tensor
                    =? runtime_byte_size ext tensor)); [now apply Stop|].
    fold (item_byte_size ext B tensor).
    destruct (IH (S idx)
                (distribute_output n (ov_data tensor) (ov_shape tensor)
                   (item_byte_size ext B tensor) 0 ps))
      as (outs & Names & Tensors & Full & Steps).
    exists ((n, tensor) :: outs). split; [|split; [|split]].
    + cbn [map fst List.length firstn]. now rewrite Names.
    + intros [|k] out Hk; cbn [nth_error] in Hk.
      * injection Hk as <-. now rewrite Nat.add_0_r.
      * replace (idx + S k)%nat with (S idx + k)%nat by lia.
        exact (Tensors k out Hk).
    + intros Ok. cbn [map fst]. now rewrite (Full Ok).
    + exact Steps.
Qed.





Lemma output_steps_length (ext : Externals) (B : Z) (outs : list Output) :
  forall qs,
    List.length (fold_left (output_step ext B) outs qs) = List.length qs.
Proof.
  induction outs as [|out rest IH]; intros qs; cbn [fold_left]; [reflexivity|].
  rewrite IH. apply distribute_output_length.
Qed.

(** What [ReadOutputTensors] leaves of payload [i]. *)
Lemma ReadOutputTensors_payload (ext : Externals) (base : OnnxBackend)
    (ctx : Context) (B : Z) (names : list string) (ps : list Payload) :
  exists outs : list Output,
    map fst outs = firstn (List.length outs) names
    /\ (forall k out,
           nth_error outs k = Some out ->
           nth k (output_tensors_ ctx) None = Some (snd out))
    /\ (IsOk (fst (ReadOutputTensors ext base ctx B names ps)) = true ->
        map fst outs = names)
    /\ List.length (snd (ReadOutputTensors ext base ctx B names ps))
       = List.length ps
    /\ forall i p,
         nth_error ps i = Some p ->
         nth_error (snd (ReadOutputTensors ext base ctx B names ps)) i
         = Some
             match response_provider_ p with
             | None => p
             | Some rp =>
                 mkPayload (queue_timer_ p) (stats_ p) (request_provider_ p)
                   (Some
                      (mkResponseProvider (required_outputs rp)
                         (alloc_outcome rp)
                         (alloc_requests rp ++ requested ext B p rp outs)
                         (output_buffers rp ++ copied ext B ps i p rp outs)))
                   (status_after ext B p rp outs (status_ p))
             end.
Proof.
  unfold ReadOutputTensors.
  destruct (read_outputs_steps ext base ctx B names 0 ps)
    as (outs & Names & Tensors & Full & Steps).
  exists outs. split; [exact Names|]. split; [exact Tensors|].
  split; [exact Full|]. rewrite Steps.
  split; [apply output_steps_length|].
  intros i p Hp.
  rewrite (output_steps_nth ext B ps i p outs ps p); trivial.
  2:{ apply Forall2_refl_on. reflexivity. }
  f_equal.
  destruct p as [timer stats request [rp|] st]; cbn [response_provider_].
  - destruct rp as [required outcome reqs bufs].
    apply (payload_steps_spec ext B ps i
             (mkPayload timer stats request
                (Some (mkResponseProvider required outcome reqs bufs)) st)
             (mkResponseProvider required outcome reqs bufs)).
  - clear. induction outs as [|out rest IH]; [reflexivity|].
    cbn [fold_left]. exact IH.
Qed.



(** ** [Context::Run] *)

Lemma collect_batch_all_ok (ctx : Context) (ps : list Payload) :
  forall total rep,
    all_ok ps = true ->
    collect_batch ctx ps total rep
    = inr (fold_left (fun t p => to_size_t (t + payload_batch_size p)) ps total,
           fold_left (fun _ p => Some (request_provider_ p)) ps rep).
Proof.
  induction ps as [|p rest IH]; intros total rep H; simpl; [reflexivity|].
  simpl in H. apply andb_prop in H as [Hp Hrest].
  rewrite Hp. simpl. now apply IH.
Qed.

Lemma collect_batch_failed (ctx : Context) (ps : list Payload) :
  forall total rep,
    all_ok ps = false ->
    exists m, collect_batch ctx ps total rep = inl (mkStatus INTERNAL m).
Proof.
  induction ps as [|p rest IH]; intros total rep H; simpl in *; [discriminate|].
  destruct (IsOk (status_ p)); simpl in *.
  - now apply IH.
  - eexists. reflexivity.
Qed.

Lemma representative_some (ps : list Payload) :
  ps <> [] -> exists rp, representative ps = Some rp.
Proof.
  unfold representative. generalize (@None InferRequestProvider).
  induction ps as [|p rest IH]; intros o H; [contradiction|].
  destruct rest as [|q rest'].
  - eexists. reflexivity.
  - apply (IH (Some (request_provider_ p))). intros E. discriminate E.
Qed.

Lemma assembles_refl (s : RunState) : assembles s s [].
Proof.
  unfold assembles. rewrite app_nil_r. repeat split; trivial.
  exists []. now rewrite app_nil_r.
Qed.

Lemma assembles_trans (s1 s2 s3 : RunState) (n1 n2 : list string) :
  assembles s1 s2 n1 -> assembles s2 s3 n2 -> assembles s1 s3 (n1 ++ n2).
Proof.
  intros (N1 & (e1 & E1 & Q1) & A1 & B1 & C1 & D1)
         (N2 & (e2 & E2 & Q2) & A2 & B2 & C2 & D2).
  unfold assembles. repeat split; try congruence.
  - rewrite N2, N1. now rewrite app_assoc.
  - exists (e1 ++ e2). rewrite E2, E1, <- app_assoc. split; trivial.
    now rewrite forallb_app, Q1, Q2.
Qed.

Section Run.

Variable ext : Externals.
Variable base : OnnxBackend.

Lemma SetInputTensor_assembles (name : string) (datatype : DataType)
    (dims : DimsList) (B : Z) (s : RunState) :
  assembles s (snd (SetInputTensor ext name datatype dims B s)) [name]
  /\ ((forall sz sh ty, OrtCreateTensorWithDataAsOrtValue ext sz sh ty = None) ->
      IsOk (fst (SetInputTensor ext name datatype dims B s)) = true).
Proof.
  unfold SetInputTensor.
  destruct (copy_payloads _ _ _ _ _ _) as [ps' buffer].
  split.
  - destruct (OrtCreateTensorWithDataAsOrtValue ext _ _ _);
      (unfold assembles; cbn; repeat split; trivial;
       eexists; split; [reflexivity|reflexivity]).
  - intros Never. now rewrite Never.
Qed.

Lemma set_header_inputs_assembles (B : Z) (inputs : list HeaderInput) :
  forall s,
    exists names,
      assembles s (snd (set_header_inputs ext base B inputs s)) names
      /\ (IsOk (fst (set_header_inputs ext base B inputs s)) = true ->
          names = map hi_name inputs)
      /\ ((forall sz sh ty, OrtCreateTensorWithDataAsOrtValue ext sz sh ty = None) ->
          Forall (fun i => exists c, GetInput base (hi_name i) = inr c) inputs ->
          IsOk (fst (set_header_inputs ext base B inputs s)) = true).
Proof.
  induction inputs as [|i rest IH]; intros s; simpl.
  - exists []. split; [apply assembles_refl|]. now split.
  - destruct (GetInput base (hi_name i)) as [st|cfg] eqn:G.
    + exists []. split; [apply assembles_refl|]. split.
      * unfold GetInput in G.
        destruct (find _ _); [discriminate|]. injection G as <-. discriminate.
      * intros _ D. apply Forall_cons_iff in D as [[c Hc] _]. congruence.
    + destruct (SetInputTensor_assembles (hi_name i) (mi_data_type cfg)
                  (hi_dims i) B s) as (A1 & S1).
      unfold and_then.
      destruct (IsOk (fst (SetInputTensor ext (hi_name i) (mi_data_type cfg)
                             (hi_dims i) B s))) eqn:Ok.
      * destruct (IH (snd (SetInputTensor ext (hi_name i) (mi_data_type cfg)
                             (hi_dims i) B s))) as (names & A2 & N2 & S2).
        exists ([hi_name i] ++ names).
        split; [eapply assembles_trans; eassumption|]. split.
        -- intros H. now rewrite (N2 H).
        -- intros Never D. apply Forall_cons_iff in D as [_ D]. now apply S2.
      * exists [hi_name i]. split; [exact A1|]. split.
        -- rewrite Ok. discriminate.
        -- intros Never _. discriminate (S1 Never).
Qed.

Lemma set_override_inputs_assembles (B : Z)
    (overrides : list (string * InputOverride)) :
  forall s,
    exists names,
      assembles s (snd (set_override_inputs ext B overrides s)) names
      /\ (IsOk (fst (set_override_inputs ext B overrides s)) = true ->
          names = map fst overrides)
      /\ ((forall sz sh ty, OrtCreateTensorWithDataAsOrtValue ext sz sh ty = None) ->
          IsOk (fst (set_override_inputs ext B overrides s)) = true).
Proof.
  induction overrides as [|[name o] rest IH]; intros s; simpl.
  - exists []. split; [apply assembles_refl|]. now split.
  - destruct (SetInputTensor_assembles name (datatype_ o) (dims_ o) B s)
      as (A1 & S1).
    unfold and_then.
    destruct (IsOk (fst (SetInputTensor ext name (datatype_ o) (dims_ o) B s)))
      eqn:Ok.
    + destruct (IH (snd (SetInputTensor ext name (datatype_ o) (dims_ o) B s)))
        as (names & A2 & N2 & S2).
      exists ([name] ++ names).
      split; [eapply assembles_trans; eassumption|]. split.
      * intros H. now rewrite (N2 H).
      * exact S2.
    + exists [name]. split; [exact A1|]. split.
      * rewrite Ok. discriminate.
      * intros Never. discriminate (S1 Never).
Qed.

(** The last part of a run asks the runtime once, for all the outputs
    of the model configuration. *)
Lemma run_and_read_effect (B : Z) (s : RunState) :
  rs_events (snd (run_and_read ext base B s))
  = rs_events s
    ++ [EvOrtRun (rs_input_names s) (input_tensors_ (rs_ctx s))
          (map mo_name (cfg_output (Config base)))]
  /\ session_ (rs_ctx (snd (run_and_read ext base B s))) = session_ (rs_ctx s)
  /\ allocator_info_ (rs_ctx (snd (run_and_read ext base B s)))
     = allocator_info_ (rs_ctx s).
Proof.
  unfold run_and_read.
  destruct (OrtRun ext _ _ _ _) as [[e|] produced].
  - now repeat split.
  - destruct (ReadOutputTensors ext base _ _ _ _) as [st ps']. now repeat split.
Qed.

(** The ways a run can go: it stops before assembling anything; or it
    assembles inputs of the representative provider and stops on a
    failure; or it assembles them all and goes on to the runtime. *)
Lemma Context_Run_shape (ctx : Context) (ps : list Payload) :
  let r := Context_Run ext base ctx ps in
  let s0 := mkRunState ctx ps [] [] [] in
  (snd r = s0
   /\ (all_ok ps = false
       \/ total_batch_size ps = 0
       \/ (total_batch_size ps <> 1
           /\ total_batch_size ps > to_size_t (max_batch_size_ ctx))))
  \/ exists rp s1 names,
       all_ok ps = true
       /\ total_batch_size ps <> 0
       /\ (total_batch_size ps = 1
           \/ total_batch_size ps <= to_size_t (max_batch_size_ ctx))
       /\ representative ps = Some rp
       /\ assembles s0 s1 names
       /\ ((IsOk (fst r) = false /\ snd r = s1)
           \/ (names = provider_inputs rp
               /\ r = run_and_read ext base (total_batch_size ps) s1))
       /\ ((forall sz sh ty,
               OrtCreateTensorWithDataAsOrtValue ext sz sh ty = None) ->
           declared base rp ->
           r = run_and_read ext base (total_batch_size ps) s1).
Proof.
  intros r s0. subst r. unfold Context_Run. fold s0.
  destruct (all_ok ps) eqn:Ok.
  2:{ destruct (collect_batch_failed ctx ps 0 None Ok) as [m ->].
      left. split; [reflexivity | now left]. }
  rewrite (collect_batch_all_ok ctx ps 0 None Ok).
  fold (total_batch_size ps). fold (representative ps).
  destruct (total_batch_size ps =? 0) eqn:Z0.
  { left. split; [reflexivity|]. right. left. lia. }
  destruct (negb (total_batch_size ps =? 1)
            && (total_batch_size ps >? to_size_t (max_batch_size_ ctx))) eqn:G.
  { left. split; [reflexivity|]. right. right.
    apply andb_prop in G as [G1 G2].
    apply negb_true_iff in G1. lia. }
  assert (Hne : ps <> []).
  { intros ->. unfold total_batch_size in Z0. simpl in Z0. discriminate. }
  destruct (representative_some ps Hne) as [rp Hrp]. rewrite Hrp.
  right.
  destruct (set_header_inputs_assembles (total_batch_size ps)
              (input (RequestHeader rp)) s0) as (n1 & A1 & N1 & S1).
  set (r1 := set_header_inputs ext base (total_batch_size ps)
               (input (RequestHeader rp)) s0) in *.
  assert (Hguard : total_batch_size ps = 1
                   \/ total_batch_size ps <= to_size_t (max_batch_size_ ctx)).
  { apply andb_false_iff in G as [G|G].
    - apply negb_false_iff in G. lia.
    - lia. }
  unfold and_then.
  destruct (IsOk (fst r1)) eqn:Ok1.
  2:{ exists rp, (snd r1), n1.
      split; [reflexivity|]. split; [lia|]. split; [exact Hguard|].
      split; [reflexivity|]. split; [exact A1|]. split.
      - left. split; [exact Ok1 | reflexivity].
      - intros Never D. discriminate (S1 Never D). }
  specialize (N1 eq_refl). subst n1.
  assert (Hov : exists n2,
             assembles (snd r1)
               (snd (match GetInputOverride rp with
                     | None => (Success, snd r1)
                     | Some overrides =>
                         set_override_inputs ext (total_batch_size ps)
                           overrides (snd r1)
                     end)) n2
             /\ (IsOk (fst (match GetInputOverride rp with
                            | None => (Success, snd r1)
                            | Some overrides =>
                                set_override_inputs ext (total_batch_size ps)
                                  overrides (snd r1)
                            end)) = true ->
                 n2 = match GetInputOverride rp with
                      | Some overrides => map fst overrides
                      | None => []
                      end)
             /\ ((forall sz sh ty,
                     OrtCreateTensorWithDataAsOrtValue ext sz sh ty = None) ->
                 IsOk (fst (match GetInputOverride rp with
                            | None => (Success, snd r1)
                            | Some overrides =>
                                set_override_inputs ext (total_batch_size ps)
                                  overrides (snd r1)
                            end)) = true)).
  { destruct (GetInputOverride rp) as [ov|].
    - apply set_override_inputs_assembles.
    - exists []. split; [apply assembles_refl|]. now split. }
  destruct Hov as (n2 & A2 & N2 & S2).
  set (r2 := match GetInputOverride rp with
             | None => (Success, snd r1)
             | Some overrides =>
                 set_override_inputs ext (total_batch_size ps) overrides (snd r1)
             end) in *.
  exists rp, (snd r2), (map hi_name (input (RequestHeader rp)) ++ n2).
  split; [reflexivity|]. split; [lia|]. split; [exact Hguard|].
  split; [reflexivity|].
  split; [eapply assembles_trans; eassumption|].
  destruct (IsOk (fst r2)) eqn:Ok2.
  - split.
    + right. rewrite (N2 eq_refl). now split.
    + reflexivity.
  - split.
    + left. split; [exact Ok2 | reflexivity].
    + intros Never _. discriminate (S2 Never).
Qed.

End Run.

(** ** Events of a run *)

Lemma creates_no_run (evs : list Event) :
  forallb is_create evs = true -> filter is_run evs = [].
Proof.
  induction evs as [|e evs IH]; simpl; [reflexivity|].
  intros H. apply andb_prop in H as [He Hevs].
  destruct e; try discriminate. simpl. now apply IH.
Qed.

Lemma creates_no_complete (evs : list Event) :
  forallb is_create evs = true -> filter is_complete evs = [].
Proof.
  induction evs as [|e evs IH]; simpl; [reflexivity|].
  intros H. apply andb_prop in H as [He Hevs].
  destruct e; try discriminate. simpl. now apply IH.
Qed.

Lemma creates_not_run (evs : list Event) (e : Event) :
  forallb is_create evs = true -> In e evs -> is_run e = false.
Proof.
  intros H Hin. rewrite forallb_forall in H. specialize (H e Hin).
  now destruct e.
Qed.

Lemma release_all_handles (tensors : list (option OrtValue)) :
  release_all tensors = map EvReleaseValue (handles tensors).
Proof.
  induction tensors as [|[v|] rest IH]; simpl; [reflexivity| |exact IH].
  now rewrite IH.
Qed.

Lemma releases_no_complete (vs : list OrtValue) :
  filter is_complete (map EvReleaseValue vs) = [].
Proof. induction vs; simpl; trivial. Qed.

(** A run emits tensor creations and then at most one call of the
    runtime, and leaves the session and the allocator alone. *)
Lemma Context_Run_events (ext : Externals) (base : OnnxBackend)
    (ctx : Context) (ps : list Payload) :
  let r := Context_Run ext base ctx ps in
  session_ (rs_ctx (snd r)) = session_ ctx
  /\ allocator_info_ (rs_ctx (snd r)) = allocator_info_ ctx
  /\ exists evs,
       forallb is_create evs = true
       /\ (rs_events (snd r) = evs
           \/ exists rp tensors,
                representative ps = Some rp
                /\ rs_events (snd r)
                   = evs ++ [EvOrtRun (provider_inputs rp) tensors
                               (map mo_name (cfg_output (Config base)))]).
Proof.
  intros r.
  destruct (Context_Run_shape ext base ctx ps)
    as [(E & _) | (rp & s1 & names & _ & _ & _ & Hrp & A & Cases & _)];
    fold r in E || fold r in Cases.
  - rewrite E. cbn. repeat split. exists []. split; [reflexivity | now left].
  - destruct A as (N & (evs & Ev & Q) & S1 & S2 & _ & _). cbn in N, Ev, S1, S2.
    destruct Cases as [(_ & ->) | (-> & R)].
    + repeat split; trivial. exists evs. split; [exact Q | now left].
    + destruct (run_and_read_effect ext base (total_batch_size ps) s1)
        as (E1 & E2 & E3).
      rewrite R, E1, E2, E3, N, Ev.
      repeat split; trivial. exists evs. split; [exact Q|].
      right. exists rp, (input_tensors_ (rs_ctx s1)). now split.
Qed.

(** ** Claims on [Context::Run] *)

Lemma all_ok_false (ps : list Payload) :
  Exists (fun p => IsOk (status_ p) = false) ps -> all_ok ps = false.
Proof.
  unfold all_ok.
  induction 1 as [p rest H | p rest _ IH]; cbn [forallb].
  - now rewrite H.
  - rewrite IH. apply andb_false_r.
Qed.

(** C3.  A total batch size that is not 1 and exceeds the maximum batch
    size of the context makes [Context::Run] return an internal error
    with nothing done: no tensor is created, the runtime is not called,
    the payloads and the context are as they were. *)
Theorem C3_batch_size_violation
    (ext : Externals) (base : OnnxBackend) (ctx : Context) (ps : list Payload) :
  0 <= max_batch_size_ ctx ->
  total_batch_size ps <> 1 ->
  total_batch_size ps > max_batch_size_ ctx ->
  IsOk (fst (Context_Run ext base ctx ps)) = false
  /\ code (fst (Context_Run ext base ctx ps)) = INTERNAL
  /\ ort_runs (rs_events (snd (Context_Run ext base ctx ps))) = 0%nat
  /\ snd (Context_Run ext base ctx ps) = mkRunState ctx ps [] [] [].
Proof.
  intros Hmax H1 Hgt. unfold Context_Run.
  destruct (all_ok ps) eqn:Ok.
  - rewrite (collect_batch_all_ok ctx ps 0 None Ok).
    fold (total_batch_size ps).
    assert (Hr := to_size_t_range (max_batch_size_ ctx)).
    assert (Ht : 0 <= total_batch_size ps < 2 ^ 64).
    { unfold total_batch_size. destruct ps as [|p rest] using rev_ind.
      - simpl. lia.
      - rewrite fold_left_app. simpl. apply to_size_t_range. }
    rewrite (to_size_t_small (max_batch_size_ ctx)) by lia.
    destruct (total_batch_size ps =? 0) eqn:Z0; [lia|].
    destruct (total_batch_size ps =? 1) eqn:Z1; [lia|].
    destruct (total_batch_size ps >? max_batch_size_ ctx) eqn:G; [|lia].
    cbn [negb andb fst snd code IsOk code_eqb]. now repeat split.
  - destruct (collect_batch_failed ctx ps 0 None Ok) as [m ->].
    now repeat split.
Qed.

(** C4, as the code has it.  When every payload is OK and the total
    batch size is zero, [Context::Run] returns success with nothing
    done: the runtime is not called, the payloads and the context are
    as they were. *)
Theorem C4_zero_batch_succeeds
    (ext : Externals) (base : OnnxBackend) (ctx : Context) (ps : list Payload) :
  all_ok ps = true ->
  total_batch_size ps = 0 ->
  fst (Context_Run ext base ctx ps) = Success
  /\ ort_runs (rs_events (snd (Context_Run ext base ctx ps))) = 0%nat
  /\ snd (Context_Run ext base ctx ps) = mkRunState ctx ps [] [] [].
Proof.
  intros Ok Z0. unfold Context_Run.
  rewrite (collect_batch_all_ok ctx ps 0 None Ok).
  fold (total_batch_size ps). rewrite Z0. now repeat split.
Qed.

(** C5.  A payload that is not OK when it reaches [Context::Run] makes
    the run return an internal error, with nothing done. *)
Theorem C5_failed_payload_fails_run
    (ext : Externals) (base : OnnxBackend) (ctx : Context) (ps : list Payload) :
  Exists (fun p => IsOk (status_ p) = false) ps ->
  IsOk (fst (Context_Run ext base ctx ps)) = false
  /\ code (fst (Context_Run ext base ctx ps)) = INTERNAL
  /\ ort_runs (rs_events (snd (Context_Run ext base ctx ps))) = 0%nat
  /\ snd (Context_Run ext base ctx ps) = mkRunState ctx ps [] [] [].
Proof.
  intros H. apply all_ok_false in H. unfold Context_Run.
  destruct (collect_batch_failed ctx ps 0 None H) as [m ->].
  now repeat split.
Qed.


(** C10, as the code has it.  The inputs given to the runtime are those
    of the representative request provider, the one of the last payload:
    the inputs of its request header followed by its own overrides. *)
Theorem C10_inputs_of_representative
    (ext : Externals) (base : OnnxBackend) (ctx : Context) (ps : list Payload)
    (names : list string) (tensors : list (option OrtValue))
    (outs : list string) :
  In (EvOrtRun names tensors outs)
     (rs_events (snd (Context_Run ext base ctx ps))) ->
  exists rp, representative ps = Some rp /\ names = provider_inputs rp.
Proof.
  intros Hin.
  destruct (Context_Run_events ext base ctx ps)
    as (_ & _ & evs & Q & [E | (rp & ts & Hrp & E)]); rewrite E in Hin.
  - discriminate (creates_not_run evs _ Q Hin).
  - apply in_app_or in Hin as [Hin | [Hin | []]].
    + discriminate (creates_not_run evs _ Q Hin).
    + exists rp. split; [exact Hrp|]. now injection Hin as <- _ _.
Qed.

(** ** Claims on [OnnxBackend::Run] *)

Lemma replace_nth_length {A : Type} (l : list A) :
  forall n x, List.length (replace_nth n l x) = List.length l.
Proof.
  induction l as [|y l IH]; intros [|n] x; simpl; trivial. now rewrite IH.
Qed.

Lemma nth_error_replace_nth {A : Type} (l : list A) :
  forall n k x y,
    nth_error l k = Some y ->
    nth_error (replace_nth n l x) k = Some (if Nat.eqb k n then x else y).
Proof.
  induction l as [|z l IH]; intros n k x y H.
  - destruct k; discriminate.
  - destruct n as [|n], k as [|k]; simpl in *; trivial.
    now apply IH.
Qed.

Lemma Context_Run_no_completion (ext : Externals) (base : OnnxBackend)
    (ctx : Context) (ps : list Payload) :
  completions (rs_events (snd (Context_Run ext base ctx ps))) = 0%nat.
Proof.
  destruct (Context_Run_events ext base ctx ps)
    as (_ & _ & evs & Q & [E | (rp & ts & _ & E)]);
    rewrite E; unfold completions.
  - now rewrite (creates_no_complete evs Q).
  - now rewrite filter_app, (creates_no_complete evs Q).
Qed.

(** C9.  Whatever the outcome of the dispatch, the completion callback
    is called exactly once and it is the last thing that happens; the
    session and the allocator of every context are as they were, and the
    contexts of the other runners are untouched.  For a valid runner,
    what happens is: the events of the context run, then the release of
    every handle the input and output lists hold when the run returns,
    then the callback with the status of the run; and the two lists are
    empty afterwards. *)
Theorem C9_release_then_complete
    (ext : Externals) (this : OnnxBackend) (runner_idx : Z) (ps : list Payload) :
  0 <= runner_idx ->
  (exists pre st,
      snd (OnnxBackend_Run ext this runner_idx ps) = pre ++ [EvComplete st]
      /\ completions pre = 0%nat)
  /\ (forall k ctx,
         nth_error (contexts_ this) k = Some ctx ->
         exists ctx',
           nth_error (contexts_ (fst (fst (OnnxBackend_Run ext this runner_idx ps)))) k
           = Some ctx'
           /\ session_ ctx' = session_ ctx
           /\ allocator_info_ ctx' = allocator_info_ ctx
           /\ (k <> Z.to_nat runner_idx -> ctx' = ctx))
  /\ (forall ctx,
         nth_error (contexts_ this) (Z.to_nat runner_idx) = Some ctx ->
         exists ctx',
           nth_error (contexts_ (fst (fst (OnnxBackend_Run ext this runner_idx ps))))
                     (Z.to_nat runner_idx) = Some ctx'
           /\ input_tensors_ ctx' = []
           /\ output_tensors_ ctx' = []
           /\ snd (OnnxBackend_Run ext this runner_idx ps)
              = rs_events
                  (snd (Context_Run ext this ctx
                          (map (start_timers (gpu_device_ ctx)) ps)))
                ++ map EvReleaseValue
                     (handles
                        (input_tensors_
                           (rs_ctx
                              (snd (Context_Run ext this ctx
                                      (map (start_timers (gpu_device_ ctx)) ps)))))
                      ++ handles
                           (output_tensors_
                              (rs_ctx
                                 (snd (Context_Run ext this ctx
                                         (map (start_timers (gpu_device_ ctx)) ps))))))
                ++ [EvComplete
                      (fst (Context_Run ext this ctx
                              (map (start_timers (gpu_device_ ctx)) ps)))]).
Proof.
  intros Hidx. unfold OnnxBackend_Run.
  destruct (runner_idx >=? Z.of_nat (List.length (contexts_ this))) eqn:Range.
  { cbn [fst snd]. split; [|split].
    - exists [], (bad_runner this runner_idx). now split.
    - intros k ctx Hk. exists ctx. now repeat split.
    - intros ctx Hctx.
      assert (nth_error (contexts_ this) (Z.to_nat runner_idx) = None)
        by (apply nth_error_None; lia).
      congruence. }
  destruct (nth_error (contexts_ this) (Z.to_nat runner_idx)) as [ctx0|] eqn:Nth.
  2:{ apply nth_error_None in Nth. lia. }
  destruct (Context_Run_events ext this ctx0
              (map (start_timers (gpu_device_ ctx0)) ps)) as (S1 & S2 & _).
  assert (NC := Context_Run_no_completion ext this ctx0
                  (map (start_timers (gpu_device_ ctx0)) ps)).
  destruct (Context_Run ext this ctx0 (map (start_timers (gpu_device_ ctx0)) ps))
    as [status s] eqn:Run.
  cbn [fst snd] in *. unfold ReleaseOrtRunResources. cbn [fst snd contexts_].
  rewrite !release_all_handles, <- map_app.
  split; [|split].
  - exists (rs_events s
            ++ map EvReleaseValue
                 (handles (input_tensors_ (rs_ctx s))
                  ++ handles (output_tensors_ (rs_ctx s)))), status.
    split; [now rewrite app_assoc|].
    unfold completions in *.
    rewrite filter_app, releases_no_complete, app_nil_r. exact NC.
  - intros k ctx Hk.
    rewrite (nth_error_replace_nth (contexts_ this) (Z.to_nat runner_idx) k
               (set_tensors (rs_ctx s) [] []) ctx Hk).
    eexists. split; [reflexivity|].
    destruct (Nat.eqb k (Z.to_nat runner_idx)) eqn:K.
    + apply Nat.eqb_eq in K. subst k.
      assert (ctx = ctx0) by congruence. subst ctx.
      cbn. repeat split; trivial. intros Hne. contradiction.
    + now repeat split.
  - intros ctx Hctx. assert (ctx = ctx0) by congruence. subst ctx.
    rewrite Run. cbn [fst snd].
    rewrite (nth_error_replace_nth (contexts_ this) (Z.to_nat runner_idx)
               (Z.to_nat runner_idx) (set_tensors (rs_ctx s) [] []) ctx0 Nth).
    rewrite Nat.eqb_refl.
    eexists. split; [reflexivity|]. now repeat split.
Qed.

(** ** Claims on [ReadOutputTensors] *)

Lemma read_outputs_ok (ext : Externals) (base : OnnxBackend) (ctx : Context)
    (B : Z) (names : list string) :
  forall idx ps,
    IsOk (fst (read_outputs ext base ctx B idx names ps)) = true ->
    forall k name,
      nth_error names k = Some name ->
      exists output_config tensor,
        GetOutput base name = inr output_config
        /\ nth (idx + k) (output_tensors_ ctx) None = Some tensor
        /\ configured_byte_size ext output_config tensor
           = runtime_byte_size ext tensor.
Proof.
  induction names as [|n rest IH]; intros idx ps Ok k name Hk.
  - destruct k; discriminate.
  - cbn [read_outputs] in Ok.
    destruct (GetOutput base n) as [st|cfg] eqn:G.
    { unfold GetOutput in G. destruct (find _ _); [discriminate|].
      injection G as <-. discriminate. }
    destruct (nth idx (output_tensors_ ctx) None) as [tensor|] eqn:T;
      [|discriminate].
    destruct (OrtGetTensorMutableData ext tensor); [discriminate|].
    destruct (OrtGetTypeInfo ext tensor); [discriminate|].
    cbv zeta in Ok.
    fold (configured_byte_size ext cfg tensor) in Ok.
    fold (runtime_byte_size ext tensor) in Ok.
    destruct (configured_byte_size ext cfg tensor =? runtime_byte_size ext tensor)
      eqn:Eq; [|discriminate].
    cbn [negb] in Ok.
    destruct k as [|k]; cbn [nth_error] in Hk.
    + injection Hk as <-. exists cfg, tensor.
      rewrite Nat.add_0_r. repeat split; trivial. lia.
    + destruct (IH _ _ Ok k name Hk) as (c & t & H1 & H2 & H3).
      exists c, t. repeat split; trivial.
      now replace (idx + S k)%nat with (S idx + k)%nat by lia.
Qed.

(** The configured shape of an output plays no part in [GetOutput] but
    to come back in the descriptor. *)
Lemma GetOutput_set_output_dims (dims_of : ModelOutput -> DimsList)
    (base : OnnxBackend) (name : string) :
  GetOutput (set_output_dims dims_of base) name
  = match GetOutput base name with
    | inl st => inl st
    | inr o => inr (mkModelOutput (mo_name o) (mo_data_type o) (dims_of o))
    end.
Proof.
  unfold GetOutput, set_output_dims. cbn [Config cfg_output Name].
  induction (cfg_output (Config base)) as [|o rest IH]; cbn [map find];
    [reflexivity|].
  cbn [mo_name]. destruct (String.eqb (mo_name o) name); [reflexivity|exact IH].
Qed.

Lemma read_outputs_set_output_dims (ext : Externals)
    (dims_of : ModelOutput -> DimsList) (base : OnnxBackend) (ctx : Context)
    (B : Z) (names : list string) :
  forall idx ps,
    read_outputs ext (set_output_dims dims_of base) ctx B idx names ps
    = read_outputs ext base ctx B idx names ps.
Proof.
  induction names as [|n rest IH]; intros idx ps; cbn [read_outputs];
    [reflexivity|].
  rewrite GetOutput_set_output_dims.
  destruct (GetOutput base n) as [st|cfg]; [reflexivity|].
  destruct (nth idx (output_tensors_ ctx) None) as [tensor|]; [|reflexivity].
  destruct (OrtGetTensorMutableData ext tensor); [reflexivity|].
  destruct (OrtGetTypeInfo ext tensor); [reflexivity|].
  cbv zeta. cbn [mo_data_type].
  match goal with
  | |- (if ?c then _ else _) = _ => destruct c
  end; [reflexivity|].
  apply IH.
Qed.

(** C7, as the code has it.  For every output, [ReadOutputTensors]
    compares the byte size of the tensor the runtime returned, taken
    from the tensor's own shape and element type, with the byte size of
    that same shape in the configured datatype.  An output for which the
    two differ makes it return an error status.  When it returns
    success, every output name has its tensor and the two sizes agree
    for each of them, and every buffer requested for an output has the
    size [batch_size] times the per-item byte size, which is the byte
    size of the tensor divided by the total batch size [B].  The
    configured shape of the outputs is not consulted: replacing it by
    any other changes neither the status nor the payloads. *)
Theorem C7_output_size_check
    (ext : Externals) (base : OnnxBackend) (ctx : Context) (B : Z)
    (names : list string) (ps : list Payload) :
  0 < B ->
  (forall k name output_config tensor,
      nth_error names k = Some name ->
      GetOutput base name = inr output_config ->
      nth k (output_tensors_ ctx) None = Some tensor ->
      configured_byte_size ext output_config tensor
      <> runtime_byte_size ext tensor ->
      IsOk (fst (ReadOutputTensors ext base ctx B names ps)) = false)
  /\ (IsOk (fst (ReadOutputTensors ext base ctx B names ps)) = true ->
      exists outs : list Output,
        map fst outs = names
        /\ (forall k out,
               nth_error outs k = Some out ->
               nth k (output_tensors_ ctx) None = Some (snd out)
               /\ exists output_config,
                    GetOutput base (fst out) = inr output_config
                    /\ configured_byte_size ext output_config (snd out)
                       = runtime_byte_size ext (snd out))
        /\ forall i p rp,
             nth_error ps i = Some p ->
             response_provider_ p = Some rp ->
             exists p' rp',
               nth_error (snd (ReadOutputTensors ext base ctx B names ps)) i
               = Some p'
               /\ response_provider_ p' = Some rp'
               /\ alloc_requests rp'
                  = alloc_requests rp
                    ++ flat_map
                         (fun out =>
                            if RequiresOutput rp (fst out) then
                              [(fst out,
                                to_size_t
                                  (payload_batch_size p
                                   * (runtime_byte_size ext (snd out) / B)))]
                            else [])
                         outs)
  /\ (forall dims_of,
         ReadOutputTensors ext (set_output_dims dims_of base) ctx B names ps
         = ReadOutputTensors ext base ctx B names ps).
Proof.
  intros _. split; [|split].
  - intros k name output_config tensor Hk G T Ne.
    destruct (IsOk (fst (ReadOutputTensors ext base ctx B names ps))) eqn:Ok;
      [|reflexivity].
    destruct (read_outputs_ok ext base ctx B names 0 ps Ok k name Hk)
      as (c & t & G' & T' & Eq).
    cbn [Nat.add] in T'. congruence.
  - intros Ok.
    destruct (ReadOutputTensors_payload ext base ctx B names ps)
      as (outs & _ & Tensors & Full & _ & Each).
    specialize (Full Ok).
    exists outs. split; [exact Full|]. split.
    + intros k out Hk. split; [exact (Tensors k out Hk)|].
      assert (Hname : nth_error names k = Some (fst out)).
      { rewrite <- Full. now apply map_nth_error. }
      destruct (read_outputs_ok ext base ctx B names 0 ps Ok k (fst out) Hname)
        as (c & t & G & T & Eq).
      cbn [Nat.add] in T. rewrite (Tensors k out Hk) in T.
      injection T as <-. now exists c.
    + intros i p rp Hp Rp. specialize (Each i p Hp). rewrite Rp in Each.
      eexists. eexists. split; [exact Each|]. split; reflexivity.
  - intros dims_of. apply read_outputs_set_output_dims.
Qed.

(** C7 as stated fails.  The configuration declares three 4-byte
    elements per item for "OUT" and two payloads of batch size 1 are
    dispatched, so the combined output should take 24 bytes; the model
    returns 40 bytes (shape 2x5).  The run succeeds and hands 20 bytes
    to each payload. *)
Lemma C7_wide_output_accepted :
  fst (Context_Run wide_ext sample_backend sample_ctx [payload_b; payload_b])
  = Success
  /\ map (fun p =>
            match response_provider_ p with
            | Some rp =>
                map (fun o => (fst o, Z.of_nat (List.length (snd o))))
                    (output_buffers rp)
            | None => []
            end)
         (rs_payloads
            (snd (Context_Run wide_ext sample_backend sample_ctx
                    [payload_b; payload_b])))
     = [[("OUT", 20)]; [("OUT", 20)]]
  /\ total_batch_size [payload_b; payload_b]
     * per_item_bytes wide_ext TYPE_FP32 [3] = 24.
Proof. vm_compute. repeat split. Qed.

(** ** The claims at concrete dispatches *)

(** Three payloads of batch sizes 2, 1 and 4: one buffer of 84 bytes,
    with the 12 bytes of the second payload at offset 24. *)
Lemma C1_scenario :
  exists buffer,
    rs_input_buffers
      (snd (SetInputTensor sample_ext "IN" TYPE_FP32 [3] 7 scenario))
    = [buffer]
    /\ Z.of_nat (List.length buffer) = 84
    /\ slice buffer 24 12 = map Some (repeat x03 12).
Proof.
  destruct (C1_SetInputTensor_concatenates sample_ext "IN" TYPE_FP32 [3]
              scenario 7) as (buffer & H1 & _ & H3 & H4 & _).
  - reflexivity.
  - lia.
  - vm_compute. discriminate.
  - reflexivity.
  - repeat constructor; vm_compute; discriminate.
  - repeat constructor.
  - exists buffer. split; [exact H1|]. split; [exact H3|].
    exact (proj1 (H4 1%nat payload_b (repeat x03 12)
                    eq_refl eq_refl eq_refl eq_refl)).
Defined.


(** Three payloads of batch size 4 against a maximum of 8. *)
Lemma C3_scenario :
  code (fst (Context_Run sample_ext sample_backend sample_ctx
               [payload_c; payload_c; payload_c])) = INTERNAL.
Proof.
  apply (C3_batch_size_violation sample_ext sample_backend sample_ctx
           [payload_c; payload_c; payload_c]).
  - vm_compute. discriminate.
  - vm_compute. discriminate.
  - reflexivity.
Defined.

(** One OK payload of batch size 0. *)
Lemma C4_scenario :
  fst (Context_Run sample_ext sample_backend sample_ctx [payload_empty])
  = Success.
Proof.
  apply (C4_zero_batch_succeeds sample_ext sample_backend sample_ctx
           [payload_empty]); reflexivity.
Defined.

(** C4 as stated fails: the only payload is pre-failed, so the OK
    payloads add up to a total batch size of zero, and the run is an
    error, not a success. *)
Lemma C4_prefailed_run_is_error :
  ok_batch_total [payload_failed] = 0
  /\ all_ok [payload_failed] = false
  /\ IsOk (fst (Context_Run sample_ext sample_backend sample_ctx
                  [payload_failed])) = false.
Proof. repeat split. Qed.

(** An OK payload followed by a failed one. *)
Lemma C5_scenario :
  code (fst (Context_Run sample_ext sample_backend sample_ctx
               [payload_a; payload_failed])) = INTERNAL.
Proof.
  apply (C5_failed_payload_fails_run sample_ext sample_backend sample_ctx
           [payload_a; payload_failed]).
  apply Exists_cons_tl, Exists_cons_hd. reflexivity.
Defined.

(** The second of three payloads delivers 8 bytes instead of 12: it
    fails, the call succeeds, and the 48 bytes of the third payload are
    at offset 36 all the same. *)
Lemma C6_scenario :
  fst (SetInputTensor sample_ext "IN" TYPE_FP32 [3] 7 scenario_short) = Success
  /\ (exists p',
         nth_error
           (rs_payloads
              (snd (SetInputTensor sample_ext "IN" TYPE_FP32 [3] 7 scenario_short)))
           1 = Some p'
         /\ IsOk (status_ p') = false)
  /\ exists buffer,
       rs_input_buffers
         (snd (SetInputTensor sample_ext "IN" TYPE_FP32 [3] 7 scenario_short))
       = [buffer]
       /\ slice buffer 36 48 = map Some (repeat x04 48).
Proof.
  destruct (C6_SetInputTensor_isolates_failure sample_ext "IN" TYPE_FP32 [3]
              scenario_short 7 1 payload_short)
    as (H1 & _ & H3 & buffer & H4 & H5).
  - reflexivity.
  - lia.
  - vm_compute. discriminate.
  - reflexivity.
  - repeat constructor; vm_compute; discriminate.
  - repeat constructor.
  - reflexivity.
  - reflexivity.
  - reflexivity.
  - intros content D. injection D as <-. vm_compute. discriminate.
  - split; [exact H1|]. split; [exact H3|].
    exists buffer. split; [exact H4|].
    destruct (H5 2%nat payload_c eq_refl) as (q' & _ & _ & H6).
    exact (proj2 (H6 (repeat x04 48) eq_refl eq_refl eq_refl)).
Defined.

(** An output of 8-byte elements against a configuration of 4-byte
    elements. *)
Lemma C7_scenario :
  IsOk (fst (ReadOutputTensors sample_ext sample_backend ctx_fp64_output 2
               ["OUT"] [payload_b; payload_b])) = false.
Proof.
  refine (proj1 (C7_output_size_check sample_ext sample_backend
                   ctx_fp64_output 2 ["OUT"] [payload_b; payload_b] _)
            0%nat "OUT" (mkModelOutput "OUT" TYPE_FP32 [3])
            (mkOrtValue (repeat (Some x09) 48) [2; 3] 11) _ _ _ _).
  - lia.
  - reflexivity.
  - reflexivity.
  - reflexivity.
  - vm_compute. discriminate.
Defined.



(** A dispatch of the three payloads to runner 0. *)
Lemma C9_scenario :
  exists pre st,
    snd (OnnxBackend_Run sample_ext sample_backend 0
           [payload_a; payload_b; payload_c]) = pre ++ [EvComplete st]
    /\ completions pre = 0%nat.
Proof.
  apply (C9_release_then_complete sample_ext sample_backend 0
           [payload_a; payload_b; payload_c]).
  lia.
Defined.

(** The run of the three payloads gives the runtime the input "IN" of
    the last payload's header. *)
Lemma C10_scenario :
  exists rp,
    representative [payload_a; payload_b; payload_c] = Some rp
    /\ ["IN"] = provider_inputs rp.
Proof.
  eapply (C10_inputs_of_representative sample_ext sample_backend sample_ctx
            [payload_a; payload_b; payload_c] ["IN"] _ ["OUT"]).
  vm_compute. right. left. reflexivity.
Defined.

(** C10 as stated fails: the first payload supplies the override
    "EXTRA", the run succeeds with one call of the runtime, and "IN" is
    the only input assembled. *)
Lemma C10_override_of_first_payload_ignored :
  (exists o,
      GetInputOverride (request_provider_ payload_override)
      = Some [("EXTRA", o)])
  /\ fst (Context_Run sample_ext sample_backend sample_ctx
            [payload_override; payload_b]) = Success
  /\ rs_input_names
       (snd (Context_Run sample_ext sample_backend sample_ctx
               [payload_override; payload_b])) = ["IN"]
  /\ ort_runs
       (rs_events
          (snd (Context_Run sample_ext sample_backend sample_ctx
                  [payload_override; payload_b]))) = 1%nat.
Proof.
  split; [eexists; reflexivity|]. vm_compute. repeat split.
Qed.

(** * Further properties *)

(** ** What input assembly leaves of the payloads *)

Lemma assembly_keeps_refl (p : Payload) : assembly_keeps p p.
Proof. now repeat split. Qed.

Lemma assembly_keeps_trans (p q r : Payload) :
  assembly_keeps p q -> assembly_keeps q r -> assembly_keeps p r.
Proof.
  intros (A1 & A2 & A3 & A4 & A5) (B1 & B2 & B3 & B4 & B5).
  repeat split; congruence.
Qed.

(** The turn of one payload: a payload that comes in failed is returned
    as it is, and the buffer with it. *)
Lemma copy_payload_keeps (name : string) (total item off : Z)
    (buffer : Buffer) (p : Payload) :
  assembly_keeps p (fst (fst (copy_payload name total item off buffer p)))
  /\ (IsOk (status_ p) = false ->
      copy_payload name total item off buffer p
      = (p, to_size_t (off + to_size_t (payload_batch_size p * item)), buffer)).
Proof.
  unfold copy_payload.
  destruct (IsOk (status_ p)) eqn:Ok.
  - destruct (copy_content _ _ _ _ _ _) as [[[st rs] copied] b].
    split; [|discriminate].
    destruct (IsOk (status_ (set_status (set_pending p name rs) st))
              && negb (copied =? to_size_t (payload_batch_size p * item)));
      cbn; now repeat split.
  - rewrite Ok. cbn [andb fst].
    split; [apply assembly_keeps_refl | reflexivity].
Qed.

Lemma copy_payloads_keeps (name : string) (total item : Z) (ps : list Payload) :
  forall off buffer,
    Forall2 assembly_keeps ps
      (fst (copy_payloads name total item off buffer ps))
    /\ forall i p,
         nth_error ps i = Some p ->
         IsOk (status_ p) = false ->
         nth_error (fst (copy_payloads name total item off buffer ps)) i
         = Some p.
Proof.
  induction ps as [|q rest IH]; intros off buffer.
  - split; [constructor|]. intros [|i] p H; discriminate.
  - cbn [copy_payloads].
    destruct (copy_payload_keeps name total item off buffer q) as (K & Skip).
    destruct (copy_payload name total item off buffer q) as [[q1 off1] b1] eqn:C.
    destruct (IH off1 b1) as (K2 & Skip2).
    destruct (copy_payloads name total item off1 b1 rest) as [rest' b2] eqn:C2.
    cbn [fst] in *. split.
    + constructor; trivial.
    + intros [|i] p H Bad; cbn [nth_error] in *.
      * injection H as ->. specialize (Skip Bad).
        injection Skip as -> _ _. reflexivity.
      * now apply Skip2.
Qed.

Lemma SetInputTensor_payloads (ext : Externals) (name : string)
    (datatype : DataType) (dims : DimsList) (B : Z) (s : RunState) :
  rs_payloads (snd (SetInputTensor ext name datatype dims B s))
  = fst (copy_payloads name
           (to_size_t (B * input_byte_size ext datatype dims))
           (input_byte_size ext datatype dims) 0
           (new_char_array (to_size_t (B * input_byte_size ext datatype dims)))
           (rs_payloads s)).
Proof.
  unfold SetInputTensor.
  destruct (copy_payloads _ _ _ _ _ _) as [ps' buffer].
  now destruct (OrtCreateTensorWithDataAsOrtValue ext _ _ _).
Qed.

(** One call of [SetInputTensor]: what it keeps of the payloads, and the
    handle it leaves when it succeeds. *)
Lemma SetInputTensor_step (ext : Externals) (name : string)
    (datatype : DataType) (dims : DimsList) (B : Z) (s : RunState) :
  Forall2 assembly_keeps (rs_payloads s)
    (rs_payloads (snd (SetInputTensor ext name datatype dims B s)))
  /\ (IsOk (fst (SetInputTensor ext name datatype dims B s)) = true ->
      exists v,
        input_tensors_ (rs_ctx (snd (SetInputTensor ext name datatype dims B s)))
        = input_tensors_ (rs_ctx s) ++ [Some v]).
Proof.
  split.
  - rewrite SetInputTensor_payloads. apply copy_payloads_keeps.
  - unfold SetInputTensor.
    destruct (copy_payloads _ _ _ _ _ _) as [ps' buffer].
    destruct (OrtCreateTensorWithDataAsOrtValue ext _ _ _) as [e|];
      cbn [fst snd rs_ctx].
    + rewrite ort_error_not_ok. discriminate.
    + intros _. eexists. unfold set_back.
      rewrite removelast_last. reflexivity.
Qed.

Section Steps.

Variable ext : Externals.
Variable base : OnnxBackend.
Variable B : Z.

Lemma set_header_inputs_step (inputs : list HeaderInput) :
  forall s,
    Forall2 assembly_keeps (rs_payloads s)
      (rs_payloads (snd (set_header_inputs ext base B inputs s)))
    /\ (IsOk (fst (set_header_inputs ext base B inputs s)) = true ->
        exists ts,
          input_tensors_ (rs_ctx (snd (set_header_inputs ext base B inputs s)))
          = input_tensors_ (rs_ctx s) ++ ts
          /\ List.length ts = List.length inputs
          /\ forallb is_set ts = true).
Proof.
  induction inputs as [|i rest IH]; intros s; cbn [set_header_inputs].
  - split; [apply Forall2_refl_on, assembly_keeps_refl|].
    intros _. exists []. now rewrite app_nil_r.
  - destruct (GetInput base (hi_name i)) as [st|cfg] eqn:G.
    + split; [apply Forall2_refl_on, assembly_keeps_refl|].
      unfold GetInput in G. destruct (find _ _); [discriminate|].
      injection G as <-. discriminate.
    + destruct (SetInputTensor_step ext (hi_name i) (mi_data_type cfg)
                  (hi_dims i) B s) as (K1 & T1).
      unfold and_then.
      destruct (IsOk (fst (SetInputTensor ext (hi_name i) (mi_data_type cfg)
                             (hi_dims i) B s))) eqn:Ok.
      * destruct (IH (snd (SetInputTensor ext (hi_name i) (mi_data_type cfg)
                             (hi_dims i) B s))) as (K2 & T2).
        split.
        -- eapply Forall2_compose; [apply assembly_keeps_trans | exact K1 | exact K2].
        -- intros Ok2. destruct (T1 eq_refl) as (v & Ev).
           destruct (T2 Ok2) as (ts & Ets & Len & Hset).
           exists (Some v :: ts). rewrite Ets, Ev, <- app_assoc.
           cbn. now rewrite Len, Hset.
      * split; [exact K1|]. rewrite Ok. discriminate.
Qed.

Lemma set_override_inputs_step (overrides : list (string * InputOverride)) :
  forall s,
    Forall2 assembly_keeps (rs_payloads s)
      (rs_payloads (snd (set_override_inputs ext B overrides s)))
    /\ (IsOk (fst (set_override_inputs ext B overrides s)) = true ->
        exists ts,
          input_tensors_ (rs_ctx (snd (set_override_inputs ext B overrides s)))
          = input_tensors_ (rs_ctx s) ++ ts
          /\ List.length ts = List.length overrides
          /\ forallb is_set ts = true).
Proof.
  induction overrides as [|[name o] rest IH]; intros s;
    cbn [set_override_inputs].
  - split; [apply Forall2_refl_on, assembly_keeps_refl|].
    intros _. exists []. now rewrite app_nil_r.
  - destruct (SetInputTensor_step ext name (datatype_ o) (dims_ o) B s)
      as (K1 & T1).
    unfold and_then.
    destruct (IsOk (fst (SetInputTensor ext name (datatype_ o) (dims_ o) B s)))
      eqn:Ok.
    + destruct (IH (snd (SetInputTensor ext name (datatype_ o) (dims_ o) B s)))
        as (K2 & T2).
      split.
      * eapply Forall2_compose; [apply assembly_keeps_trans | exact K1 | exact K2].
      * intros Ok2. destruct (T1 eq_refl) as (v & Ev).
        destruct (T2 Ok2) as (ts & Ets & Len & Hset).
        exists (Some v :: ts). rewrite Ets, Ev, <- app_assoc.
        cbn. now rewrite Len, Hset.
    + split; [exact K1|]. rewrite Ok. discriminate.
Qed.

(** Input assembly as a whole. *)
Lemma assemble_inputs_step (rp : InferRequestProvider) (s : RunState) :
  Forall2 assembly_keeps (rs_payloads s)
    (rs_payloads (snd (assemble_inputs ext base B rp s)))
  /\ (exists names,
        assembles s (snd (assemble_inputs ext base B rp s)) names
        /\ (IsOk (fst (assemble_inputs ext base B rp s)) = true ->
            names = provider_inputs rp))
  /\ (IsOk (fst (assemble_inputs ext base B rp s)) = true ->
      exists ts,
        input_tensors_ (rs_ctx (snd (assemble_inputs ext base B rp s)))
        = input_tensors_ (rs_ctx s) ++ ts
        /\ List.length ts = List.length (provider_inputs rp)
        /\ forallb is_set ts = true).
Proof.
  unfold assemble_inputs, and_then, provider_inputs.
  destruct (set_header_inputs_step (input (RequestHeader rp)) s) as (K1 & T1).
  destruct (set_header_inputs_assembles ext base B (input (RequestHeader rp)) s)
    as (n1 & A1 & N1 & _).
  destruct (IsOk (fst (set_header_inputs ext base B (input (RequestHeader rp)) s)))
    eqn:Ok1.
  2:{ split; [exact K1|]. split.
      - exists n1. split; [exact A1|]. rewrite Ok1. discriminate.
      - rewrite Ok1. discriminate. }
  specialize (N1 eq_refl). subst n1. destruct (T1 eq_refl) as (t1 & Et1 & L1 & S1).
  destruct (GetInputOverride rp) as [ov|].
  - destruct (set_override_inputs_step ov
                (snd (set_header_inputs ext base B (input (RequestHeader rp)) s)))
      as (K2 & T2).
    destruct (set_override_inputs_assembles ext B ov
                (snd (set_header_inputs ext base B (input (RequestHeader rp)) s)))
      as (n2 & A2 & N2 & _).
    split; [|split].
    + eapply Forall2_compose; [apply assembly_keeps_trans | exact K1 | exact K2].
    + exists (map hi_name (input (RequestHeader rp)) ++ n2).
      split; [eapply assembles_trans; eassumption|].
      intros Ok2. now rewrite (N2 Ok2).
    + intros Ok2. destruct (T2 Ok2) as (t2 & Et2 & L2 & S2).
      exists (t1 ++ t2). rewrite Et2, Et1, <- app_assoc.
      split; [reflexivity|]. split.
      * rewrite !length_app, !length_map. lia.
      * now rewrite forallb_app, S1, S2.
  - cbn [fst snd]. split; [exact K1|]. split.
    + exists (map hi_name (input (RequestHeader rp)) ++ []).
      split; [|reflexivity]. now rewrite app_nil_r.
    + intros _. exists t1. rewrite app_nil_r, length_map. now repeat split.
Qed.

End Steps.

Lemma and_then_assoc (r : Status * RunState)
    (f g : RunState -> Status * RunState) :
  and_then (and_then r f) g = and_then r (fun s => and_then (f s) g).
Proof.
  unfold and_then. destruct (IsOk (fst r)) eqn:Ok; [reflexivity|].
  now rewrite Ok.
Qed.

(** A run that passes the checks of [Context::Run] is input assembly for
    the representative provider followed by the call of the runtime. *)
Lemma Context_Run_stages (ext : Externals) (base : OnnxBackend)
    (ctx : Context) (ps : list Payload) (rp : InferRequestProvider) :
  all_ok ps = true ->
  total_batch_size ps <> 0 ->
  total_batch_size ps = 1
  \/ total_batch_size ps <= to_size_t (max_batch_size_ ctx) ->
  representative ps = Some rp ->
  Context_Run ext base ctx ps
  = and_then
      (assemble_inputs ext base (total_batch_size ps) rp
         (mkRunState ctx ps [] [] []))
      (run_and_read ext base (total_batch_size ps)).
Proof.
  intros Ok Z0 G Hrp. unfold Context_Run.
  rewrite (collect_batch_all_ok ctx ps 0 None Ok).
  fold (total_batch_size ps). fold (representative ps). rewrite Hrp.
  destruct (total_batch_size ps =? 0) eqn:E0; [lia|].
  destruct (negb (total_batch_size ps =? 1)
            && (total_batch_size ps >? to_size_t (max_batch_size_ ctx))) eqn:E1.
  { apply andb_prop in E1 as [E1 E2]. apply negb_true_iff in E1. lia. }
  unfold assemble_inputs. now rewrite and_then_assoc.
Qed.

(** ** What a run leaves of the payloads *)

Lemma run_keeps_refl (p : Payload) : run_keeps p p.
Proof. now repeat split. Qed.

Lemma run_keeps_trans (p q r : Payload) :
  run_keeps p q -> run_keeps q r -> run_keeps p r.
Proof.
  intros (A1 & A2 & A3 & A4 & A5) (B1 & B2 & B3 & B4 & B5).
  repeat split; congruence.
Qed.

Lemma assembly_keeps_run_keeps (p q : Payload) :
  assembly_keeps p q -> run_keeps p q.
Proof.
  intros (A1 & A2 & A3 & A4 & A5). repeat split; trivial. now rewrite A5.
Qed.

Lemma deliver_output_keeps (name : string) (content : Buffer)
    (shape : list Z) (expected off : Z) (p : Payload) :
  run_keeps p (deliver_output name content shape expected off p)
  /\ request_provider_ (deliver_output name content shape expected off p)
     = request_provider_ p.
Proof.
  unfold deliver_output, run_keeps.
  destruct (response_provider_ p) as [rp|] eqn:Rp; [|rewrite Rp; now repeat split].
  destruct (RequiresOutput rp name); [|rewrite Rp; now repeat split].
  destruct (IsOk (alloc_outcome rp name expected shape));
    cbn; now repeat split.
Qed.

Lemma distribute_output_keeps (name : string) (content : Buffer)
    (shape : list Z) (batch1 : Z) (ps : list Payload) :
  forall off,
    Forall2 run_keeps ps (distribute_output name content shape batch1 off ps).
Proof.
  induction ps as [|p rest IH]; intros off; cbn [distribute_output];
    constructor; [apply deliver_output_keeps | apply IH].
Qed.

Lemma read_outputs_keeps (ext : Externals) (base : OnnxBackend) (ctx : Context)
    (B : Z) (names : list string) :
  forall idx ps,
    Forall2 run_keeps ps (snd (read_outputs ext base ctx B idx names ps)).
Proof.
  induction names as [|n rest IH]; intros idx ps; cbn [read_outputs].
  - apply Forall2_refl_on, run_keeps_refl.
  - destruct (GetOutput base n); [apply Forall2_refl_on, run_keeps_refl|].
    destruct (nth idx (output_tensors_ ctx) None) as [t|];
      [|apply Forall2_refl_on, run_keeps_refl].
    destruct (OrtGetTensorMutableData ext t);
      [apply Forall2_refl_on, run_keeps_refl|].
    destruct (OrtGetTypeInfo ext t); [apply Forall2_refl_on, run_keeps_refl|].
    cbv zeta.
    match goal with
    | |- context [if ?c then _ else _] => destruct c
    end; [apply Forall2_refl_on, run_keeps_refl|].
    eapply Forall2_compose; [apply run_keeps_trans | | apply IH].
    apply distribute_output_keeps.
Qed.

Lemma run_and_read_keeps (ext : Externals) (base : OnnxBackend) (B : Z)
    (s : RunState) :
  Forall2 run_keeps (rs_payloads s)
    (rs_payloads (snd (run_and_read ext base B s))).
Proof.
  unfold run_and_read.
  destruct (OrtRun ext _ _ _ _) as [[e|] produced]; cbn [snd rs_payloads].
  - apply Forall2_refl_on, run_keeps_refl.
  - pose proof (read_outputs_keeps ext base
                  (set_tensors (rs_ctx s) (input_tensors_ (rs_ctx s))
                     (overwrite
                        (output_tensors_ (rs_ctx s)
                         ++ repeat None
                              (List.length (map mo_name (cfg_output (Config base)))))
                        produced))
                  B (map mo_name (cfg_output (Config base))) 0 (rs_payloads s))
      as K.
    unfold ReadOutputTensors.
    destruct (read_outputs ext base _ B 0 _ (rs_payloads s)) as [st ps'].
    exact K.
Qed.

Lemma Context_Run_run_keeps
    (ext : Externals) (base : OnnxBackend) (ctx : Context) (ps : list Payload) :
  Forall2 run_keeps ps (rs_payloads (snd (Context_Run ext base ctx ps))).
Proof.
  destruct (Context_Run_shape ext base ctx ps)
    as [(E & _) | (rp & s1 & names & Ok & Z0 & G & Hrp & _)].
  - rewrite E. apply Forall2_refl_on, run_keeps_refl.
  - rewrite (Context_Run_stages ext base ctx ps rp Ok Z0 G Hrp).
    destruct (assemble_inputs_step ext base (total_batch_size ps) rp
                (mkRunState ctx ps [] [] [])) as (K & _).
    apply (Forall2_weaken _ run_keeps _ _ assembly_keeps_run_keeps) in K.
    cbn [rs_payloads] in K.
    unfold and_then.
    destruct (IsOk (fst (assemble_inputs ext base (total_batch_size ps) rp
                           (mkRunState ctx ps [] [] [])))); [|exact K].
    eapply Forall2_compose; [apply run_keeps_trans | exact K |].
    apply run_and_read_keeps.
Qed.

(** X1.  Whatever a run does, it returns the payloads it was given, in
    their order, each with its timers, its request header (so its batch
    size and inputs), its overrides and the outputs it requires
    unchanged: a run only touches the status, the content still pending
    in the request provider and the buffers of the response provider. *)
Theorem Context_Run_keeps_payloads
    (ext : Externals) (base : OnnxBackend) (ctx : Context) (ps : list Payload) :
  Forall2 run_keeps ps (rs_payloads (snd (Context_Run ext base ctx ps))).
Proof. apply Context_Run_run_keeps. Qed.

(** The events of a run that has reached the runtime. *)
Lemma Context_Run_reached (ext : Externals) (base : OnnxBackend)
    (ctx : Context) (ps : list Payload)
    (names : list string) (tensors : list (option OrtValue)) (outs : list string) :
  In (EvOrtRun names tensors outs)
     (rs_events (snd (Context_Run ext base ctx ps))) ->
  exists rp,
    representative ps = Some rp
    /\ IsOk (fst (assemble_inputs ext base (total_batch_size ps) rp
                    (mkRunState ctx ps [] [] []))) = true
    /\ Context_Run ext base ctx ps
       = run_and_read ext base (total_batch_size ps)
           (snd (assemble_inputs ext base (total_batch_size ps) rp
                   (mkRunState ctx ps [] [] [])))
    /\ names = rs_input_names
                 (snd (assemble_inputs ext base (total_batch_size ps) rp
                         (mkRunState ctx ps [] [] [])))
    /\ tensors = input_tensors_
                   (rs_ctx
                      (snd (assemble_inputs ext base (total_batch_size ps) rp
                              (mkRunState ctx ps [] [] [])))).
Proof.
  intros Hin.
  destruct (Context_Run_shape ext base ctx ps)
    as [(E & _) | (rp & s1 & nm & Ok & Z0 & G & Hrp & _)].
  - rewrite E in Hin. destruct Hin.
  - rewrite (Context_Run_stages ext base ctx ps rp Ok Z0 G Hrp) in *.
    destruct (assemble_inputs_step ext base (total_batch_size ps) rp
                (mkRunState ctx ps [] [] []))
      as (_ & (n & (_ & (evs & Ev & Q) & _) & _) & _).
    cbn [rs_events app] in Ev.
    unfold and_then in *.
    destruct (IsOk (fst (assemble_inputs ext base (total_batch_size ps) rp
                           (mkRunState ctx ps [] [] [])))) eqn:OkA.
    + exists rp. split; [exact Hrp|]. split; [exact OkA|].
      split; [reflexivity|].
      destruct (run_and_read_effect ext base (total_batch_size ps)
                  (snd (assemble_inputs ext base (total_batch_size ps) rp
                          (mkRunState ctx ps [] [] [])))) as (E1 & _).
      rewrite E1, Ev in Hin.
      apply in_app_or in Hin as [Hin | [Hin | []]].
      * discriminate (creates_not_run evs _ Q Hin).
      * injection Hin as <- <- _. now split.
    + rewrite Ev in Hin. discriminate (creates_not_run evs _ Q Hin).
Qed.

(** X2.  When the call of the runtime that the run makes fails, the run
    returns the internal error made from the runtime's status, and no
    output is handed out: every payload still has the response provider
    it came with. *)
Theorem Context_Run_compute_failure
    (ext : Externals) (base : OnnxBackend) (ctx : Context) (ps : list Payload)
    (e : OrtStatus)
    (names : list string) (tensors : list (option OrtValue)) (outs : list string) :
  In (EvOrtRun names tensors outs)
     (rs_events (snd (Context_Run ext base ctx ps))) ->
  fst (OrtRun ext (session_ ctx) names tensors outs) = Some e ->
  fst (Context_Run ext base ctx ps) = ort_error e
  /\ Forall2 assembly_keeps ps (rs_payloads (snd (Context_Run ext base ctx ps))).
Proof.
  intros Hin Fail.
  assert (Houts : outs = map mo_name (cfg_output (Config base))).
  { destruct (Context_Run_events ext base ctx ps)
      as (_ & _ & evs & Q & [E | (rp & ts & _ & E)]);
      rewrite E in Hin.
    - discriminate (creates_not_run evs _ Q Hin).
    - apply in_app_or in Hin as [Hin | [Hin | []]].
      + discriminate (creates_not_run evs _ Q Hin).
      + now injection Hin as _ _ <-. }
  destruct (Context_Run_reached ext base ctx ps names tensors outs Hin)
    as (rp & _ & _ & -> & Hnames & Htensors).
  destruct (assemble_inputs_step ext base (total_batch_size ps) rp
              (mkRunState ctx ps [] [] []))
    as (K & (n & (_ & _ & Session & _) & _) & _).
  cbn [rs_payloads rs_ctx] in K, Session.
  unfold run_and_read.
  rewrite Session, <- Hnames, <- Htensors, <- Houts.
  destruct (OrtRun ext (session_ ctx) names tensors outs) as [o produced].
  cbn [fst] in Fail. subst o. cbn [fst snd rs_payloads]. now split.
Qed.

(** X3.  When the context held no input handle before the run, the
    runtime is given exactly one tensor for each input name, and none of
    them is null. *)
Theorem Context_Run_inputs_complete
    (ext : Externals) (base : OnnxBackend) (ctx : Context) (ps : list Payload)
    (names : list string) (tensors : list (option OrtValue)) (outs : list string) :
  input_tensors_ ctx = [] ->
  In (EvOrtRun names tensors outs)
     (rs_events (snd (Context_Run ext base ctx ps))) ->
  List.length tensors = List.length names
  /\ forallb is_set tensors = true.
Proof.
  intros Empty Hin.
  destruct (Context_Run_reached ext base ctx ps names tensors outs Hin)
    as (rp & _ & OkA & _ & -> & ->).
  destruct (assemble_inputs_step ext base (total_batch_size ps) rp
              (mkRunState ctx ps [] [] []))
    as (_ & (n & (N & _) & Hn) & T).
  destruct (T OkA) as (ts & Ets & Len & Hset).
  cbn [rs_ctx rs_input_names app] in *.
  rewrite Ets, Empty, N, (Hn OkA). cbn [app]. now split.
Qed.

(** ** Further properties of [ReadOutputTensors] *)

(** X4.  An output whose handle in [output_tensors_] is null makes
    [ReadOutputTensors] return an error status. *)
Theorem ReadOutputTensors_missing_tensor
    (ext : Externals) (base : OnnxBackend) (ctx : Context) (B : Z)
    (names : list string) (ps : list Payload) (k : nat) (name : string) :
  nth_error names k = Some name ->
  nth_error (output_tensors_ ctx) k = Some None ->
  IsOk (fst (ReadOutputTensors ext base ctx B names ps)) = false.
Proof.
  intros Hk Missing.
  destruct (IsOk (fst (ReadOutputTensors ext base ctx B names ps))) eqn:Ok;
    [|reflexivity].
  destruct (read_outputs_ok ext base ctx B names 0 ps Ok k name Hk)
    as (c & t & _ & T & _).
  cbn [Nat.add] in T.
  rewrite (nth_error_nth _ _ None Missing) in T. discriminate T.
Qed.

(** X5.  With a single output name, a failure of [ReadOutputTensors]
    leaves every payload exactly as it was. *)
Theorem ReadOutputTensors_single_output_atomic
    (ext : Externals) (base : OnnxBackend) (ctx : Context) (B : Z)
    (name : string) (ps : list Payload) :
  IsOk (fst (ReadOutputTensors ext base ctx B [name] ps)) = false ->
  snd (ReadOutputTensors ext base ctx B [name] ps) = ps.
Proof.
  unfold ReadOutputTensors. cbn [read_outputs].
  destruct (GetOutput base name); [reflexivity|].
  destruct (nth 0 (output_tensors_ ctx) None) as [t|]; [|reflexivity].
  destruct (OrtGetTensorMutableData ext t); [reflexivity|].
  destruct (OrtGetTypeInfo ext t); [reflexivity|].
  cbv zeta.
  match goal with
  | |- context [if ?c then _ else _] => destruct c
  end; [reflexivity|].
  cbn [fst]. discriminate.
Qed.

Lemma deliver_output_reliable (name : string) (content : Buffer)
    (shape : list Z) (expected off : Z) (p : Payload) :
  allocator_reliable p ->
  status_ (deliver_output name content shape expected off p) = status_ p
  /\ allocator_reliable (deliver_output name content shape expected off p).
Proof.
  unfold allocator_reliable, deliver_output.
  destruct (response_provider_ p) as [rp|] eqn:Rp; [|now rewrite Rp].
  intros R.
  destruct (RequiresOutput rp name); [|now rewrite Rp].
  rewrite (R name expected shape). cbn. now split.
Qed.

Lemma distribute_output_reliable (name : string) (content : Buffer)
    (shape : list Z) (batch1 : Z) (ps : list Payload) :
  forall off,
    Forall allocator_reliable ps ->
    map status_ (distribute_output name content shape batch1 off ps)
    = map status_ ps
    /\ Forall allocator_reliable
         (distribute_output name content shape batch1 off ps).
Proof.
  induction ps as [|p rest IH]; intros off R; cbn [distribute_output map].
  - now split.
  - apply Forall_cons_iff in R as [Rp Rrest].
    destruct (deliver_output_reliable name content shape
                (to_size_t (payload_batch_size p * batch1)) off p Rp)
      as (S1 & R1).
    destruct (IH (to_size_t (off + to_size_t (payload_batch_size p * batch1)))
                Rrest) as (S2 & R2).
    split; [now rewrite S1, S2 | now constructor].
Qed.

(** X6.  [ReadOutputTensors] changes the status of a payload only when
    its allocator fails: when no allocator of the batch fails, every
    payload leaves with the status it came with, whether the call
    succeeds or not. *)
Theorem ReadOutputTensors_keeps_statuses
    (ext : Externals) (base : OnnxBackend) (ctx : Context) (B : Z)
    (names : list string) (ps : list Payload) :
  Forall allocator_reliable ps ->
  map status_ (snd (ReadOutputTensors ext base ctx B names ps))
  = map status_ ps.
Proof.
  unfold ReadOutputTensors. generalize 0%nat. revert ps.
  induction names as [|n rest IH]; intros ps idx R; cbn [read_outputs].
  - reflexivity.
  - destruct (GetOutput base n); [reflexivity|].
    destruct (nth idx (output_tensors_ ctx) None) as [t|]; [|reflexivity].
    destruct (OrtGetTensorMutableData ext t); [reflexivity|].
    destruct (OrtGetTypeInfo ext t); [reflexivity|].
    cbv zeta.
    match goal with
    | |- context [if ?c then _ else _] => destruct c
    end; [reflexivity|].
    match goal with
    | |- context [distribute_output ?a ?b ?c ?d ?e ps] =>
        destruct (distribute_output_reliable a b c d ps e R) as (S1 & R1)
    end.
    rewrite IH by exact R1. exact S1.
Qed.

(** ** Further properties of input assembly *)

(** X7.  [SetInputTensor] passes over a payload that has already
    failed: nothing is pulled from its provider and it is returned
    exactly as it came. *)
Theorem SetInputTensor_skips_failed
    (ext : Externals) (name : string) (datatype : DataType) (dims : DimsList)
    (B : Z) (s : RunState) (i : nat) (p : Payload) :
  nth_error (rs_payloads s) i = Some p ->
  IsOk (status_ p) = false ->
  nth_error (rs_payloads (snd (SetInputTensor ext name datatype dims B s))) i
  = Some p.
Proof.
  intros Hi Bad. rewrite SetInputTensor_payloads.
  now apply copy_payloads_keeps.
Qed.



(** ** Further properties of [OnnxBackend::Run] *)

Lemma Forall_replace_nth {A : Type} (P : A -> Prop) (l : list A) :
  forall n x, Forall P l -> P x -> Forall P (replace_nth n l x).
Proof.
  induction l as [|y l IH]; intros [|n] x F Px; cbn; trivial;
    apply Forall_cons_iff in F as [Py F]; constructor; auto.
Qed.

(** X9.  A dispatch keeps the contexts idle: if no context holds a
    tensor handle before [OnnxBackend::Run], none does after it, and the
    number of contexts is the same. *)
Theorem OnnxBackend_Run_keeps_idle
    (ext : Externals) (this : OnnxBackend) (runner_idx : Z) (ps : list Payload) :
  Forall idle (contexts_ this) ->
  Forall idle (contexts_ (fst (fst (OnnxBackend_Run ext this runner_idx ps))))
  /\ List.length (contexts_ (fst (fst (OnnxBackend_Run ext this runner_idx ps))))
     = List.length (contexts_ this).
Proof.
  intros Idle. unfold OnnxBackend_Run.
  destruct (runner_idx >=? Z.of_nat (List.length (contexts_ this)));
    [now split|].
  destruct (nth_error (contexts_ this) (Z.to_nat runner_idx)) as [ctx|];
    [|now split].
  destruct (Context_Run ext this ctx (map (start_timers (gpu_device_ ctx)) ps))
    as [status s].
  cbn [fst snd ReleaseOrtRunResources contexts_]. split.
  - apply Forall_replace_nth; [exact Idle | now split].
  - apply replace_nth_length.
Qed.

(** X10.  The context a dispatch has run on can be destroyed without
    releasing a tensor handle a second time: its destructor releases
    nothing but the session and the allocator. *)
Theorem destructor_after_dispatch
    (ext : Externals) (this : OnnxBackend) (runner_idx : Z) (ps : list Payload)
    (ctx' : Context) :
  0 <= runner_idx < Z.of_nat (List.length (contexts_ this)) ->
  nth_error (contexts_ (fst (fst (OnnxBackend_Run ext this runner_idx ps))))
            (Z.to_nat runner_idx) = Some ctx' ->
  filter is_td_run (Context_destructor ctx') = [].
Proof.
  intros Range Hn. unfold OnnxBackend_Run in Hn.
  destruct (runner_idx >=? Z.of_nat (List.length (contexts_ this))) eqn:R;
    [lia|].
  destruct (nth_error (contexts_ this) (Z.to_nat runner_idx)) as [ctx|] eqn:Nth.
  2:{ apply nth_error_None in Nth. lia. }
  destruct (Context_Run ext this ctx (map (start_timers (gpu_device_ ctx)) ps))
    as [status s].
  cbn [fst snd ReleaseOrtRunResources contexts_] in Hn.
  rewrite (nth_error_replace_nth (contexts_ this) (Z.to_nat runner_idx)
             (Z.to_nat runner_idx) (set_tensors (rs_ctx s) [] []) ctx Nth) in Hn.
  rewrite Nat.eqb_refl in Hn. injection Hn as <-.
  unfold Context_destructor. cbn [ReleaseOrtRunResources snd set_tensors
    input_tensors_ output_tensors_ release_all app map session_ allocator_info_].
  destruct (negb (session_ (rs_ctx s) =? nullptr));
    destruct (negb (allocator_info_ (rs_ctx s) =? nullptr)); reflexivity.
Qed.

(** ** Creating the execution contexts *)

Lemma context_max_batch_size_nonneg (this : OnnxBackend) :
  0 <= context_max_batch_size this.
Proof.
  unfold context_max_batch_size, NO_BATCHING.
  destruct (cfg_max_batch_size (Config this) <=? 0) eqn:E; lia.
Qed.

Lemma extends_backend_refl (this : OnnxBackend) : extends_backend this this [].
Proof. unfold extends_backend. rewrite app_nil_r. now repeat split. Qed.

Lemma extends_backend_trans (a b c : OnnxBackend) (n1 n2 : list Context) :
  extends_backend a b n1 -> extends_backend b c n2 ->
  extends_backend a c (n1 ++ n2).
Proof.
  intros (A1 & A2 & A3 & A4) (B1 & B2 & B3 & B4).
  unfold extends_backend. repeat split; try congruence.
  - rewrite B3, A3. now rewrite app_assoc.
  - apply Forall_app. split; [exact A4|].
    eapply Forall_impl; [|exact B4].
    intros x (F1 & F2 & F3). unfold fresh_context, context_max_batch_size in *.
    rewrite A2 in F1. split; [exact F1 | split; [exact F2 | exact F3]].
Qed.

Lemma to_uint32_idem (z : Z) : to_uint32 (to_uint32 z) = to_uint32 z.
Proof. unfold to_uint32. apply Z.mod_mod. lia. Qed.

Lemma to_uint32_succ (a n : Z) :
  to_uint32 (to_uint32 (a + 1) + n) = to_uint32 (a + (1 + n)).
Proof.
  unfold to_uint32. rewrite Zplus_mod_idemp_l. f_equal. ring.
Qed.

Section LoadingProofs.

Variable lext : LoadExternals.
Variable ext : Externals.
Variable cfg : LoadConfig.
Variable paths : list (string * string).

Lemma CreateExecutionContext_effect
    (this : OnnxBackend) (instance_name : string) (gpu_device : Z) :
  (snd (CreateExecutionContext lext ext cfg paths this instance_name gpu_device)
   = this
   /\ IsOk (fst (CreateExecutionContext lext ext cfg paths this instance_name
                   gpu_device)) = false)
  \/ exists ctx,
       extends_backend this
         (snd (CreateExecutionContext lext ext cfg paths this instance_name
                 gpu_device)) [ctx]
       /\ instance_of ctx = (instance_name, gpu_device).
Proof.
  unfold CreateExecutionContext.
  destruct (select_model_filename lext cfg this gpu_device) as [st|file] eqn:Sel.
  { left. split; [reflexivity|].
    unfold select_model_filename in Sel.
    destruct (gpu_device =? NO_GPU_DEVICE lext); [discriminate|].
    destruct (cudaGetDeviceProperties lext gpu_device) as [err|[major minor]];
      [|discriminate].
    injection Sel as <-. reflexivity. }
  destruct (lookup file paths) as [path|]; [|left; now split].
  right.
  assert (Fresh : forall session info,
             fresh_context this
               (set_allocator_info
                  (set_session
                     (mkContext instance_name gpu_device
                        (context_max_batch_size this) nullptr nullptr [] [])
                     session) info)
             /\ fresh_context this
                  (set_session
                     (mkContext instance_name gpu_device
                        (context_max_batch_size this) nullptr nullptr [] [])
                     session)).
  { intros session info. unfold fresh_context, idle. cbn.
    pose proof (context_max_batch_size_nonneg this). now repeat split. }
  destruct (match
               (if negb (gpu_device =? NO_GPU_DEVICE lext)
                then OrtSessionOptionsAppendExecutionProvider_CUDA lext gpu_device
                else None)
             with
             | Some e => (Some e, session_ _)
             | None => OrtCreateSession lext instance_name path gpu_device
             end) as [onnx_status session].
  destruct onnx_status as [e|].
  { exists (set_session
              (mkContext instance_name gpu_device
                 (context_max_batch_size this) nullptr nullptr [] []) session).
    split; [|reflexivity].
    unfold extends_backend. cbn [snd set_contexts Name Config contexts_].
    repeat split. constructor; [apply (Fresh session nullptr) | constructor]. }
  destruct (negb (IsOk (ValidateInputs lext ext _ _))).
  { exists (set_session
              (mkContext instance_name gpu_device
                 (context_max_batch_size this) nullptr nullptr [] []) session).
    split; [|reflexivity].
    unfold extends_backend. cbn [snd set_contexts Name Config contexts_].
    repeat split. constructor; [apply (Fresh session nullptr) | constructor]. }
  destruct (negb (IsOk (ValidateOutputs lext ext _ _))).
  { exists (set_session
              (mkContext instance_name gpu_device
                 (context_max_batch_size this) nullptr nullptr [] []) session).
    split; [|reflexivity].
    unfold extends_backend. cbn [snd set_contexts Name Config contexts_].
    repeat split. constructor; [apply (Fresh session nullptr) | constructor]. }
  destruct (OrtCreateCpuAllocatorInfo lext instance_name) as [[e|] info];
    (exists (set_allocator_info
               (set_session
                  (mkContext instance_name gpu_device
                     (context_max_batch_size this) nullptr nullptr [] [])
                  session) info);
     split; [|reflexivity];
     unfold extends_backend; cbn [snd set_contexts Name Config contexts_];
     repeat split; constructor; [apply (Fresh session info) | constructor]).
Qed.

(** X11.  [CreateExecutionContext] appends at most one context and
    changes nothing else of the backend.  When it fails before the
    context exists (device query or model file) the backend is
    unchanged; otherwise, and always on success, exactly one context is
    appended, with the instance name and device asked for, the batch
    limit of the configuration ([NO_BATCHING] for a limit of zero or
    less, so never negative) and no tensor handle. *)
Theorem CreateExecutionContext_appends
    (this : OnnxBackend) (instance_name : string) (gpu_device : Z) :
  (snd (CreateExecutionContext lext ext cfg paths this instance_name gpu_device)
   = this
   /\ IsOk (fst (CreateExecutionContext lext ext cfg paths this instance_name
                   gpu_device)) = false)
  \/ exists ctx,
       extends_backend this
         (snd (CreateExecutionContext lext ext cfg paths this instance_name
                 gpu_device)) [ctx]
       /\ instance_of ctx = (instance_name, gpu_device).
Proof. apply CreateExecutionContext_effect. Qed.

(** One successful creation, for the loops. *)
Lemma CreateExecutionContext_grows
    (this : OnnxBackend) (instance_name : string) (gpu_device : Z) :
  exists new,
    extends_backend this
      (snd (CreateExecutionContext lext ext cfg paths this instance_name
              gpu_device)) new
    /\ (IsOk (fst (CreateExecutionContext lext ext cfg paths this instance_name
                     gpu_device)) = true ->
        map instance_of new = [(instance_name, gpu_device)]).
Proof.
  destruct (CreateExecutionContext_effect this instance_name gpu_device)
    as [(E & Bad) | (ctx & X & I)].
  - exists []. rewrite E, Bad. split; [apply extends_backend_refl | discriminate].
  - exists [ctx]. split; [exact X|]. intros _. cbn. now rewrite I.
Qed.

Lemma create_on_gpus_spec (group : ModelInstanceGroup) (c : Z) (gpus : list Z) :
  forall this cnt,
    exists new,
      extends_backend this
        (snd (fst (create_on_gpus lext ext cfg paths group c gpus this cnt))) new
      /\ (IsOk (fst (fst (create_on_gpus lext ext cfg paths group c gpus this cnt)))
          = true ->
          map instance_of new
          = map (fun gpu_device =>
                   ((ig_name group ++ "_" ++ to_string c ++ "_gpu"
                     ++ to_string gpu_device)%string, gpu_device)) gpus
          /\ to_uint32
               (snd (create_on_gpus lext ext cfg paths group c gpus this cnt))
             = to_uint32 (cnt + Z.of_nat (List.length new))).
Proof.
  induction gpus as [|g rest IH]; intros this cnt; cbn [create_on_gpus].
  - exists []. split; [apply extends_backend_refl|]. intros _.
    split; [reflexivity|]. cbn. now rewrite Z.add_0_r.
  - destruct (CreateExecutionContext_grows this
                (ig_name group ++ "_" ++ to_string c ++ "_gpu" ++ to_string g)
                g) as (n1 & X1 & I1).
    destruct (CreateExecutionContext lext ext cfg paths this _ g) as [st this1].
    cbn [fst snd] in *.
    destruct (IsOk st) eqn:Ok; cbn [negb].
    + destruct (IH this1 (to_uint32 (cnt + 1))) as (n2 & X2 & I2).
      exists (n1 ++ n2). split; [eapply extends_backend_trans; eassumption|].
      intros Ok2. destruct (I2 Ok2) as (M2 & C2).
      rewrite map_app, (I1 eq_refl), M2. split; [reflexivity|].
      rewrite C2, to_uint32_succ, length_app.
      assert (L1 : List.length n1 = 1%nat)
        by (rewrite <- (length_map instance_of), (I1 eq_refl); reflexivity).
      f_equal. lia.
    + exists n1. split; [exact X1|]. cbn [fst]. rewrite Ok. discriminate.
Qed.

Lemma create_instances_spec (group : ModelInstanceGroup) (cs : list Z) :
  forall this cnt,
    exists new,
      extends_backend this
        (snd (fst (create_instances lext ext cfg paths group cs this cnt))) new
      /\ (IsOk (fst (fst (create_instances lext ext cfg paths group cs this cnt)))
          = true ->
          map instance_of new
          = flat_map
              (fun c =>
                 if is_KIND_CPU (ig_kind group) then
                   [((ig_name group ++ "_" ++ to_string c ++ "_cpu")%string,
                     NO_GPU_DEVICE lext)]
                 else
                   map (fun gpu_device =>
                          ((ig_name group ++ "_" ++ to_string c ++ "_gpu"
                            ++ to_string gpu_device)%string, gpu_device))
                       (ig_gpus group)) cs
          /\ to_uint32
               (snd (create_instances lext ext cfg paths group cs this cnt))
             = to_uint32 (cnt + Z.of_nat (List.length new))).
Proof.
  induction cs as [|c rest IH]; intros this cnt; cbn [create_instances flat_map].
  - exists []. split; [apply extends_backend_refl|]. intros _.
    split; [reflexivity|]. cbn. now rewrite Z.add_0_r.
  - destruct (is_KIND_CPU (ig_kind group)).
    + destruct (CreateExecutionContext_grows this
                  (ig_name group ++ "_" ++ to_string c ++ "_cpu")
                  (NO_GPU_DEVICE lext)) as (n1 & X1 & I1).
      destruct (CreateExecutionContext lext ext cfg paths this _ _)
        as [st this1].
      cbn [fst snd] in *.
      destruct (IsOk st) eqn:Ok; cbn [negb].
      * destruct (IH this1 (to_uint32 (cnt + 1))) as (n2 & X2 & I2).
        exists (n1 ++ n2). split; [eapply extends_backend_trans; eassumption|].
        intros Ok2. destruct (I2 Ok2) as (M2 & C2).
        rewrite map_app, (I1 eq_refl), M2. split; [reflexivity|].
        rewrite C2, to_uint32_succ, length_app.
        assert (L1 : List.length n1 = 1%nat)
          by (rewrite <- (length_map instance_of), (I1 eq_refl); reflexivity).
        f_equal. lia.
      * exists n1. split; [exact X1|]. cbn [fst]. rewrite Ok. discriminate.
    + destruct (create_on_gpus_spec group c (ig_gpus group) this cnt)
        as (n1 & X1 & I1).
      destruct (create_on_gpus lext ext cfg paths group c (ig_gpus group) this cnt)
        as [[st this1] cnt1].
      cbn [fst snd] in *.
      destruct (IsOk st) eqn:Ok; cbn [negb].
      * destruct (IH this1 cnt1) as (n2 & X2 & I2).
        exists (n1 ++ n2). split; [eapply extends_backend_trans; eassumption|].
        intros Ok2. destruct (I2 Ok2) as (M2 & C2).
        destruct (I1 eq_refl) as (M1 & C1).
        rewrite map_app, M1, M2. split; [reflexivity|].
        rewrite C2, length_app, Nat2Z.inj_add.
        unfold to_uint32 in *.
        rewrite <- Zplus_mod_idemp_l, C1, Zplus_mod_idemp_l. f_equal. ring.
      * exists n1. split; [exact X1|]. cbn [fst]. rewrite Ok. discriminate.
Qed.

Lemma create_groups_spec (groups : list ModelInstanceGroup) :
  forall this cnt,
    exists new,
      extends_backend this
        (snd (fst (create_groups lext ext cfg paths groups this cnt))) new
      /\ (IsOk (fst (fst (create_groups lext ext cfg paths groups this cnt)))
          = true ->
          map instance_of new = planned_instances (NO_GPU_DEVICE lext) groups
          /\ to_uint32 (snd (create_groups lext ext cfg paths groups this cnt))
             = to_uint32 (cnt + Z.of_nat (List.length new))).
Proof.
  induction groups as [|g rest IH]; intros this cnt;
    cbn [create_groups planned_instances flat_map].
  - exists []. split; [apply extends_backend_refl|]. intros _.
    split; [reflexivity|]. cbn. now rewrite Z.add_0_r.
  - destruct (create_instances_spec g (counter_values (ig_count g)) this cnt)
      as (n1 & X1 & I1).
    destruct (create_instances lext ext cfg paths g
                (counter_values (ig_count g)) this cnt) as [[st this1] cnt1].
    cbn [fst snd] in *.
    destruct (IsOk st) eqn:Ok; cbn [negb].
    + destruct (IH this1 cnt1) as (n2 & X2 & I2).
      exists (n1 ++ n2). split; [eapply extends_backend_trans; eassumption|].
      intros Ok2. destruct (I2 Ok2) as (M2 & C2).
      destruct (I1 eq_refl) as (M1 & C1).
      rewrite map_app, M1, M2. split; [reflexivity|].
      rewrite C2, length_app, Nat2Z.inj_add.
      unfold to_uint32 in *.
      rewrite <- Zplus_mod_idemp_l, C1, Zplus_mod_idemp_l. f_equal. ring.
    + exists n1. split; [exact X1|]. cbn [fst]. rewrite Ok. discriminate.
Qed.

End LoadingProofs.

Section LoadingCounts.

Variable lext : LoadExternals.
Variable ext : Externals.
Variable cfg : LoadConfig.
Variable paths : list (string * string).

Lemma create_on_gpus_count (group : ModelInstanceGroup) (c : Z) (gpus : list Z) :
  forall this cnt,
    to_uint32 cnt = cnt ->
    to_uint32 (snd (create_on_gpus lext ext cfg paths group c gpus this cnt))
    = snd (create_on_gpus lext ext cfg paths group c gpus this cnt).
Proof.
  induction gpus as [|g rest IH]; intros this cnt H; cbn [create_on_gpus].
  - exact H.
  - destruct (CreateExecutionContext lext ext cfg paths this _ g) as [st this1].
    destruct (negb (IsOk st)); [exact H|].
    apply IH, to_uint32_idem.
Qed.

Lemma create_instances_count (group : ModelInstanceGroup) (cs : list Z) :
  forall this cnt,
    to_uint32 cnt = cnt ->
    to_uint32 (snd (create_instances lext ext cfg paths group cs this cnt))
    = snd (create_instances lext ext cfg paths group cs this cnt).
Proof.
  induction cs as [|c rest IH]; intros this cnt H; cbn [create_instances].
  - exact H.
  - destruct (is_KIND_CPU (ig_kind group)).
    + destruct (CreateExecutionContext lext ext cfg paths this _ _)
        as [st this1].
      destruct (negb (IsOk st)); [exact H|].
      apply IH, to_uint32_idem.
    + pose proof (create_on_gpus_count group c (ig_gpus group) this cnt H) as C.
      destruct (create_on_gpus lext ext cfg paths group c (ig_gpus group) this cnt)
        as [[st this1] cnt1].
      cbn [snd] in C.
      destruct (negb (IsOk st)); [exact C|]. now apply IH.
Qed.

Lemma create_groups_count (groups : list ModelInstanceGroup) :
  forall this cnt,
    to_uint32 cnt = cnt ->
    to_uint32 (snd (create_groups lext ext cfg paths groups this cnt))
    = snd (create_groups lext ext cfg paths groups this cnt).
Proof.
  induction groups as [|g rest IH]; intros this cnt H; cbn [create_groups].
  - exact H.
  - pose proof (create_instances_count g (counter_values (ig_count g)) this cnt H)
      as C.
    destruct (create_instances lext ext cfg paths g
                (counter_values (ig_count g)) this cnt) as [[st this1] cnt1].
    cbn [snd] in C.
    destruct (negb (IsOk st)); [exact C|]. now apply IH.
Qed.

(** X12.  Whether it succeeds or fails part-way,
    [CreateExecutionContextsHelper] only appends contexts: the name, the
    configuration and the contexts already there are untouched, and
    every context it appends has a batch limit that is not negative and
    holds no tensor handle. *)
Theorem CreateExecutionContextsHelper_only_appends (this : OnnxBackend) :
  exists new,
    extends_backend this
      (snd (fst (CreateExecutionContextsHelper lext ext cfg paths this))) new.
Proof.
  unfold CreateExecutionContextsHelper.
  destruct (create_groups_spec lext ext cfg paths (lc_instance_group cfg) this 0)
    as (new & X & _).
  destruct (create_groups lext ext cfg paths (lc_instance_group cfg) this 0)
    as [[st this'] cnt].
  cbn [fst snd] in X. exists new.
  destruct (negb (IsOk st)); [exact X|].
  destruct (negb (IsOk (SetConfiguredScheduler lext cnt))); exact X.
Qed.

Lemma helper_creates_plan (this : OnnxBackend) :
  IsOk (fst (fst (CreateExecutionContextsHelper lext ext cfg paths this))) = true ->
  exists new,
    contexts_ (snd (fst (CreateExecutionContextsHelper lext ext cfg paths this)))
    = contexts_ this ++ new
    /\ map instance_of new
       = planned_instances (NO_GPU_DEVICE lext) (lc_instance_group cfg)
    /\ snd (CreateExecutionContextsHelper lext ext cfg paths this)
       = Some (to_uint32 (Z.of_nat (List.length new))).
Proof.
  unfold CreateExecutionContextsHelper.
  destruct (create_groups_spec lext ext cfg paths (lc_instance_group cfg) this 0)
    as (new & X & I).
  pose proof (create_groups_count (lc_instance_group cfg) this 0 eq_refl) as C.
  destruct (create_groups lext ext cfg paths (lc_instance_group cfg) this 0)
    as [[st this'] cnt].
  cbn [fst snd] in *.
  destruct (IsOk st) eqn:Ok; cbn [negb fst snd];
    [|intros H; congruence].
  destruct (I eq_refl) as (M & N). rewrite Z.add_0_l in N.
  destruct X as (_ & _ & E & _).
  destruct (negb (IsOk (SetConfiguredScheduler lext cnt))) eqn:Sched;
    cbn [fst snd].
  - intros Ok2. apply negb_true_iff in Sched. congruence.
  - intros _. exists new. repeat split; trivial. congruence.
Qed.

(** X13.  When [CreateExecutionContextsHelper] succeeds, the contexts
    it has appended are the instances the groups ask for, in the order
    of the loops: for each group and each count below [count], one CPU
    instance "<group>_<c>_cpu" on the no-device sentinel, or one
    instance "<group>_<c>_gpu<d>" for each listed device [d]; and the
    scheduler has been configured with their number (as a [uint32]). *)
Theorem CreateExecutionContextsHelper_creates_plan (this : OnnxBackend) :
  IsOk (fst (fst (CreateExecutionContextsHelper lext ext cfg paths this))) = true ->
  exists new,
    contexts_ (snd (fst (CreateExecutionContextsHelper lext ext cfg paths this)))
    = contexts_ this ++ new
    /\ map instance_of new
       = planned_instances (NO_GPU_DEVICE lext) (lc_instance_group cfg)
    /\ snd (CreateExecutionContextsHelper lext ext cfg paths this)
       = Some (to_uint32 (Z.of_nat (List.length new))).
Proof. apply helper_creates_plan. Qed.

(** X14.  After a successful [CreateExecutionContextsHelper] on a
    backend without contexts, every runner index below the number the
    scheduler was configured with has its context: a dispatch to it
    runs the planned instance of that index and completes with the
    status of that run, never with the runner-index error. *)
Theorem created_runners_dispatch
    (this : OnnxBackend) (n runner_idx : Z) (ps : list Payload) :
  contexts_ this = [] ->
  IsOk (fst (fst (CreateExecutionContextsHelper lext ext cfg paths this))) = true ->
  Z.of_nat
    (List.length
       (planned_instances (NO_GPU_DEVICE lext) (lc_instance_group cfg))) < 2 ^ 32 ->
  snd (CreateExecutionContextsHelper lext ext cfg paths this) = Some n ->
  0 <= runner_idx < n ->
  exists ctx pre,
    nth_error
      (contexts_ (snd (fst (CreateExecutionContextsHelper lext ext cfg paths this))))
      (Z.to_nat runner_idx) = Some ctx
    /\ nth_error
         (planned_instances (NO_GPU_DEVICE lext) (lc_instance_group cfg))
         (Z.to_nat runner_idx) = Some (instance_of ctx)
    /\ snd (OnnxBackend_Run ext
              (snd (fst (CreateExecutionContextsHelper lext ext cfg paths this)))
              runner_idx ps)
       = pre
         ++ [EvComplete
               (fst (Context_Run ext
                       (snd (fst (CreateExecutionContextsHelper lext ext cfg
                                    paths this)))
                       ctx (map (start_timers (gpu_device_ ctx)) ps)))].
Proof.
  intros Empty Ok Small Hn Range.
  destruct (helper_creates_plan this Ok)
    as (new & E & M & N).
  rewrite Empty in E. cbn [app] in E.
  assert (Len : List.length new
                = List.length
                    (planned_instances (NO_GPU_DEVICE lext)
                       (lc_instance_group cfg)))
    by (rewrite <- M; symmetry; apply length_map).
  rewrite N in Hn. injection Hn as <-.
  unfold to_uint32 in Range. rewrite Z.mod_small in Range by lia.
  destruct (nth_error new (Z.to_nat runner_idx)) as [ctx|] eqn:Nth.
  2:{ apply nth_error_None in Nth. lia. }
  set (this' := snd (fst (CreateExecutionContextsHelper lext ext cfg paths this)))
    in *.
  exists ctx.
  unfold OnnxBackend_Run. rewrite E.
  destruct (runner_idx >=? Z.of_nat (List.length new)) eqn:R; [lia|].
  rewrite Nth.
  destruct (Context_Run ext this' ctx (map (start_timers (gpu_device_ ctx)) ps))
    as [status s].
  cbn [fst snd ReleaseOrtRunResources].
  eexists. split; [reflexivity|]. split.
  - rewrite <- M. now apply map_nth_error.
  - rewrite app_assoc. reflexivity.
Qed.

(** X15.  [ValidateInputs] succeeds exactly when the input names of the
    session can be read and every configured input is allowed for them
    and has a datatype the runtime has an element type for. *)
Theorem ValidateInputs_ok_iff (ctx : Context) (ios : list ModelInput) :
  IsOk (ValidateInputs lext ext ctx ios) = true
  <-> IsOk (fst (InputNames lext (session_ ctx))) = true
      /\ Forall
           (fun io =>
              IsOk (CheckAllowedModelInput lext io
                      (snd (InputNames lext (session_ ctx)))) = true
              /\ ConvertToOnnxDataType ext (mi_data_type io)
                 <> ONNX_TENSOR_ELEMENT_DATA_TYPE_UNDEFINED lext)
           ios.
Proof.
  unfold ValidateInputs.
  destruct (InputNames lext (session_ ctx)) as [st names]. cbn [fst snd].
  destruct (IsOk st) eqn:Ok; cbn [negb].
  2:{ rewrite Ok. split; [discriminate | intros [H _]; discriminate]. }
  induction ios as [|io rest IH]; cbn [validate_inputs].
  - split; [now split | reflexivity].
  - destruct (IsOk (CheckAllowedModelInput lext io names)) eqn:A; cbn [negb].
    2:{ rewrite A. split; [discriminate|].
        intros [_ F]. apply Forall_cons_iff in F as [[F _] _]. congruence. }
    destruct (ConvertToOnnxDataType ext (mi_data_type io)
              =? ONNX_TENSOR_ELEMENT_DATA_TYPE_UNDEFINED lext) eqn:U.
    + split; [discriminate|].
      intros [_ F]. apply Forall_cons_iff in F as [[_ F] _]. lia.
    + rewrite IH. split.
      * intros [H F]. split; [exact H|]. constructor; [|exact F].
        split; [exact A | lia].
      * intros [H F]. apply Forall_cons_iff in F as [_ F]. now split.
Qed.

(** X16.  [ValidateOutputs] succeeds exactly when the output names of
    the session can be read and every configured output is allowed for
    them and has a datatype the runtime has an element type for. *)
Theorem ValidateOutputs_ok_iff (ctx : Context) (ios : list ModelOutput) :
  IsOk (ValidateOutputs lext ext ctx ios) = true
  <-> IsOk (fst (OutputNames lext (session_ ctx))) = true
      /\ Forall
           (fun io =>
              IsOk (CheckAllowedModelOutput lext io
                      (snd (OutputNames lext (session_ ctx)))) = true
              /\ ConvertToOnnxDataType ext (mo_data_type io)
                 <> ONNX_TENSOR_ELEMENT_DATA_TYPE_UNDEFINED lext)
           ios.
Proof.
  unfold ValidateOutputs.
  destruct (OutputNames lext (session_ ctx)) as [st names]. cbn [fst snd].
  destruct (IsOk st) eqn:Ok; cbn [negb].
  2:{ rewrite Ok. split; [discriminate | intros [H _]; discriminate]. }
  induction ios as [|io rest IH]; cbn [validate_outputs].
  - split; [now split | reflexivity].
  - destruct (IsOk (CheckAllowedModelOutput lext io names)) eqn:A; cbn [negb].
    2:{ rewrite A. split; [discriminate|].
        intros [_ F]. apply Forall_cons_iff in F as [[F _] _]. congruence. }
    destruct (ConvertToOnnxDataType ext (mo_data_type io)
              =? ONNX_TENSOR_ELEMENT_DATA_TYPE_UNDEFINED lext) eqn:U.
    + split; [discriminate|].
      intros [_ F]. apply Forall_cons_iff in F as [[_ F] _]. lia.
    + rewrite IH. split.
      * intros [H F]. split; [exact H|]. constructor; [|exact F].
        split; [exact A | lia].
      * intros [H F]. apply Forall_cons_iff in F as [_ F]. now split.
Qed.

End LoadingCounts.

(** ** Undeclared inputs and timers *)

Lemma set_header_inputs_undeclared (ext : Externals) (base : OnnxBackend)
    (B : Z) (inputs : list HeaderInput) :
  Exists (undeclared base) inputs ->
  forall s, IsOk (fst (set_header_inputs ext base B inputs s)) = false.
Proof.
  induction 1 as [i rest [st G] | i rest _ IH]; intros s;
    cbn [set_header_inputs].
  - rewrite G. unfold GetInput in G. destruct (find _ _); [discriminate|].
    injection G as <-. reflexivity.
  - destruct (GetInput base (hi_name i)) as [st|c] eqn:G.
    + unfold GetInput in G. destruct (find _ _); [discriminate|].
      injection G as <-. reflexivity.
    + unfold and_then.
      destruct (IsOk (fst (SetInputTensor ext (hi_name i) (mi_data_type c)
                             (hi_dims i) B s))) eqn:Ok; [apply IH | exact Ok].
Qed.

(** X17.  When the header of the representative payload names an input
    the model configuration does not declare, a dispatch with a non-zero
    total batch size fails and the runtime is never called. *)
Theorem Context_Run_undeclared_input
    (ext : Externals) (base : OnnxBackend) (ctx : Context) (ps : list Payload)
    (rp : InferRequestProvider) :
  representative ps = Some rp ->
  Exists (undeclared base) (input (RequestHeader rp)) ->
  total_batch_size ps <> 0 ->
  IsOk (fst (Context_Run ext base ctx ps)) = false
  /\ ort_runs (rs_events (snd (Context_Run ext base ctx ps))) = 0%nat.
Proof.
  intros Hrp Un Z0.
  destruct (all_ok ps) eqn:Ok.
  2:{ unfold Context_Run.
      destruct (collect_batch_failed ctx ps 0 None Ok) as [m ->]. now split. }
  destruct (negb (total_batch_size ps =? 1)
            && (total_batch_size ps >? to_size_t (max_batch_size_ ctx))) eqn:G.
  { unfold Context_Run. rewrite (collect_batch_all_ok ctx ps 0 None Ok).
    fold (total_batch_size ps).
    destruct (total_batch_size ps =? 0) eqn:E0; [lia|].
    rewrite G. now split. }
  assert (Hguard : total_batch_size ps = 1
                   \/ total_batch_size ps <= to_size_t (max_batch_size_ ctx)).
  { apply andb_false_iff in G as [G|G].
    - apply negb_false_iff in G. lia.
    - lia. }
  rewrite (Context_Run_stages ext base ctx ps rp Ok Z0 Hguard Hrp).
  unfold assemble_inputs, and_then.
  pose proof (set_header_inputs_undeclared ext base (total_batch_size ps)
                (input (RequestHeader rp)) Un (mkRunState ctx ps [] [] [])) as Bad.
  destruct (set_header_inputs_assembles ext base (total_batch_size ps)
              (input (RequestHeader rp)) (mkRunState ctx ps [] [] []))
    as (n & (_ & (evs & Ev & Q) & _) & _).
  rewrite !Bad. split; [reflexivity|].
  rewrite Ev. cbn [rs_events app]. unfold ort_runs.
  now rewrite (creates_no_run evs Q).
Qed.

Lemma start_timers_started (gpu_device : Z) (ps : list Payload) :
  Forall2 (timers_started gpu_device) ps (map (start_timers gpu_device) ps).
Proof.
  induction ps as [|p rest IH]; cbn [map]; constructor; trivial.
  unfold timers_started, start_timers. cbn. now repeat split.
Qed.

Lemma Forall2_then {A : Type} (R S T : A -> A -> Prop) :
  (forall x y z, R x y -> S y z -> T x z) ->
  forall l1 l2 l3, Forall2 R l1 l2 -> Forall2 S l2 l3 -> Forall2 T l1 l3.
Proof.
  intros Tr l1 l2 l3 H. revert l3.
  induction H as [|x y l1 l2 Hxy H IH]; intros l3 H3.
  - inversion H3. constructor.
  - inversion H3 as [|y' z l2' l3' Hyz H3']; subst.
    constructor; [eapply Tr; eassumption | now apply IH].
Qed.

(** X18.  A dispatch to an unknown runner returns the payloads
    untouched.  A dispatch to a runner that has a context returns every
    payload, in order, with its queue timer stopped, its compute timer
    (if it has statistics) started and set to the device of that
    context, and its request header unchanged. *)
Theorem OnnxBackend_Run_timers
    (ext : Externals) (this : OnnxBackend) (runner_idx : Z) (ps : list Payload) :
  (runner_idx >= Z.of_nat (List.length (contexts_ this)) ->
   snd (fst (OnnxBackend_Run ext this runner_idx ps)) = ps)
  /\ (forall ctx,
         runner_idx < Z.of_nat (List.length (contexts_ this)) ->
         nth_error (contexts_ this) (Z.to_nat runner_idx) = Some ctx ->
         Forall2 (timers_started (gpu_device_ ctx)) ps
           (snd (fst (OnnxBackend_Run ext this runner_idx ps)))).
Proof.
  unfold OnnxBackend_Run. split.
  - intros R.
    destruct (runner_idx >=? Z.of_nat (List.length (contexts_ this))) eqn:E;
      [reflexivity | lia].
  - intros ctx R Nth.
    destruct (runner_idx >=? Z.of_nat (List.length (contexts_ this))) eqn:E;
      [lia|].
    rewrite Nth.
    pose proof (Context_Run_run_keeps ext this ctx
                  (map (start_timers (gpu_device_ ctx)) ps)) as K.
    destruct (Context_Run ext this ctx (map (start_timers (gpu_device_ ctx)) ps))
      as [status s].
    cbn [fst snd ReleaseOrtRunResources] in *.
    eapply Forall2_then; [| apply start_timers_started | exact K].
    intros x y z (T1 & T2 & T3) (K1 & K2 & K3 & _).
    unfold timers_started. repeat split; congruence.
Qed.

(** ** The further properties at concrete inputs *)

(** The three payloads, seven items, on the runtime that fails for a
    batch of more than four items. *)
Lemma compute_failure_scenario :
  fst (Context_Run overloaded_ext sample_backend sample_ctx
         [payload_a; payload_b; payload_c])
  = ort_error (mkOrtStatus 1 "out of memory").
Proof.
  eapply (fun n t o H1 H2 =>
            proj1 (Context_Run_compute_failure overloaded_ext sample_backend
                     sample_ctx [payload_a; payload_b; payload_c]
                     (mkOrtStatus 1 "out of memory") n t o H1 H2)).
  - vm_compute. right. left. reflexivity.
  - reflexivity.
Defined.

(** The three payloads on the echo model: one tensor for one name. *)
Lemma inputs_complete_scenario :
  exists tensors,
    In (EvOrtRun ["IN"] tensors ["OUT"])
       (rs_events
          (snd (Context_Run sample_ext sample_backend sample_ctx
                  [payload_a; payload_b; payload_c])))
    /\ List.length tensors = 1%nat
    /\ forallb is_set tensors = true.
Proof.
  eexists. split.
  - vm_compute. right. left. reflexivity.
  - eapply (Context_Run_inputs_complete sample_ext sample_backend sample_ctx
              [payload_a; payload_b; payload_c] ["IN"] _ ["OUT"]).
    + reflexivity.
    + vm_compute. right. left. reflexivity.
Defined.

(** The context as a run on the runtime that produces no output handle
    leaves it: the handle of "OUT" is null. *)
Lemma missing_tensor_scenario :
  output_tensors_ ctx_null_output = [None]
  /\ IsOk (fst (ReadOutputTensors silent_ext sample_backend ctx_null_output 2
                  ["OUT"] [payload_b; payload_b])) = false.
Proof.
  split; [reflexivity|].
  apply (ReadOutputTensors_missing_tensor silent_ext sample_backend
           ctx_null_output 2 ["OUT"] [payload_b; payload_b] 0 "OUT");
    reflexivity.
Defined.

(** The 8-byte output against the 4-byte configuration: nothing is
    handed out. *)
Lemma single_output_scenario :
  snd (ReadOutputTensors sample_ext sample_backend ctx_fp64_output 2 ["OUT"]
         [payload_b; payload_b])
  = [payload_b; payload_b].
Proof.
  apply (ReadOutputTensors_single_output_atomic sample_ext sample_backend
           ctx_fp64_output 2 "OUT" [payload_b; payload_b]).
  reflexivity.
Defined.

(** A failed payload among payloads whose allocators never fail. *)
Lemma keeps_statuses_scenario :
  map status_
    (snd (ReadOutputTensors sample_ext sample_backend ctx_fp64_output 2 ["OUT"]
            [payload_failed; payload_b]))
  = [mkStatus INVALID_ARG "rejected upstream"; Success].
Proof.
  apply (ReadOutputTensors_keeps_statuses sample_ext sample_backend
           ctx_fp64_output 2 ["OUT"] [payload_failed; payload_b]).
  repeat constructor.
Defined.

(** A failed payload behind an OK one. *)
Lemma skips_failed_scenario :
  nth_error
    (rs_payloads
       (snd (SetInputTensor sample_ext "IN" TYPE_FP32 [3] 4
               (run_state_of sample_ctx [payload_a; payload_failed]))))
    1
  = Some payload_failed.
Proof.
  apply (SetInputTensor_skips_failed sample_ext "IN" TYPE_FP32 [3] 4
           (run_state_of sample_ctx [payload_a; payload_failed]) 1
           payload_failed); reflexivity.
Defined.


(** A dispatch on the sample backend. *)
Lemma keeps_idle_scenario :
  Forall idle
    (contexts_
       (fst (fst (OnnxBackend_Run sample_ext sample_backend 0
                    [payload_a; payload_b; payload_c])))).
Proof.
  apply (OnnxBackend_Run_keeps_idle sample_ext sample_backend 0
           [payload_a; payload_b; payload_c]).
  repeat constructor.
Defined.

(** The context of runner 0 after that dispatch. *)
Lemma destructor_scenario :
  exists ctx',
    nth_error
      (contexts_
         (fst (fst (OnnxBackend_Run sample_ext sample_backend 0
                      [payload_a; payload_b; payload_c])))) 0
    = Some ctx'
    /\ filter is_td_run (Context_destructor ctx') = [].
Proof.
  eexists. split.
  - vm_compute. reflexivity.
  - eapply (destructor_after_dispatch sample_ext sample_backend 0
              [payload_a; payload_b; payload_c]).
    + cbn. lia.
    + vm_compute. reflexivity.
Defined.

(** Two CPU instances and one GPU instance. *)
Lemma creates_plan_scenario :
  exists new,
    contexts_
      (snd (fst (CreateExecutionContextsHelper sample_lext sample_ext
                   sample_load_config sample_paths empty_backend)))
    = contexts_ empty_backend ++ new
    /\ map instance_of new
       = [("cpu_group_0_cpu", -1); ("cpu_group_1_cpu", -1);
          ("gpu_group_0_gpu0", 0)]
    /\ snd (CreateExecutionContextsHelper sample_lext sample_ext
              sample_load_config sample_paths empty_backend)
       = Some (to_uint32 (Z.of_nat (List.length new))).
Proof.
  apply (CreateExecutionContextsHelper_creates_plan sample_lext sample_ext
           sample_load_config sample_paths empty_backend).
  reflexivity.
Defined.

(** Runner 2 of the backend just created is the GPU instance. *)
Lemma created_runner_scenario :
  exists ctx pre,
    nth_error
      (contexts_
         (snd (fst (CreateExecutionContextsHelper sample_lext sample_ext
                      sample_load_config sample_paths empty_backend))))
      2
    = Some ctx
    /\ nth_error
         (planned_instances (NO_GPU_DEVICE sample_lext)
            (lc_instance_group sample_load_config)) 2
       = Some (instance_of ctx)
    /\ snd (OnnxBackend_Run sample_ext
              (snd (fst (CreateExecutionContextsHelper sample_lext sample_ext
                           sample_load_config sample_paths empty_backend)))
              2 [payload_b])
       = pre
         ++ [EvComplete
               (fst (Context_Run sample_ext
                       (snd (fst (CreateExecutionContextsHelper sample_lext
                                    sample_ext sample_load_config sample_paths
                                    empty_backend)))
                       ctx (map (start_timers (gpu_device_ ctx)) [payload_b])))].
Proof.
  apply (created_runners_dispatch sample_lext sample_ext sample_load_config
           sample_paths empty_backend 3 2 [payload_b]).
  - reflexivity.
  - reflexivity.
  - reflexivity.
  - reflexivity.
  - lia.
Defined.

(** A header that asks for the input "OTHER". *)
Lemma undeclared_input_scenario :
  IsOk (fst (Context_Run sample_ext sample_backend sample_ctx
               [payload_unknown_input])) = false
  /\ ort_runs
       (rs_events
          (snd (Context_Run sample_ext sample_backend sample_ctx
                  [payload_unknown_input]))) = 0%nat.
Proof.
  apply (Context_Run_undeclared_input sample_ext sample_backend sample_ctx
           [payload_unknown_input] (request_provider_ payload_unknown_input)).
  - reflexivity.
  - apply Exists_cons_hd. eexists. reflexivity.
  - vm_compute. discriminate.
Defined.

(** ** Every payload gets the outputs it requires *)

Lemma deliver_output_served (name : string) (content : Buffer)
    (shape : list Z) (expected off : Z) (p : Payload) :
  allocator_reliable p ->
  served [name] p (deliver_output name content shape expected off p).
Proof.
  unfold served, received, wanted, allocator_reliable, deliver_output.
  destruct (response_provider_ p) as [rp|] eqn:Rp.
  2:{ intros _. rewrite Rp. now repeat split. }
  intros R. cbn [filter].
  destruct (RequiresOutput rp name) eqn:Req.
  - rewrite (R name expected shape). cbn. rewrite map_app. now repeat split.
  - rewrite Rp, app_nil_r. now repeat split.
Qed.

Lemma distribute_output_served (name : string) (content : Buffer)
    (shape : list Z) (batch1 : Z) (ps : list Payload) :
  forall off,
    Forall allocator_reliable ps ->
    Forall2 (served [name]) ps
      (distribute_output name content shape batch1 off ps).
Proof.
  induction ps as [|p rest IH]; intros off R; cbn [distribute_output].
  - constructor.
  - apply Forall_cons_iff in R as [Rp Rrest].
    constructor; [now apply deliver_output_served | now apply IH].
Qed.

Lemma served_nil (p : Payload) : allocator_reliable p -> served [] p p.
Proof.
  intros R. unfold served, wanted.
  destruct (response_provider_ p); cbn [filter]; rewrite app_nil_r;
    now repeat split.
Qed.

Lemma served_cons (n : string) (rest : list string) (p q r : Payload) :
  served [n] p q -> served rest q r -> served (n :: rest) p r.
Proof.
  intros (A1 & A2 & A3) (B1 & B2 & B3). unfold served. repeat split; trivial.
  - rewrite B1, A1, A2, <- app_assoc. f_equal.
    unfold wanted. destruct (response_provider_ p) as [rp|]; [|reflexivity].
    cbn [filter]. now destruct (RequiresOutput rp n).
  - intros ns. now rewrite B2, A2.
Qed.

Lemma Forall2_served_reliable (names : list string) (l1 l2 : list Payload) :
  Forall2 (served names) l1 l2 -> Forall allocator_reliable l2.
Proof. induction 1 as [|p q l1 l2 (_ & _ & R) _ IH]; constructor; trivial. Qed.

Lemma read_outputs_served (ext : Externals) (base : OnnxBackend) (ctx : Context)
    (B : Z) (names : list string) :
  forall idx ps,
    Forall allocator_reliable ps ->
    IsOk (fst (read_outputs ext base ctx B idx names ps)) = true ->
    Forall2 (served names) ps (snd (read_outputs ext base ctx B idx names ps)).
Proof.
  induction names as [|n rest IH]; intros idx ps R Ok; cbn [read_outputs] in *.
  - clear Ok. induction R; constructor; trivial. now apply served_nil.
  - destruct (GetOutput base n) as [st|cfg] eqn:G.
    { unfold GetOutput in G. destruct (find _ _); [discriminate|].
      injection G as <-. discriminate. }
    destruct (nth idx (output_tensors_ ctx) None) as [t|]; [|discriminate].
    destruct (OrtGetTensorMutableData ext t); [discriminate|].
    destruct (OrtGetTypeInfo ext t); [discriminate|].
    cbv zeta in *.
    match type of Ok with
    | context [if ?c then _ else _] => destruct c
    end; [discriminate|].
    match type of Ok with
    | context [distribute_output ?a ?b ?c ?d ?e ps] =>
        pose proof (distribute_output_served a b c d ps e R) as S1
    end.
    eapply Forall2_then; [apply served_cons | exact S1 |].
    apply IH; [|exact Ok].
    eapply Forall2_served_reliable. exact S1.
Qed.

(** X19.  When [ReadOutputTensors] succeeds and no allocator of the
    batch fails, every payload has been handed exactly the outputs it
    requires among the output names, one buffer each, in the order of
    the names; a payload without response provider gets none. *)
Theorem ReadOutputTensors_serves_required
    (ext : Externals) (base : OnnxBackend) (ctx : Context) (B : Z)
    (names : list string) (ps : list Payload) :
  Forall allocator_reliable ps ->
  IsOk (fst (ReadOutputTensors ext base ctx B names ps)) = true ->
  Forall2 (fun p p' => received p' = received p ++ wanted p names)
    ps (snd (ReadOutputTensors ext base ctx B names ps)).
Proof.
  intros R Ok.
  eapply Forall2_weaken;
    [|apply (read_outputs_served ext base ctx B names 0 ps R Ok)].
  intros x y (H & _). exact H.
Qed.

(** ** Loading stops at the first failure *)

Lemma begins_nil {A : Type} (plan : list A) : begins [] plan.
Proof. now exists plan. Qed.

Lemma begins_app {A : Type} (l1 l2 plan1 plan2 : list A) :
  l1 = plan1 -> begins l2 plan2 -> begins (l1 ++ l2) (plan1 ++ plan2).
Proof. intros -> [rest ->]. exists rest. now rewrite app_assoc. Qed.

Lemma begins_left {A : Type} (l plan1 plan2 : list A) :
  begins l plan1 -> begins l (plan1 ++ plan2).
Proof. intros [rest ->]. exists (rest ++ plan2). now rewrite app_assoc. Qed.

Section LoadingOrder.

Variable lext : LoadExternals.
Variable ext : Externals.
Variable cfg : LoadConfig.
Variable paths : list (string * string).

Lemma CreateExecutionContext_begins
    (this : OnnxBackend) (instance_name : string) (gpu_device : Z) :
  exists new,
    contexts_ (snd (CreateExecutionContext lext ext cfg paths this instance_name
                      gpu_device)) = contexts_ this ++ new
    /\ begins (map instance_of new) [(instance_name, gpu_device)]
    /\ (IsOk (fst (CreateExecutionContext lext ext cfg paths this instance_name
                     gpu_device)) = true ->
        map instance_of new = [(instance_name, gpu_device)]).
Proof.
  destruct (CreateExecutionContext_effect lext ext cfg paths this instance_name
              gpu_device) as [(E & Bad) | (ctx & (_ & _ & E & _) & I)].
  - exists []. rewrite E, Bad, app_nil_r.
    split; [reflexivity|]. split; [apply begins_nil | discriminate].
  - exists [ctx]. split; [exact E|]. cbn [map]. rewrite I.
    split; [now exists [] | reflexivity].
Qed.

Lemma create_on_gpus_begins (group : ModelInstanceGroup) (c : Z) (gpus : list Z) :
  forall this cnt,
    exists new,
      contexts_ (snd (fst (create_on_gpus lext ext cfg paths group c gpus this cnt)))
      = contexts_ this ++ new
      /\ begins (map instance_of new)
           (map (fun gpu_device =>
                   ((ig_name group ++ "_" ++ to_string c ++ "_gpu"
                     ++ to_string gpu_device)%string, gpu_device)) gpus)
      /\ (IsOk (fst (fst (create_on_gpus lext ext cfg paths group c gpus this cnt)))
          = true ->
          map instance_of new
          = map (fun gpu_device =>
                   ((ig_name group ++ "_" ++ to_string c ++ "_gpu"
                     ++ to_string gpu_device)%string, gpu_device)) gpus).
Proof.
  induction gpus as [|g rest IH]; intros this cnt; cbn [create_on_gpus map].
  - exists []. rewrite app_nil_r. split; [reflexivity|].
    split; [apply begins_nil | reflexivity].
  - destruct (CreateExecutionContext_begins this
                (ig_name group ++ "_" ++ to_string c ++ "_gpu" ++ to_string g)
                g) as (n1 & E1 & P1 & I1).
    destruct (CreateExecutionContext lext ext cfg paths this _ g) as [st this1].
    cbn [fst snd] in *.
    destruct (IsOk st) eqn:Ok; cbn [negb].
    + destruct (IH this1 (to_uint32 (cnt + 1))) as (n2 & E2 & P2 & I2).
      exists (n1 ++ n2). rewrite E2, E1, <- app_assoc, map_app.
      split; [reflexivity|]. split.
      * apply (begins_app _ _ [_] _ (I1 eq_refl) P2).
      * intros Ok2. now rewrite (I1 eq_refl), (I2 Ok2).
    + exists n1. cbn [fst snd]. split; [exact E1|]. split.
      * apply (begins_left _ [_] _ P1).
      * rewrite Ok. discriminate.
Qed.

Lemma create_instances_begins (group : ModelInstanceGroup) (cs : list Z) :
  forall this cnt,
    exists new,
      contexts_ (snd (fst (create_instances lext ext cfg paths group cs this cnt)))
      = contexts_ this ++ new
      /\ begins (map instance_of new)
           (flat_map
              (fun c =>
                 if is_KIND_CPU (ig_kind group) then
                   [((ig_name group ++ "_" ++ to_string c ++ "_cpu")%string,
                     NO_GPU_DEVICE lext)]
                 else
                   map (fun gpu_device =>
                          ((ig_name group ++ "_" ++ to_string c ++ "_gpu"
                            ++ to_string gpu_device)%string, gpu_device))
                       (ig_gpus group)) cs)
      /\ (IsOk (fst (fst (create_instances lext ext cfg paths group cs this cnt)))
          = true ->
          map instance_of new
          = flat_map
              (fun c =>
                 if is_KIND_CPU (ig_kind group) then
                   [((ig_name group ++ "_" ++ to_string c ++ "_cpu")%string,
                     NO_GPU_DEVICE lext)]
                 else
                   map (fun gpu_device =>
                          ((ig_name group ++ "_" ++ to_string c ++ "_gpu"
                            ++ to_string gpu_device)%string, gpu_device))
                       (ig_gpus group)) cs).
Proof.
  induction cs as [|c rest IH]; intros this cnt; cbn [create_instances flat_map].
  - exists []. rewrite app_nil_r. split; [reflexivity|].
    split; [apply begins_nil | reflexivity].
  - destruct (is_KIND_CPU (ig_kind group)).
    + destruct (CreateExecutionContext_begins this
                  (ig_name group ++ "_" ++ to_string c ++ "_cpu")
                  (NO_GPU_DEVICE lext)) as (n1 & E1 & P1 & I1).
      destruct (CreateExecutionContext lext ext cfg paths this _ _)
        as [st this1].
      cbn [fst snd] in *.
      destruct (IsOk st) eqn:Ok; cbn [negb].
      * destruct (IH this1 (to_uint32 (cnt + 1))) as (n2 & E2 & P2 & I2).
        exists (n1 ++ n2). rewrite E2, E1, <- app_assoc, map_app.
        split; [reflexivity|]. split.
        -- apply (begins_app _ _ _ _ (I1 eq_refl) P2).
        -- intros Ok2. now rewrite (I1 eq_refl), (I2 Ok2).
      * exists n1. cbn [fst snd]. split; [exact E1|]. split.
        -- apply (begins_left _ _ _ P1).
        -- rewrite Ok. discriminate.
    + destruct (create_on_gpus_begins group c (ig_gpus group) this cnt)
        as (n1 & E1 & P1 & I1).
      destruct (create_on_gpus lext ext cfg paths group c (ig_gpus group) this cnt)
        as [[st this1] cnt1].
      cbn [fst snd] in *.
      destruct (IsOk st) eqn:Ok; cbn [negb].
      * destruct (IH this1 cnt1) as (n2 & E2 & P2 & I2).
        exists (n1 ++ n2). rewrite E2, E1, <- app_assoc, map_app.
        split; [reflexivity|]. split.
        -- apply (begins_app _ _ _ _ (I1 eq_refl) P2).
        -- intros Ok2. now rewrite (I1 eq_refl), (I2 Ok2).
      * exists n1. cbn [fst snd]. split; [exact E1|]. split.
        -- apply (begins_left _ _ _ P1).
        -- rewrite Ok. discriminate.
Qed.

Lemma create_groups_begins (groups : list ModelInstanceGroup) :
  forall this cnt,
    exists new,
      contexts_ (snd (fst (create_groups lext ext cfg paths groups this cnt)))
      = contexts_ this ++ new
      /\ begins (map instance_of new)
           (planned_instances (NO_GPU_DEVICE lext) groups)
      /\ (IsOk (fst (fst (create_groups lext ext cfg paths groups this cnt)))
          = true ->
          map instance_of new = planned_instances (NO_GPU_DEVICE lext) groups).
Proof.
  induction groups as [|g rest IH]; intros this cnt;
    cbn [create_groups planned_instances flat_map].
  - exists []. rewrite app_nil_r. split; [reflexivity|].
    split; [apply begins_nil | reflexivity].
  - destruct (create_instances_begins g (counter_values (ig_count g)) this cnt)
      as (n1 & E1 & P1 & I1).
    destruct (create_instances lext ext cfg paths g
                (counter_values (ig_count g)) this cnt) as [[st this1] cnt1].
    cbn [fst snd] in *.
    destruct (IsOk st) eqn:Ok; cbn [negb].
    + destruct (IH this1 cnt1) as (n2 & E2 & P2 & I2).
      exists (n1 ++ n2). rewrite E2, E1, <- app_assoc, map_app.
      split; [reflexivity|]. split.
      * apply (begins_app _ _ _ _ (I1 eq_refl) P2).
      * intros Ok2. now rewrite (I1 eq_refl), (I2 Ok2).
    + exists n1. cbn [fst snd]. split; [exact E1|]. split.
      * apply (begins_left _ _ _ P1).
      * rewrite Ok. discriminate.
Qed.

(** X20.  [CreateExecutionContextsHelper] creates the planned instances
    in order and stops at the first failure: whatever its outcome, the
    contexts it has appended are the beginning of the planned list;
    and when creation fails the scheduler is not configured at all. *)
Theorem CreateExecutionContextsHelper_stops_at_failure (this : OnnxBackend) :
  (exists new,
      contexts_ (snd (fst (CreateExecutionContextsHelper lext ext cfg paths this)))
      = contexts_ this ++ new
      /\ begins (map instance_of new)
           (planned_instances (NO_GPU_DEVICE lext) (lc_instance_group cfg)))
  /\ (snd (CreateExecutionContextsHelper lext ext cfg paths this) = None ->
      IsOk (fst (fst (CreateExecutionContextsHelper lext ext cfg paths this)))
      = false)
  /\ (IsOk (fst (fst (create_groups lext ext cfg paths (lc_instance_group cfg)
                        this 0))) = false ->
      snd (CreateExecutionContextsHelper lext ext cfg paths this) = None).
Proof.
  unfold CreateExecutionContextsHelper.
  destruct (create_groups_begins (lc_instance_group cfg) this 0)
    as (new & E & P & _).
  destruct (create_groups lext ext cfg paths (lc_instance_group cfg) this 0)
    as [[st this'] cnt].
  cbn [fst snd] in *.
  destruct (IsOk st) eqn:Ok; cbn [negb].
  - destruct (negb (IsOk (SetConfiguredScheduler lext cnt))); cbn [fst snd];
      (split; [exists new; now split|]; split; discriminate).
  - cbn [fst snd]. split; [exists new; now split|]. now split.
Qed.

End LoadingOrder.

(** The three payloads all require "OUT". *)
Lemma serves_required_scenario :
  Forall2 (fun p p' => received p' = received p ++ wanted p ["OUT"])
    [payload_a; payload_b; payload_c]
    (snd (ReadOutputTensors sample_ext sample_backend ctx_fp32_output 7 ["OUT"]
            [payload_a; payload_b; payload_c])).
Proof.
  apply (ReadOutputTensors_serves_required sample_ext sample_backend
           ctx_fp32_output 7 ["OUT"] [payload_a; payload_b; payload_c]).
  - repeat constructor.
  - reflexivity.
Defined.
